(** * Notebook and permission synchronisation between workspaces

    A shallow embedding of [multiclou.py].  The script is a sequence of
    REST calls: every function below follows the Python function of the
    same name line by line.

    - Python objects obtained from [response.json()] are values of [json].
    - A Python [str] is held as the bytes of its UTF-8 encoding; its code
      points are read off these bytes where the code looks at them
      ([str.upper], the Latin-1 encoding of a header).
    - The outside world (the REST endpoints and the [git] subprocess) is an
      oracle that answers a call from the history of what happened so far.
    - Effects are threaded through a state-and-exception monad [M]: the
      state is the history of events (calls issued, lines printed), an
      exception either is caught by an [except] clause or ends the run. *)

From Stdlib Require Import String Ascii List ZArith Bool Lia SpecFloat.
Import ListNotations.
Local Open Scope string_scope.
Local Open Scope list_scope.

Local Set Warnings "-register-all".

(** ** Python values *)

(** What [json.loads] builds: [None], [bool], [int], [float], [str],
    [list], and [dict] with string keys.  A [dict] is the list of its
    bindings in insertion order; should a key occur twice in such a list,
    its first binding is the one that counts. *)
Inductive json : Type :=
| JNull
| JBool (b : bool)
| JInt (n : Z)
| JFloat (f : spec_float)
| JStr (s : string)
| JList (l : list json)
| JDict (d : list (string * json)).

(** An environment value, [os.getenv(...)], is [None] or a [str]. *)
Definition of_env (v : option string) : json :=
  match v with
  | Some s => JStr s
  | None => JNull
  end.

(** [f"{v}"] for an environment value. *)
Definition fmt_env (v : option string) : string :=
  match v with
  | Some s => s
  | None => "None"
  end.

(** Python truth value testing ([if v:], [not v]). *)
Definition truthy (v : json) : bool :=
  match v with
  | JNull => false
  | JBool b => b
  | JInt n => negb (Z.eqb n 0)
  | JFloat (S754_zero _) => false
  | JFloat _ => true
  | JStr s => negb (String.eqb s "")
  | JList [] => false
  | JList (_ :: _) => true
  | JDict [] => false
  | JDict (_ :: _) => true
  end.

(** Truth value of an optional string argument ([git_url], [cluster_id]). *)
Definition truthy_env (v : option string) : bool := truthy (of_env v).

(** [v == s] for a string literal [s]. *)
Definition py_eq_str (v : json) (s : string) : bool :=
  match v with
  | JStr t => String.eqb t s
  | _ => false
  end.

(** ** Exceptions *)

Inductive exn : Type :=
(* subclasses of requests.exceptions.RequestException *)
| ConnectionError
| MissingSchema
| HTTPError (status : Z)
| JSONDecodeError
(* built-in exceptions, none of them a RequestException *)
| KeyError
| IndexError
| TypeError
| AttributeError
| ValueError
| UnicodeEncodeError   (* a ValueError *)
| OSError
(* subprocess *)
| CalledProcessError (returncode : Z).

Definition is_RequestException (e : exn) : bool :=
  match e with
  | ConnectionError | MissingSchema | HTTPError _ | JSONDecodeError => true
  | _ => false
  end.

Definition is_CalledProcessError (e : exn) : bool :=
  match e with
  | CalledProcessError _ => true
  | _ => false
  end.

Inductive Res (A : Type) : Type :=
| Ok (a : A)
| Raise (e : exn).

Arguments Ok {A} a.
Arguments Raise {A} e.

Definition rbind {A B} (r : Res A) (k : A -> Res B) : Res B :=
  match r with
  | Ok a => k a
  | Raise e => Raise e
  end.

Notation "'let?' x ':=' r 'in' k" := (rbind r (fun x => k))
  (at level 10, x name, r at level 99, k at level 200).

(** ** Operations on Python values *)

Fixpoint assoc {V} (k : string) (d : list (string * V)) : option V :=
  match d with
  | [] => None
  | (k', v) :: d' => if String.eqb k' k then Some v else assoc k d'
  end.

(** [v.get(k, default)]: only a [dict] has the method. *)
Definition py_get (v : json) (k : string) (default : json) : Res json :=
  match v with
  | JDict d => Ok (match assoc k d with Some x => x | None => default end)
  | _ => Raise AttributeError
  end.

(** [v[k]] for a string [k]: a missing key is a [KeyError]; a [str] or a
    [list] wants an integer index, the other types have no subscript. *)
Definition py_getitem (v : json) (k : string) : Res json :=
  match v with
  | JDict d => match assoc k d with Some x => Ok x | None => Raise KeyError end
  | _ => Raise TypeError
  end.

(** [v[0]]: a [dict] built from JSON has no integer key. *)
Definition py_getitem0 (v : json) : Res json :=
  match v with
  | JList (x :: _) => Ok x
  | JList [] => Raise IndexError
  | JStr (String c _) => Ok (JStr (String c ""))
  | JStr "" => Raise IndexError
  | JDict _ => Raise KeyError
  | _ => Raise TypeError
  end.

(** [for x in v]: a [list] yields its elements, a [dict] its keys, a [str]
    its characters; nothing else is iterable. *)
Definition py_iter (v : json) : Res (list json) :=
  match v with
  | JList l => Ok l
  | JDict d => Ok (map (fun kv => JStr (fst kv)) d)
  | JStr s => Ok (map (fun c => JStr (String c "")) (list_ascii_of_string s))
  | _ => Raise TypeError
  end.

(** *** Dictionaries keyed by Python values

    [user_permissions] is keyed by whatever [item.get("user_name")]
    returns.  Two keys denote the same entry when they are equal as Python
    values: [True == 1 == 1.0], [False == 0 == 0.0 == -0.0], and strings by
    content.  [key_of] sends a value to a canonical representative of its
    class: a non-zero number is [(-1)^sign * m * 2^e] with [m] odd. *)

Inductive key_class : Type :=
| KNone
| KZero
| KNum (sign : bool) (m : positive) (e : Z)
| KInf (sign : bool)
| KNaN
| KStr (s : string)
| KUnhashable.

Fixpoint odd_part (m : positive) (e : Z) : positive * Z :=
  match m with
  | xO m' => odd_part m' (e + 1)
  | _ => (m, e)
  end.

Definition key_num (sign : bool) (m : positive) (e : Z) : key_class :=
  let (m', e') := odd_part m e in KNum sign m' e'.

Definition key_of (v : json) : key_class :=
  match v with
  | JNull => KNone
  | JBool false => KZero
  | JBool true => KNum false 1 0
  | JInt Z0 => KZero
  | JInt (Zpos p) => key_num false p 0
  | JInt (Zneg p) => key_num true p 0
  | JFloat (S754_zero _) => KZero
  | JFloat (S754_infinity s) => KInf s
  | JFloat S754_nan => KNaN
  | JFloat (S754_finite s m e) => key_num s m e
  | JStr s => KStr s
  | JList _ | JDict _ => KUnhashable
  end.

Definition key_class_eq_dec (a b : key_class) : {a = b} + {a <> b}.
Proof.
  decide equality;
    try apply bool_dec; try apply Z.eq_dec; try apply Pos.eq_dec;
    apply string_dec.
Defined.

Definition key_eqb (a b : json) : bool :=
  if key_class_eq_dec (key_of a) (key_of b) then true else false.

(** [hash(v)] raises [TypeError] on a [list] or a [dict]. *)
Definition py_hashable (v : json) : bool :=
  match v with
  | JList _ | JDict _ => false
  | _ => true
  end.

(** A Python [dict] as built by the program: entries in insertion order. *)
Definition pydict : Type := list (json * json).

(** [d[k] = v]: an equal key keeps its place (and the key object first
    inserted) and takes the new value; a new key goes to the end. *)
Fixpoint dict_put (d : pydict) (k v : json) : pydict :=
  match d with
  | [] => [(k, v)]
  | (k', v') :: d' =>
      if key_eqb k' k then (k', v) :: d' else (k', v') :: dict_put d' k v
  end.

Definition dict_setitem (d : pydict) (k v : json) : Res pydict :=
  if py_hashable k then Ok (dict_put d k v) else Raise TypeError.

Fixpoint dict_get (d : pydict) (k : json) : option json :=
  match d with
  | [] => None
  | (k', v) :: d' => if key_eqb k' k then Some v else dict_get d' k
  end.

(** [if d:] for an optional dictionary ([None] or empty is false). *)
Definition truthy_dict (d : option pydict) : bool :=
  match d with
  | Some (_ :: _) => true
  | _ => false
  end.

(** ** Strings *)

(** [needle in hay] on strings. *)
Fixpoint prefixb (p s : string) : bool :=
  match p, s with
  | EmptyString, _ => true
  | String a p', String b s' => Ascii.eqb a b && prefixb p' s'
  | String _ _, EmptyString => false
  end.

Fixpoint str_contains (needle hay : string) : bool :=
  prefixb needle hay ||
  match hay with
  | EmptyString => false
  | String _ hay' => str_contains needle hay'
  end.

(** [needle in v] where [v] may be [None]: [None] is not iterable. *)
Definition py_in (needle : string) (v : option string) : Res bool :=
  match v with
  | Some s => Ok (str_contains needle s)
  | None => Raise TypeError
  end.

(** *** Text

    A Python [str] is a sequence of code points; it is held here as the
    bytes of its UTF-8 encoding.  Bytes that are not well-formed UTF-8 are
    no text; so that the functions below are total, each such byte is read
    as the replacement character U+FFFD. *)

Definition byte_code (b : ascii) : N := N_of_ascii b.
Definition code_byte (n : N) : ascii := ascii_of_N n.

Definition continuation (n : N) : bool := ((0x80 <=? n) && (n <? 0xC0))%N.

Definition replacement : N := 0xFFFD%N.

(** The code points of a string. *)
Fixpoint utf8_decode (s : string) : list N :=
  match s with
  | EmptyString => []
  | String b0 s1 =>
      let n0 := byte_code b0 in
      if (n0 <? 0x80)%N then n0 :: utf8_decode s1
      else
        match s1 with
        | EmptyString => [replacement]
        | String b1 s2 =>
            let n1 := byte_code b1 in
            let c2 := ((n0 - 0xC0) * 64 + (n1 - 0x80))%N in
            if ((0xC0 <=? n0) && (n0 <? 0xE0) && continuation n1
                && (0x80 <=? c2))%N
            then c2 :: utf8_decode s2
            else
              match s2 with
              | EmptyString => replacement :: utf8_decode s1
              | String b2 s3 =>
                  let n2 := byte_code b2 in
                  let c3 :=
                    ((n0 - 0xE0) * 4096 + (n1 - 0x80) * 64 + (n2 - 0x80))%N in
                  if ((0xE0 <=? n0) && (n0 <? 0xF0) && continuation n1
                      && continuation n2 && (0x800 <=? c3)
                      && negb ((0xD800 <=? c3) && (c3 <? 0xE000)))%N
                  then c3 :: utf8_decode s3
                  else
                    match s3 with
                    | EmptyString => replacement :: utf8_decode s1
                    | String b3 s4 =>
                        let n3 := byte_code b3 in
                        let c4 :=
                          ((n0 - 0xF0) * 262144 + (n1 - 0x80) * 4096
                           + (n2 - 0x80) * 64 + (n3 - 0x80))%N in
                        if ((0xF0 <=? n0) && (n0 <? 0xF8) && continuation n1
                            && continuation n2 && continuation n3
                            && (0x10000 <=? c4) && (c4 <? 0x110000))%N
                        then c4 :: utf8_decode s4
                        else replacement :: utf8_decode s1
                    end
              end
        end
  end.

(** The bytes of one code point. *)
Definition utf8_encode_code (c : N) : string :=
  if (c <? 0x80)%N then String (code_byte c) ""
  else if (c <? 0x800)%N then
    String (code_byte (0xC0 + c / 64))
      (String (code_byte (0x80 + c mod 64)) "")
  else if (c <? 0x10000)%N then
    String (code_byte (0xE0 + c / 4096))
      (String (code_byte (0x80 + (c / 64) mod 64))
         (String (code_byte (0x80 + c mod 64)) ""))
  else
    String (code_byte (0xF0 + c / 262144))
      (String (code_byte (0x80 + (c / 4096) mod 64))
         (String (code_byte (0x80 + (c / 64) mod 64))
            (String (code_byte (0x80 + c mod 64)) ""))).

Fixpoint utf8_encode (l : list N) : string :=
  match l with
  | [] => ""
  | c :: l' => String.append (utf8_encode_code c) (utf8_encode l')
  end.

(** [s.encode("latin-1")] succeeds: every code point is below U+0100. *)
Definition latin1_encodable (s : string) : bool :=
  forallb (fun c => (c <? 0x100)%N) (utf8_decode s).

(** [str.upper], as CPython 3.11 has it (Unicode 14.0).  The upper case of
    a code point does not depend on its neighbours.  [case_runs] lists
    the code points whose upper case is one code point: from [first] to
    [last] in steps of [step], the upper case of [first] being [target]
    and the distance being the same for the whole run.  [special_upper]
    lists the code points whose upper case is longer.  Any other code
    point is its own upper case. *)
Definition case_runs : list (N * N * N * N) :=
  [ (0x61, 0x7A, 1, 0x41); (0xB5, 0xB5, 1, 0x39C); (0xE0, 0xF6, 1, 0xC0);
    (0xF8, 0xFE, 1, 0xD8); (0xFF, 0xFF, 1, 0x178);
    (0x101, 0x12F, 2, 0x100); (0x131, 0x131, 1, 0x49);
    (0x133, 0x137, 2, 0x132); (0x13A, 0x148, 2, 0x139);
    (0x14B, 0x177, 2, 0x14A); (0x17A, 0x17E, 2, 0x179);
    (0x17F, 0x17F, 1, 0x53); (0x180, 0x180, 1, 0x243);
    (0x183, 0x185, 2, 0x182); (0x188, 0x188, 1, 0x187);
    (0x18C, 0x18C, 1, 0x18B); (0x192, 0x192, 1, 0x191);
    (0x195, 0x195, 1, 0x1F6); (0x199, 0x199, 1, 0x198);
    (0x19A, 0x19A, 1, 0x23D); (0x19E, 0x19E, 1, 0x220);
    (0x1A1, 0x1A5, 2, 0x1A0); (0x1A8, 0x1A8, 1, 0x1A7);
    (0x1AD, 0x1AD, 1, 0x1AC); (0x1B0, 0x1B0, 1, 0x1AF);
    (0x1B4, 0x1B6, 2, 0x1B3); (0x1B9, 0x1B9, 1, 0x1B8);
    (0x1BD, 0x1BD, 1, 0x1BC); (0x1BF, 0x1BF, 1, 0x1F7);
    (0x1C5, 0x1C5, 1, 0x1C4); (0x1C6, 0x1C6, 1, 0x1C4);
    (0x1C8, 0x1C8, 1, 0x1C7); (0x1C9, 0x1C9, 1, 0x1C7);
    (0x1CB, 0x1CB, 1, 0x1CA); (0x1CC, 0x1CC, 1, 0x1CA);
    (0x1CE, 0x1DC, 2, 0x1CD); (0x1DD, 0x1DD, 1, 0x18E);
    (0x1DF, 0x1EF, 2, 0x1DE); (0x1F2, 0x1F2, 1, 0x1F1);
    (0x1F3, 0x1F3, 1, 0x1F1); (0x1F5, 0x1F5, 1, 0x1F4);
    (0x1F9, 0x21F, 2, 0x1F8); (0x223, 0x233, 2, 0x222);
    (0x23C, 0x23C, 1, 0x23B); (0x23F, 0x240, 1, 0x2C7E);
    (0x242, 0x242, 1, 0x241); (0x247, 0x24F, 2, 0x246);
    (0x250, 0x250, 1, 0x2C6F); (0x251, 0x251, 1, 0x2C6D);
    (0x252, 0x252, 1, 0x2C70); (0x253, 0x253, 1, 0x181);
    (0x254, 0x254, 1, 0x186); (0x256, 0x257, 1, 0x189);
    (0x259, 0x259, 1, 0x18F); (0x25B, 0x25B, 1, 0x190);
    (0x25C, 0x25C, 1, 0xA7AB); (0x260, 0x260, 1, 0x193);
    (0x261, 0x261, 1, 0xA7AC); (0x263, 0x263, 1, 0x194);
    (0x265, 0x265, 1, 0xA78D); (0x266, 0x266, 1, 0xA7AA);
    (0x268, 0x268, 1, 0x197); (0x269, 0x269, 1, 0x196);
    (0x26A, 0x26A, 1, 0xA7AE); (0x26B, 0x26B, 1, 0x2C62);
    (0x26C, 0x26C, 1, 0xA7AD); (0x26F, 0x26F, 1, 0x19C);
    (0x271, 0x271, 1, 0x2C6E); (0x272, 0x272, 1, 0x19D);
    (0x275, 0x275, 1, 0x19F); (0x27D, 0x27D, 1, 0x2C64);
    (0x280, 0x280, 1, 0x1A6); (0x282, 0x282, 1, 0xA7C5);
    (0x283, 0x283, 1, 0x1A9); (0x287, 0x287, 1, 0xA7B1);
    (0x288, 0x288, 1, 0x1AE); (0x289, 0x289, 1, 0x244);
    (0x28A, 0x28B, 1, 0x1B1); (0x28C, 0x28C, 1, 0x245);
    (0x292, 0x292, 1, 0x1B7); (0x29D, 0x29D, 1, 0xA7B2);
    (0x29E, 0x29E, 1, 0xA7B0); (0x345, 0x345, 1, 0x399);
    (0x371, 0x373, 2, 0x370); (0x377, 0x377, 1, 0x376);
    (0x37B, 0x37D, 1, 0x3FD); (0x3AC, 0x3AC, 1, 0x386);
    (0x3AD, 0x3AF, 1, 0x388); (0x3B1, 0x3C1, 1, 0x391);
    (0x3C2, 0x3C2, 1, 0x3A3); (0x3C3, 0x3CB, 1, 0x3A3);
    (0x3CC, 0x3CC, 1, 0x38C); (0x3CD, 0x3CE, 1, 0x38E);
    (0x3D0, 0x3D0, 1, 0x392); (0x3D1, 0x3D1, 1, 0x398);
    (0x3D5, 0x3D5, 1, 0x3A6); (0x3D6, 0x3D6, 1, 0x3A0);
    (0x3D7, 0x3D7, 1, 0x3CF); (0x3D9, 0x3EF, 2, 0x3D8);
    (0x3F0, 0x3F0, 1, 0x39A); (0x3F1, 0x3F1, 1, 0x3A1);
    (0x3F2, 0x3F2, 1, 0x3F9); (0x3F3, 0x3F3, 1, 0x37F);
    (0x3F5, 0x3F5, 1, 0x395); (0x3F8, 0x3F8, 1, 0x3F7);
    (0x3FB, 0x3FB, 1, 0x3FA); (0x430, 0x44F, 1, 0x410);
    (0x450, 0x45F, 1, 0x400); (0x461, 0x481, 2, 0x460);
    (0x48B, 0x4BF, 2, 0x48A); (0x4C2, 0x4CE, 2, 0x4C1);
    (0x4CF, 0x4CF, 1, 0x4C0); (0x4D1, 0x52F, 2, 0x4D0);
    (0x561, 0x586, 1, 0x531); (0x10D0, 0x10FA, 1, 0x1C90);
    (0x10FD, 0x10FF, 1, 0x1CBD); (0x13F8, 0x13FD, 1, 0x13F0);
    (0x1C80, 0x1C80, 1, 0x412); (0x1C81, 0x1C81, 1, 0x414);
    (0x1C82, 0x1C82, 1, 0x41E); (0x1C83, 0x1C84, 1, 0x421);
    (0x1C85, 0x1C85, 1, 0x422); (0x1C86, 0x1C86, 1, 0x42A);
    (0x1C87, 0x1C87, 1, 0x462); (0x1C88, 0x1C88, 1, 0xA64A);
    (0x1D79, 0x1D79, 1, 0xA77D); (0x1D7D, 0x1D7D, 1, 0x2C63);
    (0x1D8E, 0x1D8E, 1, 0xA7C6); (0x1E01, 0x1E95, 2, 0x1E00);
    (0x1E9B, 0x1E9B, 1, 0x1E60); (0x1EA1, 0x1EFF, 2, 0x1EA0);
    (0x1F00, 0x1F07, 1, 0x1F08); (0x1F10, 0x1F15, 1, 0x1F18);
    (0x1F20, 0x1F27, 1, 0x1F28); (0x1F30, 0x1F37, 1, 0x1F38);
    (0x1F40, 0x1F45, 1, 0x1F48); (0x1F51, 0x1F57, 2, 0x1F59);
    (0x1F60, 0x1F67, 1, 0x1F68); (0x1F70, 0x1F71, 1, 0x1FBA);
    (0x1F72, 0x1F75, 1, 0x1FC8); (0x1F76, 0x1F77, 1, 0x1FDA);
    (0x1F78, 0x1F79, 1, 0x1FF8); (0x1F7A, 0x1F7B, 1, 0x1FEA);
    (0x1F7C, 0x1F7D, 1, 0x1FFA); (0x1FB0, 0x1FB1, 1, 0x1FB8);
    (0x1FBE, 0x1FBE, 1, 0x399); (0x1FD0, 0x1FD1, 1, 0x1FD8);
    (0x1FE0, 0x1FE1, 1, 0x1FE8); (0x1FE5, 0x1FE5, 1, 0x1FEC);
    (0x214E, 0x214E, 1, 0x2132); (0x2170, 0x217F, 1, 0x2160);
    (0x2184, 0x2184, 1, 0x2183); (0x24D0, 0x24E9, 1, 0x24B6);
    (0x2C30, 0x2C5F, 1, 0x2C00); (0x2C61, 0x2C61, 1, 0x2C60);
    (0x2C65, 0x2C65, 1, 0x23A); (0x2C66, 0x2C66, 1, 0x23E);
    (0x2C68, 0x2C6C, 2, 0x2C67); (0x2C73, 0x2C73, 1, 0x2C72);
    (0x2C76, 0x2C76, 1, 0x2C75); (0x2C81, 0x2CE3, 2, 0x2C80);
    (0x2CEC, 0x2CEE, 2, 0x2CEB); (0x2CF3, 0x2CF3, 1, 0x2CF2);
    (0x2D00, 0x2D25, 1, 0x10A0); (0x2D27, 0x2D27, 1, 0x10C7);
    (0x2D2D, 0x2D2D, 1, 0x10CD); (0xA641, 0xA66D, 2, 0xA640);
    (0xA681, 0xA69B, 2, 0xA680); (0xA723, 0xA72F, 2, 0xA722);
    (0xA733, 0xA76F, 2, 0xA732); (0xA77A, 0xA77C, 2, 0xA779);
    (0xA77F, 0xA787, 2, 0xA77E); (0xA78C, 0xA78C, 1, 0xA78B);
    (0xA791, 0xA793, 2, 0xA790); (0xA794, 0xA794, 1, 0xA7C4);
    (0xA797, 0xA7A9, 2, 0xA796); (0xA7B5, 0xA7C3, 2, 0xA7B4);
    (0xA7C8, 0xA7CA, 2, 0xA7C7); (0xA7D1, 0xA7D1, 1, 0xA7D0);
    (0xA7D7, 0xA7D9, 2, 0xA7D6); (0xA7F6, 0xA7F6, 1, 0xA7F5);
    (0xAB53, 0xAB53, 1, 0xA7B3); (0xAB70, 0xABBF, 1, 0x13A0);
    (0xFF41, 0xFF5A, 1, 0xFF21); (0x10428, 0x1044F, 1, 0x10400);
    (0x104D8, 0x104FB, 1, 0x104B0); (0x10597, 0x105BB, 2, 0x10570);
    (0x10598, 0x105A0, 2, 0x10571); (0x105A4, 0x105B0, 2, 0x1057D);
    (0x105B4, 0x105B8, 2, 0x1058D); (0x105BC, 0x105BC, 1, 0x10595);
    (0x10CC0, 0x10CF2, 1, 0x10C80); (0x118C0, 0x118DF, 1, 0x118A0);
    (0x16E60, 0x16E7F, 1, 0x16E40); (0x1E922, 0x1E943, 1, 0x1E900) ]%N.

Definition special_upper : list (N * list N) :=
  [ (0xDF, [0x53; 0x53]); (0x149, [0x2BC; 0x4E]); (0x1F0, [0x4A; 0x30C]);
    (0x390, [0x399; 0x308; 0x301]); (0x3B0, [0x3A5; 0x308; 0x301]);
    (0x587, [0x535; 0x552]); (0x1E96, [0x48; 0x331]);
    (0x1E97, [0x54; 0x308]); (0x1E98, [0x57; 0x30A]);
    (0x1E99, [0x59; 0x30A]); (0x1E9A, [0x41; 0x2BE]);
    (0x1F50, [0x3A5; 0x313]); (0x1F52, [0x3A5; 0x313; 0x300]);
    (0x1F54, [0x3A5; 0x313; 0x301]); (0x1F56, [0x3A5; 0x313; 0x342]);
    (0x1F80, [0x1F08; 0x399]); (0x1F81, [0x1F09; 0x399]);
    (0x1F82, [0x1F0A; 0x399]); (0x1F83, [0x1F0B; 0x399]);
    (0x1F84, [0x1F0C; 0x399]); (0x1F85, [0x1F0D; 0x399]);
    (0x1F86, [0x1F0E; 0x399]); (0x1F87, [0x1F0F; 0x399]);
    (0x1F88, [0x1F08; 0x399]); (0x1F89, [0x1F09; 0x399]);
    (0x1F8A, [0x1F0A; 0x399]); (0x1F8B, [0x1F0B; 0x399]);
    (0x1F8C, [0x1F0C; 0x399]); (0x1F8D, [0x1F0D; 0x399]);
    (0x1F8E, [0x1F0E; 0x399]); (0x1F8F, [0x1F0F; 0x399]);
    (0x1F90, [0x1F28; 0x399]); (0x1F91, [0x1F29; 0x399]);
    (0x1F92, [0x1F2A; 0x399]); (0x1F93, [0x1F2B; 0x399]);
    (0x1F94, [0x1F2C; 0x399]); (0x1F95, [0x1F2D; 0x399]);
    (0x1F96, [0x1F2E; 0x399]); (0x1F97, [0x1F2F; 0x399]);
    (0x1F98, [0x1F28; 0x399]); (0x1F99, [0x1F29; 0x399]);
    (0x1F9A, [0x1F2A; 0x399]); (0x1F9B, [0x1F2B; 0x399]);
    (0x1F9C, [0x1F2C; 0x399]); (0x1F9D, [0x1F2D; 0x399]);
    (0x1F9E, [0x1F2E; 0x399]); (0x1F9F, [0x1F2F; 0x399]);
    (0x1FA0, [0x1F68; 0x399]); (0x1FA1, [0x1F69; 0x399]);
    (0x1FA2, [0x1F6A; 0x399]); (0x1FA3, [0x1F6B; 0x399]);
    (0x1FA4, [0x1F6C; 0x399]); (0x1FA5, [0x1F6D; 0x399]);
    (0x1FA6, [0x1F6E; 0x399]); (0x1FA7, [0x1F6F; 0x399]);
    (0x1FA8, [0x1F68; 0x399]); (0x1FA9, [0x1F69; 0x399]);
    (0x1FAA, [0x1F6A; 0x399]); (0x1FAB, [0x1F6B; 0x399]);
    (0x1FAC, [0x1F6C; 0x399]); (0x1FAD, [0x1F6D; 0x399]);
    (0x1FAE, [0x1F6E; 0x399]); (0x1FAF, [0x1F6F; 0x399]);
    (0x1FB2, [0x1FBA; 0x399]); (0x1FB3, [0x391; 0x399]);
    (0x1FB4, [0x386; 0x399]); (0x1FB6, [0x391; 0x342]);
    (0x1FB7, [0x391; 0x342; 0x399]); (0x1FBC, [0x391; 0x399]);
    (0x1FC2, [0x1FCA; 0x399]); (0x1FC3, [0x397; 0x399]);
    (0x1FC4, [0x389; 0x399]); (0x1FC6, [0x397; 0x342]);
    (0x1FC7, [0x397; 0x342; 0x399]); (0x1FCC, [0x397; 0x399]);
    (0x1FD2, [0x399; 0x308; 0x300]); (0x1FD3, [0x399; 0x308; 0x301]);
    (0x1FD6, [0x399; 0x342]); (0x1FD7, [0x399; 0x308; 0x342]);
    (0x1FE2, [0x3A5; 0x308; 0x300]); (0x1FE3, [0x3A5; 0x308; 0x301]);
    (0x1FE4, [0x3A1; 0x313]); (0x1FE6, [0x3A5; 0x342]);
    (0x1FE7, [0x3A5; 0x308; 0x342]); (0x1FF2, [0x1FFA; 0x399]);
    (0x1FF3, [0x3A9; 0x399]); (0x1FF4, [0x38F; 0x399]);
    (0x1FF6, [0x3A9; 0x342]); (0x1FF7, [0x3A9; 0x342; 0x399]);
    (0x1FFC, [0x3A9; 0x399]); (0xFB00, [0x46; 0x46]);
    (0xFB01, [0x46; 0x49]); (0xFB02, [0x46; 0x4C]);
    (0xFB03, [0x46; 0x46; 0x49]); (0xFB04, [0x46; 0x46; 0x4C]);
    (0xFB05, [0x53; 0x54]); (0xFB06, [0x53; 0x54]);
    (0xFB13, [0x544; 0x546]); (0xFB14, [0x544; 0x535]);
    (0xFB15, [0x544; 0x53B]); (0xFB16, [0x54E; 0x546]);
    (0xFB17, [0x544; 0x53D]) ]%N.

Definition in_run (c : N) (r : N * N * N * N) : bool :=
  let '(first, last, step, _) := r in
  ((first <=? c) && (c <=? last) && ((c - first) mod step =? 0))%N.

Definition upper_code (c : N) : list N :=
  match find (fun e => (fst e =? c)%N) special_upper with
  | Some e => snd e
  | None =>
      match find (in_run c) case_runs with
      | Some (first, _, _, target) => [(target + (c - first))%N]
      | None => [c]
      end
  end.

Definition upper (s : string) : string :=
  utf8_encode (flat_map upper_code (utf8_decode s)).

(** ** Requests, events and the outside world *)

Inductive Method : Type := GET | POST | PATCH | PUT.

(** The resource after [/api/2.0/] in an endpoint.  The permission
    endpoints interpolate the object id returned by the status call. *)
Inductive Resource : Type :=
| WorkspaceList                            (* workspace/list *)
| WorkspaceExport                          (* workspace/export *)
| WorkspaceImport                          (* workspace/import *)
| WorkspaceGetStatus                       (* workspace/get-status *)
| PermissionsNotebooks (object_id : json)  (* permissions/notebooks/{object_id} *)
| PermissionsDirectories (object_id : json). (* permissions/directories/{object_id} *)

(** [f"{workspace_url}/api/2.0/{resource}"], kept in its two parts. *)
Record Endpoint : Type := mkEndpoint {
  ep_workspace : option string;
  ep_resource : Resource
}.

Record Request : Type := mkRequest {
  req_method : Method;
  req_endpoint : Endpoint;
  req_headers : list (string * string);
  req_params : list (string * json);
  req_json : option json
}.

(** What the world has in store for a call of
    [requests.get/post/patch/put]: either the library raises a
    [RequestException] (connection refused, timeout, ...), or the request
    is answered with a status code and a body, which either parses as JSON
    or does not. *)
Inductive HttpOutcome : Type :=
| Failed
| Replied (status : Z) (body : option json).

(** What [subprocess.run(["git", "clone", ...], check=True)] meets: the
    exit code of the process, or no process at all ([git] not found). *)
Inductive GitOutcome : Type :=
| GitExit (returncode : Z)
| GitNotStarted.

(** One constructor per [print] statement of the script, carrying the
    values the line interpolates. *)
Inductive LogLine : Type :=
| LogGitPulled (git_url : string)
| LogGitError (e : exn)
| LogGitHintAccess
| LogGitHintSsh
| LogGitHintHttps
| LogListError (workspace_url : option string) (e : exn)
| LogExportError (path : json) (workspace_url : option string) (e : exn)
| LogImportOk (path : json) (workspace_url : option string)
| LogImportError (path : json) (workspace_url : option string) (e : exn)
| LogStatusError (path : json) (workspace_url : option string) (e : exn)
| LogUnsupportedType (object_type : json)
| LogPermissionsError (path : json) (e : exn)
| LogSkipNoStatus (path : json)
| LogSkipUnsupported (path : json) (object_type : json)
| LogGranted (permission_level email path : json)
| LogGrantedAttach (email : json) (cluster_id : option string)
| LogGrantError (path : json) (e : exn)
| LogStart
| LogInvalidProvider
| LogListingPermissions (cloud : string) (dir : option string)
| LogPermissionsHeader (cloud : string)
| LogPermissionLine (user permission : json)
| LogNoPermissions (cloud : string) (dir : option string)
| LogCompleted.

Inductive Event : Type :=
| EvPrint (line : LogLine)
| EvHttp (r : Request)
| EvGitClone (git_url target_dir : string).

Definition History : Type := list Event.

Definition is_http (e : Event) : bool :=
  match e with
  | EvHttp _ => true
  | _ => false
  end.

(** The header values of a request can be written out: [http.client]
    encodes each of them as Latin-1. *)
Definition headers_encodable (headers : list (string * string)) : bool :=
  forallb (fun kv => latin1_encodable (snd kv)) headers.

(** Everything the script takes from outside itself. *)
Record Host : Type := mkHost {
  (* os.getenv, after load_dotenv() *)
  getenv : string -> option string;
  (* the answer to an HTTP call, given what happened before it *)
  http : History -> Request -> HttpOutcome;
  (* the outcome of git clone, given what happened before it *)
  git : History -> string -> string -> GitOutcome;
  (* base64.b64decode(s).decode("utf-8"); None when either step raises
     (binascii.Error and UnicodeDecodeError are ValueErrors) *)
  b64decode_text : string -> option string;
  (* base64.b64encode(s.encode("utf-8")).decode("utf-8") *)
  b64encode_text : string -> string
}.

(** ** The monad of the script *)

Definition M (A : Type) : Type := History -> Res A * History.

Definition ret {A} (a : A) : M A := fun h => (Ok a, h).

Definition bind {A B} (m : M A) (k : A -> M B) : M B :=
  fun h =>
    match m h with
    | (Ok a, h') => k a h'
    | (Raise e, h') => (Raise e, h')
    end.

Definition lift {A} (r : Res A) : M A := fun h => (r, h).

Definition emit (e : Event) : M unit := fun h => (Ok tt, h ++ [e]).

Definition print (l : LogLine) : M unit := emit (EvPrint l).

(** [try: body except Cls as e: handler(e)], with [Cls] given by the
    test [catches]. *)
Definition try_except {A} (body : M A) (catches : exn -> bool)
    (handler : exn -> M A) : M A :=
  fun h =>
    match body h with
    | (Ok a, h') => (Ok a, h')
    | (Raise e, h') => if catches e then handler e h' else (Raise e, h')
    end.

Notation "'let*' x ':=' m 'in' k" := (bind m (fun x => k))
  (at level 10, x name, m at level 99, k at level 200).
Notation "m ';;' k" := (bind m (fun _ => k))
  (at level 100, k at level 200, right associativity).

(** [for x in l: body(x)] *)
Fixpoint for_each {A} (l : list A) (body : A -> M unit) : M unit :=
  match l with
  | [] => ret tt
  | x :: l' => body x ;; for_each l' body
  end.

(** ** The script *)

Record Response : Type := mkResponse {
  status_code : Z;
  body : option json
}.

(** [response.raise_for_status()]: an [HTTPError] for a 4xx or 5xx status. *)
Definition raise_for_status (response : Response) : Res unit :=
  if (400 <=? status_code response)%Z && (status_code response <? 600)%Z
  then Raise (HTTPError (status_code response))
  else Ok tt.

(** [response.json()]: the [JSONDecodeError] of requests is a
    [RequestException] (requests 2.27 and later). *)
Definition response_json (response : Response) : Res json :=
  match body response with
  | Some j => Ok j
  | None => Raise JSONDecodeError
  end.

Record WorkspaceConfig : Type := mkWorkspaceConfig {
  url : option string;
  token : option string
}.

Section Script.

Variable H : Host.

(** [requests.get/post/patch/put]: the call is recorded.  An endpoint
    formatted from an unset workspace URL reads [None/api/2.0/...]; it has
    no scheme and requests raises [MissingSchema] without sending
    anything.  Otherwise the library either raises an exception of its own
    or goes on to write the request out, and [http.client] encodes the
    header values as Latin-1 at that point: a value with a character
    beyond U+00FF raises [UnicodeEncodeError], which is no
    [RequestException], and no response is read.  A request that was
    written out is answered by the world. *)
Definition requests_call (r : Request) : M Response :=
  fun h =>
    let h' := h ++ [EvHttp r] in
    match ep_workspace (req_endpoint r) with
    | None => (Raise MissingSchema, h')
    | Some _ =>
        match http H h r with
        | Failed => (Raise ConnectionError, h')
        | Replied status content =>
            if headers_encodable (req_headers r)
            then (Ok (mkResponse status content), h')
            else (Raise UnicodeEncodeError, h')
        end
    end.

Definition requests_get (api : Endpoint) (headers : list (string * string))
    (params : list (string * json)) : M Response :=
  requests_call (mkRequest GET api headers params None).

Definition requests_post (api : Endpoint) (headers : list (string * string))
    (data : json) : M Response :=
  requests_call (mkRequest POST api headers [] (Some data)).

Definition requests_patch (api : Endpoint) (headers : list (string * string))
    (data : json) : M Response :=
  requests_call (mkRequest PATCH api headers [] (Some data)).

Definition requests_put (api : Endpoint) (headers : list (string * string))
    (data : json) : M Response :=
  requests_call (mkRequest PUT api headers [] (Some data)).

(** [subprocess.run(["git", "clone", git_url, target_dir], check=True)]:
    a [None] among the arguments is a [TypeError] before any process
    starts; a non-zero exit code is a [CalledProcessError]. *)
Definition subprocess_run_git_clone (git_url target_dir : option string)
    : M unit :=
  match git_url, target_dir with
  | Some u, Some dir =>
      fun h =>
        let h' := h ++ [EvGitClone u dir] in
        match git H h u dir with
        | GitExit 0 => (Ok tt, h')
        | GitExit returncode => (Raise (CalledProcessError returncode), h')
        | GitNotStarted => (Raise OSError, h')
        end
  | _, _ => lift (Raise TypeError)
  end.

(** [base64.b64decode(v).decode("utf-8")]: only a [str] (or bytes, which
    JSON never gives) is accepted. *)
Definition b64decode_utf8 (v : json) : Res string :=
  match v with
  | JStr s =>
      match b64decode_text H s with
      | Some text => Ok text
      | None => Raise ValueError
      end
  | _ => Raise TypeError
  end.

(** *** Configuration (lines 11-28) *)

Definition WORKSPACE_CONFIG : list (string * WorkspaceConfig) :=
  [ ("AWS", {| url := getenv H "AWS_WORKSPACE_URL";
               token := getenv H "AWS_ACCESS_TOKEN" |});
    ("AZURE", {| url := getenv H "AZURE_WORKSPACE_URL";
                 token := getenv H "AZURE_ACCESS_TOKEN" |});
    ("GCP", {| url := getenv H "GCP_WORKSPACE_URL";
               token := getenv H "GCP_ACCESS_TOKEN" |}) ].

Definition NOTEBOOK_DIR : option string := getenv H "NOTEBOOK_DIR".
Definition EMAIL_TO_GRANT : option string := getenv H "EMAIL_TO_GRANT".
Definition USER_TO_SYNC : option string := getenv H "USER_TO_SYNC".

Definition get_headers (access_token : option string)
    : list (string * string) :=
  [ ("Authorization", String.append "Bearer " (fmt_env access_token));
    ("Content-Type", "application/json") ].

Definition get_workspace_config (cloud_provider : string)
    : option WorkspaceConfig :=
  assoc (upper cloud_provider) WORKSPACE_CONFIG.

(** *** Git seeding (lines 42-52) *)

Definition pull_notebooks_from_git (git_url target_dir : option string)
    : M bool :=
  try_except
    (subprocess_run_git_clone git_url target_dir ;;
     print (LogGitPulled (fmt_env git_url)) ;;
     (* leaves the try statement and reaches [return True] *)
     ret true)
    is_CalledProcessError
    (fun e =>
       print (LogGitError e) ;;
       print LogGitHintAccess ;;
       print LogGitHintSsh ;;
       print LogGitHintHttps ;;
       ret false).

(** *** Workspace API client (lines 55-102) *)

Definition list_notebooks (workspace_url access_token : option string)
    (path : json) : M json :=
  let api_endpoint := mkEndpoint workspace_url WorkspaceList in
  try_except
    (let* response :=
       requests_get api_endpoint (get_headers access_token) [("path", path)] in
     lift (raise_for_status response) ;;
     let* data := lift (response_json response) in
     lift (py_get data "objects" (JList [])))
    is_RequestException
    (fun e =>
       print (LogListError workspace_url e) ;;
       ret (JList [])).

Definition export_notebook (workspace_url access_token : option string)
    (path : json) : M (option string) :=
  let api_endpoint := mkEndpoint workspace_url WorkspaceExport in
  try_except
    (let* response :=
       requests_get api_endpoint (get_headers access_token)
         [("path", path); ("format", JStr "SOURCE")] in
     lift (raise_for_status response) ;;
     let* data := lift (response_json response) in
     let* content := lift (py_getitem data "content") in
     let* text := lift (b64decode_utf8 content) in
     ret (Some text))
    is_RequestException
    (fun e =>
       print (LogExportError path workspace_url e) ;;
       ret None).

Definition import_notebook (workspace_url access_token : option string)
    (content : string) (path : json) (language : string) : M unit :=
  let api_endpoint := mkEndpoint workspace_url WorkspaceImport in
  let data :=
    JDict [ ("path", path);
            ("format", JStr "SOURCE");
            ("language", JStr language);
            ("content", JStr (b64encode_text H content));
            ("overwrite", JBool true) ] in
  try_except
    (let* response :=
       requests_post api_endpoint (get_headers access_token) data in
     lift (raise_for_status response) ;;
     print (LogImportOk path workspace_url))
    is_RequestException
    (fun e => print (LogImportError path workspace_url e)).

(** Returns the parsed body, or [None] (here [JNull]) after an error. *)
Definition get_object_status (workspace_url access_token : option string)
    (path : json) : M json :=
  let api_endpoint := mkEndpoint workspace_url WorkspaceGetStatus in
  try_except
    (let* response :=
       requests_get api_endpoint (get_headers access_token) [("path", path)] in
     lift (raise_for_status response) ;;
     lift (response_json response))
    is_RequestException
    (fun e =>
       print (LogStatusError path workspace_url e) ;;
       ret JNull).

(** *** Permission mapper (lines 128-137) *)

(** One turn of the loop over the access control list. *)
Definition acl_step (user_permissions : pydict) (item : json) : Res pydict :=
  let? user_name := py_get item "user_name" JNull in
  let? all_permissions := py_get item "all_permissions" (JList []) in
  let? permission_level :=
    if truthy all_permissions
    then (let? first := py_getitem0 all_permissions in
          py_get first "permission_level" (JStr "UNKNOWN"))
    else py_get item "permission_level" (JStr "UNKNOWN") in
  dict_setitem user_permissions user_name permission_level.

Fixpoint acl_loop (items : list json) (user_permissions : pydict)
    : Res pydict :=
  match items with
  | [] => Ok user_permissions
  | item :: rest =>
      let? user_permissions' := acl_step user_permissions item in
      acl_loop rest user_permissions'
  end.

(** [user_permissions = {}; for item in acl: ...; user_permissions] *)
Definition map_acl (acl : json) : Res pydict :=
  let? items := py_iter acl in
  acl_loop items [].

(** *** Permissions (lines 105-193) *)

Definition get_permissions (workspace_url access_token : option string)
    (path : json) : M (option pydict) :=
  let* object_status := get_object_status workspace_url access_token path in
  if negb (truthy object_status) then ret None
  else
    let* object_id := lift (py_get object_status "object_id" JNull) in
    let* object_type := lift (py_get object_status "object_type" JNull) in
    let fetch (api_permissions : Endpoint) : M (option pydict) :=
      try_except
        (let* response :=
           requests_get api_permissions (get_headers access_token) [] in
         lift (raise_for_status response) ;;
         let* permissions := lift (response_json response) in
         let* acl :=
           lift (py_get permissions "access_control_list" (JList [])) in
         let* user_permissions := lift (map_acl acl) in
         ret (Some user_permissions))
        is_RequestException
        (fun e =>
           print (LogPermissionsError path e) ;;
           ret None) in
    if py_eq_str object_type "NOTEBOOK"
    then fetch (mkEndpoint workspace_url (PermissionsNotebooks object_id))
    else if py_eq_str object_type "DIRECTORY"
    then fetch (mkEndpoint workspace_url (PermissionsDirectories object_id))
    else (print (LogUnsupportedType object_type) ;; ret None).

(** The request body of a grant (lines 162-176). *)
Definition grant_data (email permission_level : json)
    (cluster_id : option string) : json :=
  let access_control_list :=
    [ JDict [ ("user_name", email);
              ("permission_level", permission_level) ] ] in
  let access_control_list :=
    if truthy_env cluster_id
    then access_control_list ++
         [ JDict [ ("user_name", email);
                   ("permission_level", JStr "CAN_ATTACH_TO");
                   ("cluster_id", of_env cluster_id) ] ]
    else access_control_list in
  JDict [ ("access_control_list", JList access_control_list) ].

(** Line 178. *)
Definition grant_method (workspace_url : option string) : Res Method :=
  let? managed := py_in "databricks.com" workspace_url in
  Ok (if managed then PATCH else PUT).

Definition grant_permissions (workspace_url access_token : option string)
    (path email permission_level : json) (cluster_id : option string)
    : M bool :=
  let* object_status := get_object_status workspace_url access_token path in
  if negb (truthy object_status)
  then (print (LogSkipNoStatus path) ;; ret false)
  else
    let* object_id := lift (py_get object_status "object_id" JNull) in
    let* object_type := lift (py_get object_status "object_type" JNull) in
    let send (api_permissions : Endpoint) : M bool :=
      let data := grant_data email permission_level cluster_id in
      let* method := lift (grant_method workspace_url) in
      try_except
        (let* response :=
           match method with
           | PATCH =>
               requests_patch api_permissions (get_headers access_token) data
           | _ =>
               requests_put api_permissions (get_headers access_token) data
           end in
         lift (raise_for_status response) ;;
         print (LogGranted permission_level email path) ;;
         (if truthy_env cluster_id
          then print (LogGrantedAttach email cluster_id)
          else ret tt) ;;
         ret true)
        is_RequestException
        (fun e =>
           print (LogGrantError path e) ;;
           ret false) in
    if py_eq_str object_type "NOTEBOOK"
    then send (mkEndpoint workspace_url (PermissionsNotebooks object_id))
    else if py_eq_str object_type "DIRECTORY"
    then send (mkEndpoint workspace_url (PermissionsDirectories object_id))
    else (print (LogSkipUnsupported path object_type) ;; ret false).

(** *** Orchestration (lines 196-245) *)

(** The body of [for nb in source_notebooks] (lines 225-233). *)
Definition sync_notebook (source_config target_config : WorkspaceConfig)
    (source_permissions : option pydict) (cluster_id : option string)
    (nb : json) : M unit :=
  let* object_type := lift (py_getitem nb "object_type") in
  if py_eq_str object_type "NOTEBOOK" then
    let* path := lift (py_getitem nb "path") in
    let* content :=
      export_notebook (url source_config) (token source_config) path in
    match content with
    | Some text =>
        let* path := lift (py_getitem nb "path") in
        import_notebook (url target_config) (token target_config)
          text path "PYTHON" ;;
        if truthy_dict source_permissions then
          for_each (match source_permissions with Some d => d | None => [] end)
            (fun entry =>
               let* path := lift (py_getitem nb "path") in
               let* _ :=
                 grant_permissions (url target_config) (token target_config)
                   path (fst entry) (snd entry) cluster_id in
               ret tt)
        else ret tt
    | None => ret tt
    end
  else ret tt.

(** Lines 212-245: what runs once the configurations are resolved and the
    optional Git seeding has succeeded. *)
Definition sync_workspaces (source_cloud target_cloud : string)
    (source_config target_config : WorkspaceConfig)
    (cluster_id : option string) : M unit :=
  print (LogListingPermissions source_cloud NOTEBOOK_DIR) ;;
  let* source_permissions :=
    get_permissions (url source_config) (token source_config)
      (of_env NOTEBOOK_DIR) in
  (if truthy_dict source_permissions then
     print (LogPermissionsHeader source_cloud) ;;
     for_each (match source_permissions with Some d => d | None => [] end)
       (fun entry => print (LogPermissionLine (fst entry) (snd entry)))
   else print (LogNoPermissions source_cloud NOTEBOOK_DIR)) ;;
  let* source_notebooks :=
    list_notebooks (url source_config) (token source_config)
      (of_env NOTEBOOK_DIR) in
  let* notebooks := lift (py_iter source_notebooks) in
  for_each notebooks
    (sync_notebook source_config target_config source_permissions
       cluster_id) ;;
  print (LogListingPermissions target_cloud NOTEBOOK_DIR) ;;
  let* target_permissions :=
    get_permissions (url target_config) (token target_config)
      (of_env NOTEBOOK_DIR) in
  (if truthy_dict target_permissions then
     print (LogPermissionsHeader target_cloud) ;;
     for_each (match target_permissions with Some d => d | None => [] end)
       (fun entry => print (LogPermissionLine (fst entry) (snd entry)))
   else print (LogNoPermissions target_cloud NOTEBOOK_DIR)) ;;
  print LogCompleted.

Definition sync_notebooks_and_permissions (source_cloud target_cloud : string)
    (git_url cluster_id : option string) : M unit :=
  print LogStart ;;
  let source_config := get_workspace_config source_cloud in
  let target_config := get_workspace_config target_cloud in
  match source_config, target_config with
  | Some source_config, Some target_config =>
      if truthy_env git_url then
        let* pulled := pull_notebooks_from_git git_url NOTEBOOK_DIR in
        if negb pulled then ret tt
        else sync_workspaces source_cloud target_cloud
               source_config target_config cluster_id
      else sync_workspaces source_cloud target_cloud
             source_config target_config cluster_id
  | _, _ =>
      print LogInvalidProvider ;;
      ret tt
  end.

End Script.

(** ** Notions of the specification *)

(** *** Access control lists *)

Definition entry_fields (item : json) : list (string * json) :=
  match item with
  | JDict d => d
  | _ => []
  end.

(** The principal of an entry: its [user_name] field ([None] if absent). *)
Definition spec_principal (item : json) : json :=
  match assoc "user_name" (entry_fields item) with
  | Some v => v
  | None => JNull
  end.

(** The first element of the nested [all_permissions] array, if the entry
    carries one. *)
Definition nested_first (item : json) : option (list (string * json)) :=
  match assoc "all_permissions" (entry_fields item) with
  | Some (JList (JDict first :: _)) => Some first
  | _ => None
  end.

Definition field_or_unknown (d : list (string * json)) : json :=
  match assoc "permission_level" d with
  | Some v => v
  | None => JStr "UNKNOWN"
  end.

(** The level of an entry, in the words of the specification: the
    [permission_level] of the first nested element, else the top-level
    [permission_level], the default being the string UNKNOWN. *)
Definition spec_level (item : json) : json :=
  match nested_first item with
  | Some first => field_or_unknown first
  | None => field_or_unknown (entry_fields item)
  end.

(** The mapping of the specification: entries are inserted in list order,
    a later entry overwriting an earlier one for the same principal. *)
Definition spec_mapping (items : list json) : pydict :=
  fold_left (fun m item => dict_put m (spec_principal item) (spec_level item))
    items [].

(** A well-formed entry of an access control list: a JSON object whose
    [user_name], if any, is a scalar, and whose [all_permissions], if any
    and not empty, is an array that starts with a JSON object. *)
Definition acl_entry_ok (item : json) : bool :=
  match item with
  | JDict d =>
      py_hashable (spec_principal item) &&
      match assoc "all_permissions" d with
      | None => true
      | Some (JList []) => true
      | Some (JList (JDict _ :: _)) => true
      | Some v => negb (truthy v)
      end
  | _ => false
  end.

(** How many entries of a dictionary carry a key equal to [k]. *)
Definition dict_count (d : pydict) (k : json) : nat :=
  length (filter (fun kv => key_eqb (fst kv) k) d).

(** The entry without its [all_permissions] field. *)
Fixpoint remove_field (k : string) (d : list (string * json))
    : list (string * json) :=
  match d with
  | [] => []
  | (k', v) :: d' =>
      if String.eqb k' k then remove_field k d' else (k', v) :: remove_field k d'
  end.

(** *** Provider names *)

(** Two characters that differ at most by ASCII letter case. *)
Definition ci_char (c d : ascii) : bool :=
  let m := nat_of_ascii c in
  let n := nat_of_ascii d in
  (m =? n)%nat
  || ((65 <=? m)%nat && (m <=? 90)%nat && (n =? m + 32)%nat)
  || ((65 <=? n)%nat && (n <=? 90)%nat && (m =? n + 32)%nat).

(** Case-insensitive match of two names. *)
Fixpoint ci_match (s t : string) : bool :=
  match s, t with
  | EmptyString, EmptyString => true
  | String c s', String d t' => ci_char c d && ci_match s' t'
  | _, _ => false
  end.

(** Names made of ASCII characters only. *)
Fixpoint ascii_only (s : string) : bool :=
  match s with
  | EmptyString => true
  | String b s' => (byte_code b <? 0x80)%N && ascii_only s'
  end.

(** An upper-case letter [k] of a key stands for itself, for its lower-case
    form, and [S] also for the long s, U+017F. *)
Definition letter_match (k c : N) : bool :=
  ((c =? k) || (c =? k + 32) || ((k =? 0x53) && (c =? 0x17F)))%N.

Fixpoint codes_match (cs ks : list N) : bool :=
  match cs, ks with
  | [], [] => true
  | c :: cs', k :: ks' => letter_match k c && codes_match cs' ks'
  | _, _ => false
  end.

(** The name reads as the key, letter by letter. *)
Definition provider_match (name key : string) : bool :=
  codes_match (utf8_decode name) (utf8_decode key).

(** The code points whose upper case has a character of ASCII in it. *)
Definition ascii_upper_exceptions : list N :=
  [ 0xDF; 0x131; 0x149; 0x17F; 0x1F0; 0x1E96; 0x1E97; 0x1E98; 0x1E99; 0x1E9A;
    0xFB00; 0xFB01; 0xFB02; 0xFB03; 0xFB04; 0xFB05; 0xFB06 ]%N.

(** A key that only letter-by-letter matches can produce: upper-case
    letters other than [F] and [I], no [S] followed by [S] or [T]. *)
Fixpoint plain_key (ks : list N) : bool :=
  match ks with
  | [] => true
  | k :: ks' =>
      ((0x41 <=? k) && (k <=? 0x5A) && negb (k =? 0x46) && negb (k =? 0x49))%N
      && match ks' with
         | k' :: _ => negb ((k =? 0x53) && ((k' =? 0x53) || (k' =? 0x54)))%N
         | [] => true
         end
      && plain_key ks'
  end.

(** *** Substrings *)

Definition is_substring (needle hay : string) : Prop :=
  exists before after : string,
    hay = String.append before (String.append needle after).

(** *** Events of a computation *)

(** What a computation adds to the history it starts from. *)
Definition events_of {A} (m : M A) (h : History) : list Event :=
  skipn (length h) (snd (m h)).

Definition is_import_call (e : Event) : bool :=
  match e with
  | EvHttp r =>
      match ep_resource (req_endpoint r) with
      | WorkspaceImport => true
      | _ => false
      end
  | _ => false
  end.

(** [emits P m]: whatever [m] returns, it only adds events to the history,
    and every event it adds satisfies [P]. *)
Definition emits {A} (P : Event -> Prop) (m : M A) : Prop :=
  forall h, exists evs, snd (m h) = h ++ evs /\ Forall P evs.

(** [mspec Q E m]: [m] either returns a value satisfying [Q] or raises an
    exception satisfying [E]. *)
Definition mspec {A} (Q : A -> Prop) (E : exn -> Prop) (m : M A) : Prop :=
  forall h,
    match fst (m h) with
    | Ok a => Q a
    | Raise e => E e
    end.

(** [returns Q m]: [m] never raises, and its value satisfies [Q]. *)
Definition returns {A} (Q : A -> Prop) (m : M A) : Prop :=
  mspec Q (fun _ => False) m.

(** The exceptions an [except requests.exceptions.RequestException]
    clause catches. *)
Definition caught (e : exn) : Prop := is_RequestException e = true.

(** *** The requests of the API client *)

Definition list_request (workspace_url access_token : option string)
    (path : json) : Request :=
  mkRequest GET (mkEndpoint workspace_url WorkspaceList)
    (get_headers access_token) [("path", path)] None.

Definition export_request (workspace_url access_token : option string)
    (path : json) : Request :=
  mkRequest GET (mkEndpoint workspace_url WorkspaceExport)
    (get_headers access_token) [("path", path); ("format", JStr "SOURCE")]
    None.

Definition status_request (workspace_url access_token : option string)
    (path : json) : Request :=
  mkRequest GET (mkEndpoint workspace_url WorkspaceGetStatus)
    (get_headers access_token) [("path", path)] None.

Definition import_request (H : Host)
    (workspace_url access_token : option string) (content : string)
    (path : json) (language : string) : Request :=
  mkRequest POST (mkEndpoint workspace_url WorkspaceImport)
    (get_headers access_token) []
    (Some (JDict [ ("path", path);
                   ("format", JStr "SOURCE");
                   ("language", JStr language);
                   ("content", JStr (b64encode_text H content));
                   ("overwrite", JBool true) ])).

(** The permissions resource an object status routes to, if any. *)
Definition permissions_resource (object_status : json) : option Resource :=
  match object_status with
  | JDict d =>
      let object_id :=
        match assoc "object_id" d with Some v => v | None => JNull end in
      let object_type :=
        match assoc "object_type" d with Some v => v | None => JNull end in
      if py_eq_str object_type "NOTEBOOK"
      then Some (PermissionsNotebooks object_id)
      else if py_eq_str object_type "DIRECTORY"
      then Some (PermissionsDirectories object_id)
      else None
  | _ => None
  end.

Definition is_permissions_resource (resource : Resource) : bool :=
  match resource with
  | PermissionsNotebooks _ | PermissionsDirectories _ => true
  | _ => false
  end.

Definition permissions_request (workspace_url access_token : option string)
    (resource : Resource) : Request :=
  mkRequest GET (mkEndpoint workspace_url resource)
    (get_headers access_token) [] None.

(** The request of a grant on a workspace whose URL is the string [w]. *)
Definition grant_request (w : string) (access_token : option string)
    (resource : Resource) (email permission_level : json)
    (cluster_id : option string) : Request :=
  mkRequest (if str_contains "databricks.com" w then PATCH else PUT)
    (mkEndpoint (Some w) resource) (get_headers access_token) []
    (Some (grant_data email permission_level cluster_id)).

(** The two kinds of entry in the body of a grant. *)
Definition grant_entry (principal level : json) : json :=
  JDict [ ("user_name", principal); ("permission_level", level) ].

Definition attach_entry (principal : json) (cluster_id : string) : json :=
  JDict [ ("user_name", principal);
          ("permission_level", JStr "CAN_ATTACH_TO");
          ("cluster_id", JStr cluster_id) ].

(** A listed object the loop treats as a notebook. *)
Definition is_notebook (nb : json) : bool :=
  match py_getitem nb "object_type" with
  | Ok object_type => py_eq_str object_type "NOTEBOOK"
  | Raise _ => false
  end.

(** *** Errors and well-formed answers *)

Definition is_error_status (status : Z) : bool :=
  (400 <=? status)%Z && (status <? 600)%Z.

(** The call of [r] after history [h] ends in a transport error or in a
    response with an error status. *)
Definition call_fails (H : Host) (h : History) (r : Request) : bool :=
  match ep_workspace (req_endpoint r) with
  | None => true
  | Some _ =>
      match http H h r with
      | Failed => true
      | Replied status _ =>
          headers_encodable (req_headers r) && is_error_status status
      end
  end.

(** The call of [r] after history [h] ends in a [UnicodeEncodeError]: the
    library raises nothing of its own, and the headers of [r] cannot be
    written out. *)
Definition call_crashes (H : Host) (h : History) (r : Request) : bool :=
  match ep_workspace (req_endpoint r) with
  | None => false
  | Some _ =>
      match http H h r with
      | Failed => false
      | Replied _ _ => negb (headers_encodable (req_headers r))
      end
  end.

(** The token makes a header that can be written out. *)
Definition token_encodable (access_token : option string) : bool :=
  headers_encodable (get_headers access_token).

(** The token of the provider [cloud], if there is such a provider, can be
    written out. *)
Definition provider_token_encodable (H : Host) (cloud : string) : Prop :=
  forall config,
    get_workspace_config H cloud = Some config ->
    token_encodable (token config) = true.

(** A listed object: a JSON object with an [object_type], and a [path] when
    it is a notebook. *)
Definition object_ok (nb : json) : bool :=
  match nb with
  | JDict d =>
      match assoc "object_type" d with
      | Some object_type =>
          if py_eq_str object_type "NOTEBOOK"
          then match assoc "path" d with Some _ => true | None => false end
          else true
      | None => false
      end
  | _ => false
  end.

Definition listing_ok (data : json) : bool :=
  match data with
  | JDict d =>
      match assoc "objects" d with
      | None => true
      | Some (JList l) => forallb object_ok l
      | Some _ => false
      end
  | _ => false
  end.

Definition export_ok (H : Host) (data : json) : bool :=
  match data with
  | JDict d =>
      match assoc "content" d with
      | Some (JStr s) =>
          match b64decode_text H s with Some _ => true | None => false end
      | _ => false
      end
  | _ => false
  end.

Definition status_ok (data : json) : bool :=
  match data with
  | JDict _ => true
  | _ => negb (truthy data)
  end.

Definition permissions_ok (data : json) : bool :=
  match data with
  | JDict d =>
      match assoc "access_control_list" d with
      | None => true
      | Some (JList l) => forallb acl_entry_ok l
      | Some _ => false
      end
  | _ => false
  end.

(** The body of a success response has the shape its reader expects. The
    bodies of import and grant responses are never read. *)
Definition body_ok (H : Host) (r : Request) (data : json) : bool :=
  match ep_resource (req_endpoint r), req_method r with
  | WorkspaceList, _ => listing_ok data
  | WorkspaceExport, _ => export_ok H data
  | WorkspaceGetStatus, _ => status_ok data
  | PermissionsNotebooks _, GET => permissions_ok data
  | PermissionsDirectories _, GET => permissions_ok data
  | _, _ => true
  end.

Definition reply_ok (H : Host) (r : Request) (o : HttpOutcome) : bool :=
  match o with
  | Failed => true
  | Replied status None => true
  | Replied status (Some data) => is_error_status status || body_ok H r data
  end.

(** A host whose workspaces answer every call with a transport error, an
    error status, a body that is not JSON, or a well-formed body. *)
Definition host_ok (H : Host) : Prop :=
  forall h r, reply_ok H r (http H h r) = true.

(** *** The requests of one turn of the loop *)

Section TurnRequests.

Variable H : Host.
Variables source_config target_config : WorkspaceConfig.
Variable cluster_id : option string.

(** The requests one turn of the loop can issue for the listed object
    [nb]: all of them need [nb] to be a notebook with a path. *)
Inductive turn_request (nb : json) : Request -> Prop :=
| turn_export path :
    is_notebook nb = true -> py_getitem nb "path" = Ok path ->
    turn_request nb
      (export_request (url source_config) (token source_config) path)
| turn_import path text :
    is_notebook nb = true -> py_getitem nb "path" = Ok path ->
    turn_request nb
      (import_request H (url target_config) (token target_config) text path
         "PYTHON")
| turn_status path :
    is_notebook nb = true -> py_getitem nb "path" = Ok path ->
    turn_request nb
      (status_request (url target_config) (token target_config) path)
| turn_grant path w resource email level :
    is_notebook nb = true -> py_getitem nb "path" = Ok path ->
    url target_config = Some w ->
    is_permissions_resource resource = true ->
    turn_request nb
      (grant_request w (token target_config) resource email level
         cluster_id).

Definition turn_event (l : list json) (e : Event) : Prop :=
  match e with
  | EvHttp r => exists nb, In nb l /\ turn_request nb r
  | _ => True
  end.

End TurnRequests.

(** The Git seeding step can run: no URL is given, or the directory is
    set and a [git] process starts. *)
Definition seeding_runs (H : Host) (git_url : option string) : Prop :=
  truthy_env git_url = false \/
  exists dir,
    NOTEBOOK_DIR H = Some dir /\
    forall h u, git H h u dir <> GitNotStarted.

(** ** Sample hosts *)

Definition sample_getenv (name : string) : option string :=
  if String.eqb name "AWS_WORKSPACE_URL"
  then Some "https://dbc-1.cloud.databricks.com"
  else if String.eqb name "AWS_ACCESS_TOKEN" then Some "aws-token"
  else if String.eqb name "AZURE_WORKSPACE_URL"
  then Some "https://adb-1.azuredatabricks.net"
  else if String.eqb name "AZURE_ACCESS_TOKEN" then Some "azure-token"
  else if String.eqb name "NOTEBOOK_DIR" then Some "/Shared"
  else None.

Definition sample_aws : WorkspaceConfig :=
  {| url := Some "https://dbc-1.cloud.databricks.com";
     token := Some "aws-token" |}.

Definition sample_azure : WorkspaceConfig :=
  {| url := Some "https://adb-1.azuredatabricks.net";
     token := Some "azure-token" |}.

(** The directory [/Shared] is object 1, anything else is notebook 2. *)
Definition sample_status (path : option json) : json :=
  match path with
  | Some p =>
      if py_eq_str p "/Shared"
      then JDict [("object_id", JInt 1); ("object_type", JStr "DIRECTORY")]
      else JDict [("object_id", JInt 2); ("object_type", JStr "NOTEBOOK")]
  | None => JDict [("object_id", JInt 2); ("object_type", JStr "NOTEBOOK")]
  end.

Definition sample_alice : json :=
  JDict [ ("user_name", JStr "alice");
          ("all_permissions",
           JList [JDict [("permission_level", JStr "CAN_MANAGE")]]) ].

Definition sample_bob : json :=
  JDict [ ("user_name", JStr "bob"); ("permission_level", JStr "CAN_READ") ].

Definition sample_alice_read : json :=
  JDict [ ("user_name", JStr "alice"); ("permission_level", JStr "CAN_READ") ].

Definition sample_group : json :=
  JDict [ ("group_name", JStr "admins") ].

Definition sample_carol : json :=
  JDict [ ("user_name", JStr "carol");
          ("all_permissions", JList []);
          ("permission_level", JStr "CAN_RUN") ].

Definition sample_acl : list json := [sample_alice; sample_bob].

Definition sample_notebook_a : json :=
  JDict [("path", JStr "/Shared/a"); ("object_type", JStr "NOTEBOOK")].

Definition sample_notebook_b : json :=
  JDict [("path", JStr "/Shared/b"); ("object_type", JStr "NOTEBOOK")].

Definition sample_directory : json :=
  JDict [("path", JStr "/Shared/sub"); ("object_type", JStr "DIRECTORY")].

Definition sample_objects : list json :=
  [sample_notebook_a; sample_directory; sample_notebook_b].

(** A stateless world: the listing and the export answer as given, the
    other endpoints answer 200. *)
Definition sample_http (list_reply : HttpOutcome)
    (export_reply : option json -> HttpOutcome)
    (h : History) (r : Request) : HttpOutcome :=
  match ep_resource (req_endpoint r) with
  | WorkspaceList => list_reply
  | WorkspaceExport => export_reply (assoc "path" (req_params r))
  | WorkspaceImport => Replied 200 (Some (JDict []))
  | WorkspaceGetStatus =>
      Replied 200 (Some (sample_status (assoc "path" (req_params r))))
  | PermissionsNotebooks _ | PermissionsDirectories _ =>
      match req_method r with
      | GET =>
          Replied 200 (Some (JDict [("access_control_list", JList sample_acl)]))
      | _ => Replied 200 (Some (JDict []))
      end
  end.

(** Stands for base64 on the one text the samples exchange. *)
Definition sample_b64decode (s : string) : option string :=
  if String.eqb s "cHJpbnQoMSk=" then Some "print(1)" else None.

Definition sample_b64encode (s : string) : string :=
  if String.eqb s "print(1)" then "cHJpbnQoMSk=" else "".

Definition sample_host (list_reply : HttpOutcome)
    (export_reply : option json -> HttpOutcome) : Host :=
  {| getenv := sample_getenv;
     http := sample_http list_reply export_reply;
     git := fun _ _ _ => GitExit 128;
     b64decode_text := sample_b64decode;
     b64encode_text := sample_b64encode |}.

(** The export of [/Shared/a] meets a server error, any other export
    succeeds. *)
Definition demo_export (path : option json) : HttpOutcome :=
  match path with
  | Some p =>
      if py_eq_str p "/Shared/a" then Replied 500 None
      else Replied 200 (Some (JDict [("content", JStr "cHJpbnQoMSk=")]))
  | None => Replied 400 None
  end.

Definition demo_host : Host :=
  sample_host (Replied 200 (Some (JDict [("objects", JList sample_objects)])))
    demo_export.

(** The export answers 200 with a JSON object that has no [content]. *)
Definition no_content_host : Host :=
  sample_host (Replied 200 (Some (JDict [("objects", JList sample_objects)])))
    (fun _ => Replied 200 (Some (JDict [("message", JStr "no content")]))).

(** The listing answers 300 (neither a success nor an error status for
    [raise_for_status]) with a JSON body. *)
Definition multiple_choices_host : Host :=
  sample_host (Replied 300 (Some (JDict [("objects", JList sample_objects)])))
    demo_export.

(** ** Further notions *)

(** What the three steps [requests.<method>(...)],
    [response.raise_for_status()] and [response.json()] come to for the
    request [r] after the history [h]. *)
Definition fetch_json (H : Host) (h : History) (r : Request) : Res json :=
  match ep_workspace (req_endpoint r) with
  | None => Raise MissingSchema
  | Some _ =>
      match http H h r with
      | Failed => Raise ConnectionError
      | Replied status content =>
          if negb (headers_encodable (req_headers r))
          then Raise UnicodeEncodeError
          else if is_error_status status then Raise (HTTPError status)
          else match content with
               | Some data => Ok data
               | None => Raise JSONDecodeError
               end
      end
  end.

Definition is_dict (v : json) : bool :=
  match v with
  | JDict _ => true
  | _ => false
  end.

(** The requests among some events. *)
Definition requests_of (evs : list Event) : list Request :=
  flat_map (fun e => match e with EvHttp r => [r] | _ => [] end) evs.

Definition is_listing (r : Request) : bool :=
  match ep_resource (req_endpoint r) with
  | WorkspaceList => true
  | _ => false
  end.

Definition is_status (r : Request) : bool :=
  match ep_resource (req_endpoint r) with
  | WorkspaceGetStatus => true
  | _ => false
  end.

Definition is_get (r : Request) : bool :=
  match req_method r with
  | GET => true
  | _ => false
  end.

Definition is_clone (e : Event) : bool :=
  match e with
  | EvGitClone _ _ => true
  | _ => false
  end.

(** The exception, if any, that the call of [r] after [h] followed by
    [raise_for_status] raises. *)
Definition call_error (H : Host) (h : History) (r : Request) : option exn :=
  match ep_workspace (req_endpoint r) with
  | None => Some MissingSchema
  | Some _ =>
      match http H h r with
      | Failed => Some ConnectionError
      | Replied status _ =>
          if negb (headers_encodable (req_headers r))
          then Some UnicodeEncodeError
          else if is_error_status status then Some (HTTPError status)
          else None
      end
  end.

(** A request of the operation called with workspace [u] and token [t]
    that only reads. *)
Definition reads_from (u t : option string) (e : Event) : Prop :=
  match e with
  | EvHttp r =>
      req_method r = GET /\
      ep_workspace (req_endpoint r) = u /\
      req_headers r = get_headers t /\
      req_json r = None
  | _ => True
  end.

(** A workspace whose status lookup answers with the given body, and every
    other call with 200 and an empty object. *)
Definition status_host (status : json) : Host :=
  {| getenv := sample_getenv;
     http := fun _ r =>
       match ep_resource (req_endpoint r) with
       | WorkspaceGetStatus => Replied 200 (Some status)
       | _ => Replied 200 (Some (JDict []))
       end;
     git := fun _ _ _ => GitExit 0;
     b64decode_text := sample_b64decode;
     b64encode_text := sample_b64encode |}.

Definition sample_library : json :=
  JDict [("object_id", JInt 7); ("object_type", JStr "LIBRARY")].

(** An event of the synchronisation proper: a line, a GET without a body
    on the source workspace with the source token, or a request on the
    target workspace with the target token; never a clone. *)
Definition source_or_target (source_config target_config : WorkspaceConfig)
    (e : Event) : Prop :=
  match e with
  | EvPrint _ => True
  | EvHttp r =>
      (req_method r = GET /\
       ep_workspace (req_endpoint r) = url source_config /\
       req_headers r = get_headers (token source_config) /\
       req_json r = None) \/
      (ep_workspace (req_endpoint r) = url target_config /\
       req_headers r = get_headers (token target_config))
  | EvGitClone _ _ => False
  end.

(** An event that writes nothing to the workspace [u]: a request addressed
    to [u] is a GET without a body. *)
Definition only_reads (u : option string) (e : Event) : Prop :=
  match e with
  | EvHttp r =>
      ep_workspace (req_endpoint r) = u ->
      req_method r = GET /\ req_json r = None
  | _ => True
  end.

(** A request of the grants of one turn: the status lookup of the notebook
    on the target, or the grant of an entry of the source permissions. *)
Definition grant_of (target_config : WorkspaceConfig)
    (cluster_id : option string) (d : pydict) (path : json) (r : Request)
    : Prop :=
  r = status_request (url target_config) (token target_config) path \/
  exists entry w resource,
    In entry d /\ url target_config = Some w /\
    is_permissions_resource resource = true /\
    r = grant_request w (token target_config) resource (fst entry)
          (snd entry) cluster_id.

(** A machine without [NOTEBOOK_DIR] and without [git]. *)
Definition bare_host : Host :=
  {| getenv := fun name =>
       if String.eqb name "NOTEBOOK_DIR" then None else sample_getenv name;
     http := sample_http (Replied 200 (Some (JDict []))) demo_export;
     git := fun _ _ _ => GitNotStarted;
     b64decode_text := sample_b64decode;
     b64encode_text := sample_b64encode |}.

(** A machine whose clone succeeds. *)
Definition cloning_host : Host :=
  {| getenv := sample_getenv;
     http := sample_http
               (Replied 200 (Some (JDict [("objects", JList sample_objects)])))
               demo_export;
     git := fun _ _ _ => GitExit 0;
     b64decode_text := sample_b64decode;
     b64encode_text := sample_b64encode |}.

(** The name [aw] followed by the long s, U+017F (bytes C5 BF). *)
Definition long_s_name : string :=
  String.append "aw" (String "197" (String "191" "")).

(** A machine whose AWS token has a euro sign in it, U+20AC (bytes E2 82
    AC). *)
Definition euro_token : string :=
  String.append "tok" (String "226" (String "130" (String "172" ""))).

Definition euro_host : Host :=
  {| getenv := fun name =>
       if String.eqb name "AWS_ACCESS_TOKEN" then Some euro_token
       else sample_getenv name;
     http := sample_http
               (Replied 200 (Some (JDict [("objects", JList sample_objects)])))
               demo_export;
     git := fun _ _ _ => GitExit 0;
     b64decode_text := sample_b64decode;
     b64encode_text := sample_b64encode |}.

(** The listing requests among some events. *)
Definition listings (evs : list Event) : list Request :=
  filter is_listing (requests_of evs).

(** An event that is not a listing request. *)
Definition not_listing (e : Event) : Prop :=
  match e with
  | EvHttp r => is_listing r = false
  | _ => True
  end.

(** * Properties *)

(** ** Dictionaries *)

Lemma key_eqb_refl (k : json) : key_eqb k k = true.
Proof. unfold key_eqb. destruct (key_class_eq_dec (key_of k) (key_of k)); congruence. Qed.

Lemma key_eqb_true (a b : json) : key_eqb a b = true <-> key_of a = key_of b.
Proof.
  unfold key_eqb. destruct (key_class_eq_dec (key_of a) (key_of b)); split; congruence.
Qed.

Lemma key_eqb_sym (a b : json) : key_eqb a b = key_eqb b a.
Proof.
  unfold key_eqb.
  destruct (key_class_eq_dec (key_of a) (key_of b)),
           (key_class_eq_dec (key_of b) (key_of a)); congruence.
Qed.

Lemma key_eqb_trans (a b c : json) :
  key_eqb a b = true -> key_eqb b c = true -> key_eqb a c = true.
Proof. rewrite !key_eqb_true. congruence. Qed.

Lemma key_eqb_congr (a b c : json) :
  key_eqb a b = true -> key_eqb a c = key_eqb b c.
Proof.
  intros Hab. destruct (key_eqb b c) eqn:Hbc.
  - eapply key_eqb_trans; eauto.
  - destruct (key_eqb a c) eqn:Hac; [|reflexivity].
    rewrite key_eqb_sym in Hab.
    rewrite (key_eqb_trans _ _ _ Hab Hac) in Hbc. discriminate.
Qed.

Lemma dict_get_put_same (d : pydict) (k v : json) :
  dict_get (dict_put d k v) k = Some v.
Proof.
  induction d as [|[k' v'] d IH]; simpl.
  - now rewrite key_eqb_refl.
  - destruct (key_eqb k' k) eqn:E; simpl; rewrite E; auto.
Qed.

Lemma dict_get_put_other (d : pydict) (k v k' : json) :
  key_eqb k k' = false -> dict_get (dict_put d k v) k' = dict_get d k'.
Proof.
  intros Hk. induction d as [|[a w] d IH]; simpl.
  - now rewrite Hk.
  - destruct (key_eqb a k) eqn:E; simpl.
    + rewrite (key_eqb_congr _ _ k' E), Hk. reflexivity.
    + rewrite IH. reflexivity.
Qed.

Lemma dict_count_put_other (d : pydict) (k v k' : json) :
  key_eqb k k' = false -> dict_count (dict_put d k v) k' = dict_count d k'.
Proof.
  intros Hk. unfold dict_count. induction d as [|[a w] d IH]; simpl.
  - now rewrite Hk.
  - destruct (key_eqb a k) eqn:E; simpl.
    + destruct (key_eqb a k'); reflexivity.
    + destruct (key_eqb a k'); simpl; rewrite IH; reflexivity.
Qed.

Lemma dict_count_put_same (d : pydict) (k v : json) :
  dict_count (dict_put d k v) k = Nat.max 1 (dict_count d k).
Proof.
  unfold dict_count. induction d as [|[a w] d IH]; simpl.
  - now rewrite key_eqb_refl.
  - destruct (key_eqb a k) eqn:E; simpl; rewrite E; simpl.
    + reflexivity.
    + exact IH.
Qed.

Lemma dict_count_put_le (d : pydict) (k v k' : json) :
  (dict_count d k' <= 1)%nat -> (dict_count (dict_put d k v) k' <= 1)%nat.
Proof.
  intros Hle. destruct (key_eqb k k') eqn:E.
  - assert (Hc : forall m, dict_count m k' = dict_count m k).
    { intros m. unfold dict_count. f_equal. apply filter_ext. intros [a w]. simpl.
      rewrite (key_eqb_sym a k'), (key_eqb_sym a k). symmetry. now apply key_eqb_congr. }
    rewrite Hc, dict_count_put_same, <- Hc. lia.
  - now rewrite dict_count_put_other.
Qed.
(** ** The permission mapper *)

Lemma acl_step_ok (m : pydict) (item : json) :
  acl_entry_ok item = true ->
  acl_step m item = Ok (dict_put m (spec_principal item) (spec_level item)).
Proof.
  destruct item as [| | | | |l|d]; try discriminate.
  unfold acl_entry_ok, acl_step, spec_principal, spec_level, nested_first,
    field_or_unknown, dict_setitem, py_get, entry_fields.
  intros Hok. apply andb_prop in Hok. destruct Hok as [Hhash Hall].
  simpl rbind at 1.
  destruct (assoc "all_permissions" d) as [ap|] eqn:Eap.
  - destruct ap as [|b|n|f|s|l|d']; simpl in Hall |- *.
    + now rewrite Hhash.
    + destruct b; [discriminate|]. simpl. now rewrite Hhash.
    + destruct (Z.eqb n 0); [|discriminate]. simpl. now rewrite Hhash.
    + destruct f; try discriminate. simpl. now rewrite Hhash.
    + destruct (String.eqb s ""); [|discriminate]. simpl. now rewrite Hhash.
    + destruct l as [|x l]; simpl.
      * now rewrite Hhash.
      * destruct x; try discriminate. simpl. now rewrite Hhash.
    + destruct d'; [|discriminate]. simpl. now rewrite Hhash.
  - simpl. now rewrite Hhash.
Qed.

(** The condition is the weakest one: on any other entry the turn of the
    loop raises an exception, and none that an [except] clause of the
    script would catch. *)
Lemma acl_step_malformed (m : pydict) (item : json) :
  acl_entry_ok item = false ->
  exists e, acl_step m item = Raise e /\ is_RequestException e = false.
Proof.
  destruct item as [| | | | |l|d];
    try (intros _; exists AttributeError; split; reflexivity).
  unfold acl_entry_ok, acl_step, spec_principal, dict_setitem, py_get,
    entry_fields.
  cbn [rbind].
  set (user_name := match assoc "user_name" d with
                    | Some v => v
                    | None => JNull
                    end).
  destruct (assoc "all_permissions" d) as [ap|]; [destruct ap|]; cbn;
    destruct (py_hashable user_name);
    repeat match goal with
           | |- context [(?n =? 0)%Z] => destruct (n =? 0)%Z
           | |- context [match ?x with _ => _ end] => is_var x; destruct x
           end;
    cbn; intros Hx; try discriminate Hx; eexists; split; reflexivity.
Qed.

Lemma acl_loop_ok (items : list json) (m : pydict) :
  forallb acl_entry_ok items = true ->
  acl_loop items m =
  Ok (fold_left
        (fun m item => dict_put m (spec_principal item) (spec_level item))
        items m).
Proof.
  revert m. induction items as [|item items IH]; intros m Hok; simpl in *.
  - reflexivity.
  - apply andb_prop in Hok. destruct Hok as [Hitem Hrest].
    rewrite (acl_step_ok m _ Hitem). simpl. now apply IH.
Qed.

Lemma acl_loop_app (l1 l2 : list json) (m : pydict) :
  acl_loop (l1 ++ l2) m = rbind (acl_loop l1 m) (acl_loop l2).
Proof.
  revert m. induction l1 as [|x l1 IH]; intros m; simpl.
  - reflexivity.
  - destruct (acl_step m x); simpl; auto.
Qed.

Lemma fold_put_get_absent (items : list json) (m : pydict) (k : json) :
  forallb (fun e => negb (key_eqb (spec_principal e) k)) items = true ->
  let m' := fold_left
      (fun m item => dict_put m (spec_principal item) (spec_level item))
      items m in
  dict_get m' k = dict_get m k /\ dict_count m' k = dict_count m k.
Proof.
  revert m. induction items as [|e items IH]; intros m Hno; simpl in *.
  - auto.
  - apply andb_prop in Hno. destruct Hno as [He Hrest].
    apply negb_true_iff in He.
    destruct (IH (dict_put m (spec_principal e) (spec_level e)) Hrest) as [Hg Hc].
    rewrite Hg, Hc, dict_get_put_other, dict_count_put_other; auto.
Qed.

Lemma fold_put_count_le (items : list json) (m : pydict) (k : json) :
  (dict_count m k <= 1)%nat ->
  (dict_count
     (fold_left
        (fun m item => dict_put m (spec_principal item) (spec_level item))
        items m) k <= 1)%nat.
Proof.
  revert m. induction items as [|e items IH]; intros m Hle; simpl.
  - exact Hle.
  - apply IH. now apply dict_count_put_le.
Qed.

Lemma fold_put_get_present (items : list json) (m : pydict) (k : json) :
  dict_get m k <> None ->
  dict_get
    (fold_left
       (fun m item => dict_put m (spec_principal item) (spec_level item))
       items m) k <> None.
Proof.
  revert m. induction items as [|e items IH]; intros m Hin; simpl.
  - exact Hin.
  - apply IH. destruct (key_eqb (spec_principal e) k) eqn:E.
    + assert (Hk : forall d, dict_get d k = dict_get d (spec_principal e)).
      { induction d as [|[a w] d IHd]; simpl; auto.
        rewrite (key_eqb_sym a k), (key_eqb_sym a (spec_principal e)).
        rewrite <- (key_eqb_congr _ _ a E).
        now rewrite IHd. }
      rewrite Hk, dict_get_put_same. discriminate.
    + now rewrite dict_get_put_other.
Qed.

Lemma mapper_last_wins (before after : list json) (e : json) :
  forallb (fun e' => negb (key_eqb (spec_principal e') (spec_principal e)))
    after = true ->
  dict_get (spec_mapping (before ++ e :: after)) (spec_principal e)
    = Some (spec_level e) /\
  dict_count (spec_mapping (before ++ e :: after)) (spec_principal e) = 1%nat.
Proof.
  intros Hlast. unfold spec_mapping. rewrite fold_left_app. simpl.
  set (m0 := fold_left
               (fun m item => dict_put m (spec_principal item) (spec_level item))
               before []).
  destruct (fold_put_get_absent after
              (dict_put m0 (spec_principal e) (spec_level e)) _ Hlast) as [Hg Hc].
  rewrite Hg, Hc, dict_get_put_same, dict_count_put_same. split; [reflexivity|].
  assert (dict_count m0 (spec_principal e) <= 1)%nat.
  { apply fold_put_count_le. unfold dict_count. simpl. lia. }
  lia.
Qed.


Lemma assoc_remove_field (k k' : string) (d : list (string * json)) :
  assoc k' (remove_field k d) = if String.eqb k k' then None else assoc k' d.
Proof.
  induction d as [|[a v] d IH]; simpl.
  - now destruct (String.eqb k k').
  - destruct (String.eqb a k) eqn:Ea; simpl.
    + rewrite IH. destruct (String.eqb k k') eqn:Ek; [reflexivity|].
      apply String.eqb_eq in Ea. subst a. now rewrite Ek.
    + destruct (String.eqb a k') eqn:Ea'; [|exact IH].
      apply String.eqb_eq in Ea'. subst a.
      rewrite String.eqb_sym in Ea. now rewrite Ea.
Qed.

Lemma acl_step_empty_nested (m : pydict) (d : list (string * json)) :
  assoc "all_permissions" d = Some (JList []) ->
  acl_step m (JDict d) = acl_step m (JDict (remove_field "all_permissions" d)).
Proof.
  intros Hd. unfold acl_step, py_get.
  rewrite !assoc_remove_field, Hd. reflexivity.
Qed.

Lemma map_acl_ok (items : list json) :
  forallb acl_entry_ok items = true ->
  map_acl (JList items) = Ok (spec_mapping items).
Proof.
  intros Hitems. unfold map_acl, spec_mapping. simpl. now apply acl_loop_ok.
Qed.

(** C2: on an access control list of well-formed entries the permission
    mapper returns the mapping of the specification: entry after entry, the
    principal is the [user_name] field and the level is the
    [permission_level] of the first nested [all_permissions] element, else
    the top-level [permission_level], else UNKNOWN. *)
Theorem C2_mapper_levels (items : list json) :
  forallb acl_entry_ok items = true ->
  map_acl (JList items) = Ok (spec_mapping items).
Proof. apply map_acl_ok. Qed.

(** C6: when two entries of an access control list name the same principal
    and no later entry does, the mapping holds exactly one entry for that
    principal, and its level is the one of the later entry. *)
Theorem C6_last_write_wins (l1 l2 l3 : list json) (e1 e2 : json) :
  forallb acl_entry_ok (l1 ++ e1 :: l2 ++ e2 :: l3) = true ->
  key_eqb (spec_principal e1) (spec_principal e2) = true ->
  forallb (fun e' => negb (key_eqb (spec_principal e') (spec_principal e2)))
    l3 = true ->
  exists m,
    map_acl (JList (l1 ++ e1 :: l2 ++ e2 :: l3)) = Ok m /\
    dict_get m (spec_principal e1) = Some (spec_level e2) /\
    dict_get m (spec_principal e2) = Some (spec_level e2) /\
    dict_count m (spec_principal e2) = 1%nat.
Proof.
  intros Hok Hsame Hlast.
  exists (spec_mapping (l1 ++ e1 :: l2 ++ e2 :: l3)).
  split; [now apply map_acl_ok|].
  replace (l1 ++ e1 :: l2 ++ e2 :: l3) with ((l1 ++ e1 :: l2) ++ e2 :: l3)
    by (rewrite <- app_assoc; reflexivity).
  destruct (mapper_last_wins (l1 ++ e1 :: l2) l3 e2 Hlast) as [Hg Hc].
  repeat split; auto.
  rewrite <- Hg. clear Hg Hc.
  generalize (spec_mapping ((l1 ++ e1 :: l2) ++ e2 :: l3)).
  induction p as [|[a w] p IH]; simpl; auto.
  rewrite (key_eqb_sym a (spec_principal e1)), (key_eqb_sym a (spec_principal e2)).
  rewrite (key_eqb_congr _ _ a Hsame), IH. reflexivity.
Qed.

(** C10: an entry without a [user_name] is not skipped: it is entered
    under the key [None], which the final mapping therefore holds; and an
    entry whose [all_permissions] is the empty array is mapped exactly as
    the same entry without that field, that is to its top-level
    [permission_level]. *)
Theorem C10_absent_principal_and_empty_nested :
  (forall m d,
     assoc "user_name" d = None -> acl_entry_ok (JDict d) = true ->
     acl_step m (JDict d) = Ok (dict_put m JNull (spec_level (JDict d)))) /\
  (forall items d,
     forallb acl_entry_ok items = true ->
     In (JDict d) items -> assoc "user_name" d = None ->
     exists m v, map_acl (JList items) = Ok m /\ dict_get m JNull = Some v) /\
  (forall m d,
     assoc "all_permissions" d = Some (JList []) ->
     acl_step m (JDict d)
     = acl_step m (JDict (remove_field "all_permissions" d)) /\
     (py_hashable (spec_principal (JDict d)) = true ->
      acl_step m (JDict d)
      = Ok (dict_put m (spec_principal (JDict d)) (field_or_unknown d)))) /\
  (forall l1 l2 d,
     assoc "all_permissions" d = Some (JList []) ->
     map_acl (JList (l1 ++ JDict d :: l2))
     = map_acl (JList (l1 ++ JDict (remove_field "all_permissions" d) :: l2))).
Proof.
  split; [|split; [|split]].
  - intros m d Hname Hentry. rewrite (acl_step_ok m _ Hentry).
    unfold spec_principal. simpl. now rewrite Hname.
  - intros items d Hitems Hin Hname.
    exists (spec_mapping items). rewrite (map_acl_ok items Hitems).
    assert (Hpresent : dict_get (spec_mapping items) JNull <> None).
    { unfold spec_mapping. apply in_split in Hin.
      destruct Hin as [l1 [l2 ->]]. rewrite fold_left_app. simpl.
      apply fold_put_get_present.
      unfold spec_principal. simpl. rewrite Hname.
      rewrite dict_get_put_same. discriminate. }
    destruct (dict_get (spec_mapping items) JNull) as [v|]; [|congruence].
    now exists v.
  - intros m d Hempty. split; [now apply acl_step_empty_nested|].
    intros Hhash. rewrite acl_step_ok.
    + unfold spec_level, nested_first. simpl. now rewrite Hempty.
    + unfold acl_entry_ok. rewrite Hhash, Hempty. reflexivity.
  - intros l1 l2 d Hempty. unfold map_acl. simpl.
    rewrite !acl_loop_app. destruct (acl_loop l1 []) as [m|e]; simpl; auto.
    now rewrite (acl_step_empty_nested m d Hempty).
Qed.

(** ** Reasoning about computations *)

Lemma events_of_app {A} (m : M A) (h : History) (evs : list Event) :
  snd (m h) = h ++ evs -> events_of m h = evs.
Proof.
  intros Hs. unfold events_of. rewrite Hs.
  rewrite skipn_app, skipn_all, Nat.sub_diag. reflexivity.
Qed.

Lemma emits_events_of {A} (P : Event -> Prop) (m : M A) (h : History) :
  emits P m -> Forall P (events_of m h).
Proof.
  intros Hm. destruct (Hm h) as [evs [Hs HP]].
  now rewrite (events_of_app m h evs Hs).
Qed.

Lemma emits_weaken {A} (P Q : Event -> Prop) (m : M A) :
  (forall e, P e -> Q e) -> emits P m -> emits Q m.
Proof.
  intros HPQ Hm h. destruct (Hm h) as [evs [Hs HP]].
  exists evs. split; [assumption|]. eapply Forall_impl; eauto.
Qed.

Lemma emits_ret {A} (P : Event -> Prop) (a : A) : emits P (ret a).
Proof. intros h. exists []. simpl. now rewrite app_nil_r. Qed.

Lemma emits_lift {A} (P : Event -> Prop) (r : Res A) : emits P (lift r).
Proof. intros h. exists []. simpl. now rewrite app_nil_r. Qed.

Lemma emits_bind_lift_ok {A B} (P : Event -> Prop) (a : A) (k : A -> M B) :
  emits P (k a) -> emits P (bind (lift (Ok a)) k).
Proof. intros Hk h. exact (Hk h). Qed.

Lemma emits_bind_lift_raise {A B} (P : Event -> Prop) (e : exn)
    (k : A -> M B) :
  emits P (bind (lift (Raise e)) k).
Proof. intros h. exists []. simpl. now rewrite app_nil_r. Qed.

Lemma emits_emit (P : Event -> Prop) (e : Event) : P e -> emits P (emit e).
Proof. intros He h. exists [e]. simpl. auto. Qed.

Lemma emits_bind {A B} (P : Event -> Prop) (m : M A) (k : A -> M B) :
  emits P m -> (forall a, emits P (k a)) -> emits P (bind m k).
Proof.
  intros Hm Hk h. unfold bind. destruct (Hm h) as [evs [Hs HP]].
  destruct (m h) as [[a|e] h']; simpl in *; subst h'.
  - destruct (Hk a (h ++ evs)) as [evs' [Hs' HP']].
    exists (evs ++ evs'). rewrite Hs', app_assoc. split; [reflexivity|].
    apply Forall_app; auto.
  - exists evs. auto.
Qed.

Lemma emits_try {A} (P : Event -> Prop) (body : M A) (catches : exn -> bool)
    (handler : exn -> M A) :
  emits P body -> (forall e, emits P (handler e)) ->
  emits P (try_except body catches handler).
Proof.
  intros Hm Hk h. unfold try_except. destruct (Hm h) as [evs [Hs HP]].
  destruct (body h) as [[a|e] h']; simpl in *; subst h'.
  - exists evs. auto.
  - destruct (catches e).
    + destruct (Hk e (h ++ evs)) as [evs' [Hs' HP']].
      exists (evs ++ evs'). rewrite Hs', app_assoc. split; [reflexivity|].
      apply Forall_app; auto.
    + exists evs. auto.
Qed.

Lemma emits_for_each {A} (P : Event -> Prop) (l : list A) (body : A -> M unit) :
  (forall x, In x l -> emits P (body x)) -> emits P (for_each l body).
Proof.
  induction l as [|x l IH]; intros Hb; simpl.
  - apply emits_ret.
  - apply emits_bind.
    + apply Hb. now left.
    + intros _. apply IH. intros y Hy. apply Hb. now right.
Qed.

Lemma emits_requests_call (H : Host) (P : Event -> Prop) (r : Request) :
  P (EvHttp r) -> emits P (requests_call H r).
Proof.
  intros Hr h. exists [EvHttp r]. unfold requests_call.
  destruct (ep_workspace (req_endpoint r));
    [destruct (http H h r); [|destruct (headers_encodable (req_headers r))]|];
    simpl; auto.
Qed.

Lemma mspec_weaken {A} (Q Q' : A -> Prop) (E E' : exn -> Prop) (m : M A) :
  (forall a, Q a -> Q' a) -> (forall e, E e -> E' e) ->
  mspec Q E m -> mspec Q' E' m.
Proof.
  intros HQ HE Hm h. specialize (Hm h). destruct (fst (m h)); auto.
Qed.

Lemma mspec_ret {A} (Q : A -> Prop) (E : exn -> Prop) (a : A) :
  Q a -> mspec Q E (ret a).
Proof. intros Ha h. exact Ha. Qed.

Lemma mspec_lift {A} (Q : A -> Prop) (E : exn -> Prop) (r : Res A) :
  match r with Ok a => Q a | Raise e => E e end -> mspec Q E (lift r).
Proof. intros Hr h. exact Hr. Qed.

Lemma mspec_emit (Q : unit -> Prop) (E : exn -> Prop) (e : Event) :
  Q tt -> mspec Q E (emit e).
Proof. intros Ha h. exact Ha. Qed.

Lemma mspec_bind {A B} (Q : A -> Prop) (R : B -> Prop) (E : exn -> Prop)
    (m : M A) (k : A -> M B) :
  mspec Q E m -> (forall a, Q a -> mspec R E (k a)) -> mspec R E (bind m k).
Proof.
  intros Hm Hk h. unfold bind. specialize (Hm h).
  destruct (m h) as [[a|e] h']; simpl in *.
  - apply Hk. exact Hm.
  - exact Hm.
Qed.

Lemma mspec_try {A} (Q : A -> Prop) (E E' : exn -> Prop) (body : M A)
    (catches : exn -> bool) (handler : exn -> M A) :
  mspec Q E body ->
  (forall e, E e -> catches e = true /\ mspec Q E' (handler e)) ->
  mspec Q E' (try_except body catches handler).
Proof.
  intros Hm Hk h. unfold try_except. specialize (Hm h).
  destruct (body h) as [[a|e] h']; simpl in *.
  - exact Hm.
  - destruct (Hk e Hm) as [Hc Hh]. rewrite Hc. apply Hh.
Qed.

Lemma mspec_for_each {A} (E : exn -> Prop) (l : list A) (body : A -> M unit) :
  (forall x, In x l -> mspec (fun _ => True) E (body x)) ->
  mspec (fun _ => True) E (for_each l body).
Proof.
  induction l as [|x l IH]; intros Hb; simpl.
  - now apply mspec_ret.
  - eapply mspec_bind.
    + apply Hb. now left.
    + intros _ _. apply IH. intros y Hy. apply Hb. now right.
Qed.

Lemma returns_run {A} (Q : A -> Prop) (m : M A) (h : History) :
  returns Q m -> exists a h', m h = (Ok a, h') /\ Q a.
Proof.
  intros Hm. specialize (Hm h). destruct (m h) as [[a|e] h']; simpl in *.
  - eauto.
  - contradiction.
Qed.

(** ** Strings *)

Lemma prefixb_spec (p s : string) :
  prefixb p s = true <-> exists after, s = String.append p after.
Proof.
  revert s. induction p as [|a p IH]; intros s; simpl.
  - split; eauto.
  - destruct s as [|b s].
    + split; [discriminate|]. intros [after Ha]. discriminate.
    + rewrite andb_true_iff, Ascii.eqb_eq, IH. split.
      * intros [-> [after ->]]. eauto.
      * intros [after Ha]. injection Ha as -> ->. eauto.
Qed.

Lemma str_contains_spec (needle hay : string) :
  str_contains needle hay = true <-> is_substring needle hay.
Proof.
  unfold is_substring. induction hay as [|c hay IH].
  - simpl. rewrite orb_false_r, prefixb_spec. split.
    + intros [after Ha]. exists "", after. exact Ha.
    + intros [[|b before] [after Ha]]; [eauto | discriminate].
  - cbn [str_contains]. rewrite orb_true_iff, IH, prefixb_spec. split.
    + intros [[after Ha] | [before [after Ha]]].
      * exists "", after. exact Ha.
      * exists (String c before), after. simpl. now rewrite Ha.
    + intros [[|b before] [after Ha]].
      * left. eauto.
      * right. simpl in Ha. injection Ha as _ Ha. eauto.
Qed.

(** *** Text *)

Lemma byte_code_bounded (b : ascii) : (byte_code b < 256)%N.
Proof. apply N_ascii_bounded. Qed.

Lemma byte_code_byte (n : N) : (n < 256)%N -> byte_code (code_byte n) = n.
Proof. apply N_ascii_embedding. Qed.

Lemma utf8_decode_ascii (b : ascii) (s : string) :
  (byte_code b < 0x80)%N ->
  utf8_decode (String b s) = byte_code b :: utf8_decode s.
Proof.
  intros Hb. cbn [utf8_decode]. cbv zeta.
  apply N.ltb_lt in Hb. now rewrite Hb.
Qed.

Ltac bool_N :=
  repeat match goal with
         | Hx : _ && _ = true |- _ => apply andb_prop in Hx; destruct Hx
         | Hx : negb _ = true |- _ => apply negb_true_iff in Hx
         | Hx : (_ <=? _)%N = true |- _ => apply N.leb_le in Hx
         | Hx : (_ <? _)%N = true |- _ => apply N.ltb_lt in Hx
         | Hx : (_ =? _)%N = true |- _ => apply N.eqb_eq in Hx
         | Hx : (_ <=? _)%N = false |- _ => apply N.leb_gt in Hx
         | Hx : (_ <? _)%N = false |- _ => apply N.ltb_ge in Hx
         | Hx : (_ =? _)%N = false |- _ => apply N.eqb_neq in Hx
         end.

Lemma continuation_range (n : N) :
  continuation n = true -> (0x80 <= n < 0xC0)%N.
Proof. unfold continuation. intros Hc. bool_N. lia. Qed.

(** Every decoded code point is below U+110000. *)
Lemma utf8_decode_range (s : string) :
  Forall (fun c => (c < 0x110000)%N) (utf8_decode s).
Proof.
  assert (Hlen : forall n s, (String.length s <= n)%nat ->
                             Forall (fun c => (c < 0x110000)%N) (utf8_decode s)).
  { clear s. induction n as [|n IH]; intros s Hs.
    - destruct s; [constructor|simpl in Hs; lia].
    - destruct s as [|b0 s1]; [constructor|].
      simpl in Hs. cbn [utf8_decode]. cbv zeta.
      pose proof (byte_code_bounded b0) as Hb0.
      assert (Hesc : (replacement < 0x110000)%N) by reflexivity.
      assert (H1 : Forall (fun c => (c < 0x110000)%N) (utf8_decode s1))
        by (apply IH; lia).
      destruct (byte_code b0 <? 0x80)%N eqn:E0;
        [bool_N; constructor; [lia|assumption]|].
      destruct s1 as [|b1 s2]; [now repeat constructor|].
      simpl in Hs.
      match goal with
      | |- context [if ?c then _ else _] => destruct c eqn:E2
      end.
      { bool_N.
        repeat match goal with
               | Hx : continuation _ = true |- _ =>
                   apply continuation_range in Hx
               end.
        constructor; [lia|apply IH; lia]. }
      destruct s2 as [|b2 s3]; [now constructor|].
      simpl in Hs.
      match goal with
      | |- context [if ?c then _ else _] => destruct c eqn:E3
      end.
      { bool_N.
        repeat match goal with
               | Hx : continuation _ = true |- _ =>
                   apply continuation_range in Hx
               end.
        constructor; [lia|apply IH; lia]. }
      destruct s3 as [|b3 s4]; [now constructor|].
      simpl in Hs.
      match goal with
      | |- context [if ?c then _ else _] => destruct c eqn:E4
      end.
      { bool_N. constructor; [lia|apply IH; lia]. }
      now constructor. }
  exact (Hlen (String.length s) s (le_n _)).
Qed.

Lemma utf8_decode_ascii_only (s : string) :
  ascii_only s = true ->
  utf8_decode s = map byte_code (list_ascii_of_string s).
Proof.
  induction s as [|b s IH]; [reflexivity|]. cbn [ascii_only]. intros Hs.
  bool_N. rewrite utf8_decode_ascii by assumption. simpl. now rewrite IH.
Qed.

(** *** The bytes of a code point *)

Lemma utf8_encode_code_low (c : N) :
  (c < 0x80)%N -> utf8_encode_code c = String (code_byte c) "".
Proof. intros Hc. unfold utf8_encode_code. apply N.ltb_lt in Hc. now rewrite Hc. Qed.

Lemma utf8_encode_code_high (c : N) :
  (0x80 <= c < 0x110000)%N ->
  exists b rest, utf8_encode_code c = String b rest /\ (0x80 <= byte_code b)%N.
Proof.
  intros Hc. unfold utf8_encode_code.
  assert (Hlead : forall d bound n,
             (c < d * bound)%N -> (0x80 <= n)%N -> (n + bound <= 256)%N ->
             (0x80 <= byte_code (code_byte (n + c / d)))%N).
  { intros d bound n Hd Hn Hb.
    assert (Hq : (c / d < bound)%N) by (apply N.Div0.div_lt_upper_bound; lia).
    remember (c / d)%N as q eqn:Eq. clear Eq.
    rewrite byte_code_byte; lia. }
  destruct (c <? 0x80)%N eqn:E1; [bool_N; lia|].
  destruct (c <? 0x800)%N eqn:E2.
  { bool_N. eexists. eexists. split; [reflexivity|].
    apply (Hlead 64 32 0xC0)%N; lia. }
  destruct (c <? 0x10000)%N eqn:E4.
  { bool_N. eexists. eexists. split; [reflexivity|].
    apply (Hlead 4096 16 0xE0)%N; lia. }
  bool_N. eexists. eexists. split; [reflexivity|].
  apply (Hlead 262144 5 0xF0)%N; lia.
Qed.

(** Text that encodes to ASCII bytes is that ASCII text. *)
Lemma utf8_encode_ascii (l : list N) (key : string) :
  Forall (fun c => (c < 0x110000)%N) l ->
  ascii_only key = true ->
  utf8_encode l = key -> l = utf8_decode key.
Proof.
  intros Hl. revert key. induction Hl as [|c l Hc _ IH]; intros key Hkey He.
  - simpl in He. now subst key.
  - cbn [utf8_encode] in He.
    destruct (N.lt_ge_cases c 0x80) as [Hlow|Hhigh].
    + rewrite (utf8_encode_code_low c Hlow) in He. simpl in He. subst key.
      cbn [ascii_only] in Hkey. bool_N.
      rewrite utf8_decode_ascii by assumption.
      rewrite byte_code_byte by lia. f_equal. now apply IH.
    + destruct (utf8_encode_code_high c (conj Hhigh Hc)) as [b [rest [Hb Hge]]].
      rewrite Hb in He. simpl in He. subst key.
      cbn [ascii_only] in Hkey. bool_N. lia.
Qed.

(** *** Upper case *)

Lemma case_tables_checked :
  forallb (fun e =>
             negb (match snd e with [] => true | _ => false end)
             && forallb (fun x => (x <? 0x110000)%N) (snd e)
             && (negb (existsb (fun x => (x <? 0x80)%N) (snd e))
                 || existsb (N.eqb (fst e)) ascii_upper_exceptions)
             && (0x80 <=? fst e)%N)
    special_upper = true /\
  forallb (fun r =>
             let '(first, last, step, target) := r in
             (target + (last - first) <? 0x110000)%N
             && (((last <? 0x80)%N && (first =? 0x61)%N && (last =? 0x7A)%N
                  && (step =? 1)%N && (target =? 0x41)%N)
                 || ((0x80 <=? first)%N
                     && ((0x80 <=? target)%N
                         || ((first =? last)%N
                             && existsb (N.eqb first) ascii_upper_exceptions)))))
    case_runs = true.
Proof. split; vm_compute; reflexivity. Qed.

Lemma existsb_eqb_In (c : N) (l : list N) :
  existsb (N.eqb c) l = true -> In c l.
Proof.
  intros He. apply existsb_exists in He. destruct He as [x [Hx Hc]].
  apply N.eqb_eq in Hc. now subst x.
Qed.

(** What the tables give for one code point. *)
Lemma upper_code_cases (c : N) :
  (exists l, In (c, l) special_upper /\ upper_code c = l) \/
  (exists first last step target,
     In (first, last, step, target) case_runs /\
     (first <= c <= last)%N /\
     upper_code c = [(target + (c - first))%N]) \/
  upper_code c = [c].
Proof.
  unfold upper_code.
  destruct (find (fun e => (fst e =? c)%N) special_upper) as [[c' l]|] eqn:Es.
  - left. apply find_some in Es. destruct Es as [Hin Hc]. simpl in Hc.
    apply N.eqb_eq in Hc. subst c'. now exists l.
  - destruct (find (in_run c) case_runs) as [[[[first last] step] target]|]
      eqn:Er; [|now right; right].
    right. left. apply find_some in Er. destruct Er as [Hin Hc].
    unfold in_run in Hc. bool_N. exists first, last, step, target.
    repeat split; auto.
Qed.

Lemma upper_code_nonempty (c : N) : upper_code c <> [].
Proof.
  destruct (upper_code_cases c) as [[l [Hin ->]]|[[? [? [? [? [_ [_ ->]]]]]]| ->]];
    try discriminate.
  destruct case_tables_checked as [Hs _]. rewrite forallb_forall in Hs.
  specialize (Hs _ Hin). simpl in Hs. bool_N.
  destruct l; [discriminate|discriminate].
Qed.

Lemma upper_code_range (c : N) :
  (c < 0x110000)%N -> Forall (fun x => (x < 0x110000)%N) (upper_code c).
Proof.
  intros Hc. destruct case_tables_checked as [Hs Hr].
  rewrite forallb_forall in Hs, Hr.
  destruct (upper_code_cases c)
    as [[l [Hin ->]]|[[first [last [step [target [Hin [Hcr ->]]]]]]| ->]].
  - specialize (Hs _ Hin). simpl in Hs. bool_N.
    apply Forall_forall. intros x Hx.
    match goal with
    | Hf : forallb _ l = true |- _ => rewrite forallb_forall in Hf;
                                      specialize (Hf x Hx)
    end.
    bool_N. assumption.
  - specialize (Hr _ Hin). cbv beta iota in Hr. bool_N.
    repeat constructor. lia.
  - now repeat constructor.
Qed.

(** Below U+0080 only [a]..[z] change. *)
Lemma upper_code_low (c : N) :
  (c < 0x80)%N ->
  upper_code c = [if ((0x61 <=? c) && (c <=? 0x7A))%N then (c - 32)%N else c].
Proof.
  intros Hc. destruct case_tables_checked as [Hs Hr].
  rewrite forallb_forall in Hs, Hr.
  destruct (upper_code_cases c)
    as [[l [Hin Hu]]|[[first [last [step [target [Hin [Hcr Hu]]]]]]|Hu]];
    rewrite Hu.
  - specialize (Hs _ Hin). simpl in Hs. bool_N. lia.
  - specialize (Hr _ Hin). cbv beta iota in Hr. bool_N.
    match goal with
    | Hx : _ || _ = true |- _ => apply orb_prop in Hx; destruct Hx as [Hx|Hx]
    end; bool_N; [|lia].
    subst. destruct ((0x61 <=? c) && (c <=? 0x7A))%N eqn:E.
    + f_equal. lia.
    + apply andb_false_iff in E. destruct E; bool_N; lia.
  - destruct ((0x61 <=? c) && (c <=? 0x7A))%N eqn:E; [|reflexivity].
    exfalso. bool_N.
    (* [c] is in the run of the lower-case letters, so [find] finds a run *)
    unfold upper_code in Hu.
    destruct (find (fun e => (fst e =? c)%N) special_upper) eqn:Es.
    + apply find_some in Es. destruct Es as [Hin Hc']. apply N.eqb_eq in Hc'.
      specialize (Hs _ Hin). simpl in Hs. bool_N. lia.
    + destruct (find (in_run c) case_runs) as [[[[first last] step] target]|]
        eqn:Er.
      * apply find_some in Er. destruct Er as [Hin Hc'].
        unfold in_run in Hc'. specialize (Hr _ Hin). cbv beta iota in Hr.
        bool_N.
        match goal with
        | Hx : _ || _ = true |- _ => apply orb_prop in Hx; destruct Hx as [Hx|Hx]
        end; bool_N; [|lia].
        assert (Heq : (target + (c - first))%N = c) by congruence.
        clear Hu.
        repeat match goal with
               | Hx : context [N.modulo] |- _ => clear Hx
               end.
        lia.
      * assert (Hnone := find_none _ _ Er (0x61, 0x7A, 1, 0x41)%N).
        assert (Hin : In (0x61, 0x7A, 1, 0x41)%N case_runs) by (now left).
        specialize (Hnone Hin). unfold in_run in Hnone.
        rewrite N.mod_1_r in Hnone.
        apply andb_false_iff in Hnone. destruct Hnone as [Hnone|Hnone];
          [|discriminate].
        apply andb_false_iff in Hnone. destruct Hnone; bool_N; lia.
Qed.

(** Above U+007F a character of ASCII appears in the upper case of the
    listed code points only. *)
Lemma upper_code_ascii (c x : N) :
  (0x80 <= c)%N -> In x (upper_code c) -> (x < 0x80)%N ->
  In c ascii_upper_exceptions.
Proof.
  intros Hc Hx Hlow. destruct case_tables_checked as [Hs Hr].
  rewrite forallb_forall in Hs, Hr.
  destruct (upper_code_cases c)
    as [[l [Hin Hu]]|[[first [last [step [target [Hin [Hcr Hu]]]]]]|Hu]];
    rewrite Hu in Hx.
  - specialize (Hs _ Hin). simpl in Hs.
    apply andb_prop in Hs. destruct Hs as [Hs _].
    apply andb_prop in Hs. destruct Hs as [_ Hs].
    apply orb_prop in Hs. destruct Hs as [Hs|Hs].
    + apply negb_true_iff in Hs.
      assert (Ht : existsb (fun x => (x <? 0x80)%N) l = true).
      { apply existsb_exists. exists x. split; [assumption|].
        now apply N.ltb_lt. }
      congruence.
    + now apply existsb_eqb_In.
  - specialize (Hr _ Hin). cbv beta iota in Hr.
    apply andb_prop in Hr. destruct Hr as [_ Hr].
    destruct Hx as [<-|[]].
    apply orb_prop in Hr. destruct Hr as [Hr|Hr]; [bool_N; lia|].
    apply andb_prop in Hr. destruct Hr as [_ Hr].
    apply orb_prop in Hr. destruct Hr as [Hr|Hr]; [bool_N; lia|].
    apply andb_prop in Hr. destruct Hr as [Hfl Hex]. apply N.eqb_eq in Hfl.
    assert (c = first) by lia. subst c. now apply existsb_eqb_In.
  - destruct Hx as [<-|[]]. lia.
Qed.

(** *** Names that read as a key *)

Lemma plain_key_head (k : N) (ks : list N) :
  plain_key (k :: ks) = true ->
  (0x41 <= k <= 0x5A)%N /\ k <> 0x46%N /\ k <> 0x49%N /\ plain_key ks = true.
Proof.
  cbn [plain_key]. intros Hp.
  apply andb_prop in Hp. destruct Hp as [Hp Hks].
  apply andb_prop in Hp. destruct Hp as [Hk _]. bool_N. auto.
Qed.

Lemma letter_match_upper (k c : N) :
  (0x41 <= k <= 0x5A)%N -> letter_match k c = true -> upper_code c = [k].
Proof.
  intros Hk Hm. unfold letter_match in Hm.
  apply orb_prop in Hm. destruct Hm as [Hm|Hm];
    [apply orb_prop in Hm; destruct Hm as [Hm|Hm]|]; bool_N; subst.
  - rewrite upper_code_low by lia.
    destruct ((0x61 <=? k) && (k <=? 0x7A))%N eqn:E; [bool_N; lia|reflexivity].
  - rewrite upper_code_low by lia.
    destruct ((0x61 <=? k + 32) && (k + 32 <=? 0x7A))%N eqn:E.
    + f_equal. lia.
    + apply andb_false_iff in E. destruct E; bool_N; lia.
  - reflexivity.
Qed.

Lemma codes_match_upper (cs ks : list N) :
  plain_key ks = true -> codes_match cs ks = true ->
  flat_map upper_code cs = ks.
Proof.
  revert ks. induction cs as [|c cs IH]; intros [|k ks] Hp Hm;
    try discriminate; [reflexivity|].
  cbn [codes_match] in Hm. apply andb_prop in Hm. destruct Hm as [Hc Hm].
  destruct (plain_key_head k ks Hp) as [Hk [_ [_ Hks]]].
  cbn [flat_map]. rewrite (letter_match_upper k c Hk Hc). simpl.
  f_equal. now apply IH.
Qed.

Lemma codes_match_complete (cs ks : list N) :
  plain_key ks = true -> flat_map upper_code cs = ks ->
  codes_match cs ks = true.
Proof.
  revert ks. induction cs as [|c cs IH]; intros ks Hp He.
  - simpl in He. now subst ks.
  - cbn [flat_map] in He.
    destruct (upper_code c) as [|x xs] eqn:Eu;
      [now elim (upper_code_nonempty c)|].
    simpl in He. subst ks.
    destruct (plain_key_head _ _ Hp) as [Hx [HF [HI Hrest]]].
    destruct (N.lt_ge_cases c 0x80) as [Hlow|Hhigh].
    + rewrite (upper_code_low c Hlow) in Eu.
      assert (Hxs : xs = []) by congruence.
      assert (Hxc : x = if ((0x61 <=? c) && (c <=? 0x7A))%N
                        then (c - 32)%N else c) by congruence.
      clear Eu. subst xs. simpl in Hrest |- *.
      rewrite (IH _ Hrest eq_refl), andb_true_r.
      unfold letter_match.
      destruct ((0x61 <=? c) && (c <=? 0x7A))%N eqn:E.
      * bool_N. assert (Hc : (c =? x + 32)%N = true) by (apply N.eqb_eq; lia).
        rewrite Hc. now rewrite orb_true_r.
      * subst x. now rewrite N.eqb_refl.
    + assert (Hexc : In c ascii_upper_exceptions).
      { apply (upper_code_ascii c x Hhigh); [rewrite Eu; now left|lia]. }
      unfold ascii_upper_exceptions in Hexc.
      repeat (destruct Hexc as [<-|Hexc]); [..|destruct Hexc];
        vm_compute in Eu; injection Eu as <- <-;
        try (exfalso; lia);
        try (simpl in Hp; discriminate).
      (* the long s *)
      simpl in Hrest |- *. now rewrite (IH _ Hrest eq_refl).
Qed.

Lemma utf8_encode_decode_ascii (s : string) :
  ascii_only s = true -> utf8_encode (utf8_decode s) = s.
Proof.
  induction s as [|b s IH]; [reflexivity|]. cbn [ascii_only]. intros Hs.
  bool_N. rewrite utf8_decode_ascii by assumption. cbn [utf8_encode].
  rewrite utf8_encode_code_low by assumption. simpl.
  unfold code_byte, byte_code. rewrite ascii_N_embedding. f_equal. now apply IH.
Qed.

Lemma flat_map_upper_range (cs : list N) :
  Forall (fun c => (c < 0x110000)%N) cs ->
  Forall (fun c => (c < 0x110000)%N) (flat_map upper_code cs).
Proof.
  induction 1 as [|c cs Hc _ IH]; simpl; [constructor|].
  apply Forall_app. split; [now apply upper_code_range|assumption].
Qed.

(** [name.upper() == key] for a plain key: the name reads as the key. *)
Lemma upper_plain_key (name key : string) :
  ascii_only key = true -> plain_key (utf8_decode key) = true ->
  String.eqb key (upper name) = provider_match name key.
Proof.
  intros Hascii Hplain. unfold provider_match, upper.
  destruct (codes_match (utf8_decode name) (utf8_decode key)) eqn:Em.
  - apply String.eqb_eq.
    rewrite (codes_match_upper _ _ Hplain Em).
    symmetry. now apply utf8_encode_decode_ascii.
  - apply String.eqb_neq. intros He.
    assert (Hl : flat_map upper_code (utf8_decode name) = utf8_decode key).
    { apply utf8_encode_ascii; auto.
      apply flat_map_upper_range, utf8_decode_range. }
    rewrite (codes_match_complete _ _ Hplain Hl) in Em. discriminate.
Qed.

(** On names of ASCII characters, reading as a key is matching it without
    regard to case. *)
Lemma byte_code_nat (b : ascii) : nat_of_ascii b = N.to_nat (byte_code b).
Proof. reflexivity. Qed.

Lemma ci_char_letter (c d : ascii) :
  (0x41 <= byte_code d <= 0x5A)%N ->
  ci_char c d = true ->
  (byte_code c < 0x80)%N /\ letter_match (byte_code d) (byte_code c) = true.
Proof.
  intros Hd Hci. unfold ci_char in Hci. rewrite !byte_code_nat in Hci.
  unfold letter_match.
  assert (Hcases : byte_code c = byte_code d \/
                   byte_code c = (byte_code d + 32)%N).
  { repeat (apply orb_prop in Hci; destruct Hci as [Hci|Hci]);
      repeat (apply andb_prop in Hci; destruct Hci as [Hci ?]);
      repeat match goal with
             | Hx : (_ =? _)%nat = true |- _ => apply Nat.eqb_eq in Hx
             | Hx : (_ <=? _)%nat = true |- _ => apply Nat.leb_le in Hx
             end; lia. }
  destruct Hcases as [->| ->]; split; try lia.
  - now rewrite N.eqb_refl.
  - rewrite N.eqb_refl. now rewrite orb_true_r.
Qed.

Lemma letter_ci_char (c d : ascii) :
  (0x41 <= byte_code d <= 0x5A)%N -> (byte_code c < 0x80)%N ->
  letter_match (byte_code d) (byte_code c) = true -> ci_char c d = true.
Proof.
  intros Hd Hc Hm. unfold letter_match in Hm. unfold ci_char.
  rewrite !byte_code_nat.
  apply orb_prop in Hm. destruct Hm as [Hm|Hm];
    [apply orb_prop in Hm; destruct Hm as [Hm|Hm]|]; bool_N.
  - rewrite Hm, Nat.eqb_refl. reflexivity.
  - rewrite !orb_true_iff, !andb_true_iff, !Nat.eqb_eq, !Nat.leb_le. lia.
  - lia.
Qed.

Lemma ci_match_reads (name key : string) :
  ascii_only key = true -> plain_key (utf8_decode key) = true ->
  ci_match name key = true ->
  ascii_only name = true /\ provider_match name key = true.
Proof.
  unfold provider_match. revert key.
  induction name as [|c name IH]; intros [|d key] Hascii Hplain Hci;
    try discriminate; [split; reflexivity|].
  cbn [ci_match] in Hci. apply andb_prop in Hci. destruct Hci as [Hc Hci].
  cbn [ascii_only] in Hascii. apply andb_prop in Hascii.
  destruct Hascii as [Hd Hascii]. apply N.ltb_lt in Hd.
  rewrite (utf8_decode_ascii d key Hd) in Hplain |- *.
  destruct (plain_key_head _ _ Hplain) as [Hk [_ [_ Hrest]]].
  destruct (ci_char_letter c d Hk Hc) as [Hlow Hm].
  destruct (IH key Hascii Hrest Hci) as [Hname Hmatch].
  rewrite (utf8_decode_ascii c name Hlow). cbn [ascii_only codes_match].
  apply N.ltb_lt in Hlow. now rewrite Hlow, Hname, Hm, Hmatch.
Qed.

Lemma reads_ci_match (name key : string) :
  ascii_only name = true ->
  ascii_only key = true -> plain_key (utf8_decode key) = true ->
  provider_match name key = true -> ci_match name key = true.
Proof.
  unfold provider_match. revert key.
  induction name as [|c name IH]; intros [|d key] Hname Hascii Hplain Hm;
    try reflexivity.
  - cbn [ascii_only] in Hascii. apply andb_prop in Hascii.
    destruct Hascii as [Hd _]. apply N.ltb_lt in Hd.
    rewrite (utf8_decode_ascii d key Hd) in Hm. discriminate.
  - cbn [ascii_only] in Hname. apply andb_prop in Hname.
    destruct Hname as [Hc _]. apply N.ltb_lt in Hc.
    rewrite (utf8_decode_ascii c name Hc) in Hm. discriminate.
  - cbn [ascii_only] in Hname, Hascii.
    apply andb_prop in Hname. destruct Hname as [Hc Hname].
    apply andb_prop in Hascii. destruct Hascii as [Hd Hascii].
    apply N.ltb_lt in Hc, Hd.
    rewrite (utf8_decode_ascii c name Hc), (utf8_decode_ascii d key Hd) in Hm.
    rewrite (utf8_decode_ascii d key Hd) in Hplain.
    destruct (plain_key_head _ _ Hplain) as [Hk [_ [_ Hrest]]].
    cbn [codes_match] in Hm. apply andb_prop in Hm. destruct Hm as [Hl Hm].
    cbn [ci_match]. rewrite (letter_ci_char c d Hk Hc Hl). simpl.
    now apply IH.
Qed.

(** ** The API client: events *)

Ltac emits_step :=
  match goal with
  | |- emits _ (bind (lift (Ok _)) _) => apply emits_bind_lift_ok; cbv beta iota
  | |- emits _ (bind (lift (Raise _)) _) => apply emits_bind_lift_raise
  | |- emits _ (bind _ _) => apply emits_bind; [|intros ?]
  | |- emits _ (ret _) => apply emits_ret
  | |- emits _ (lift _) => apply emits_lift
  | |- emits _ (print _) => apply emits_emit
  | |- emits _ (emit _) => apply emits_emit
  | |- emits _ (try_except _ _ _) => apply emits_try; [|intros ?]
  | |- emits _ (requests_call _ _) => apply emits_requests_call
  | |- emits _ (if ?c then _ else _) => destruct c eqn:?
  | |- emits _ (match ?c with _ => _ end) => destruct c eqn:?
  end.

Section ClientEvents.

Variable H : Host.
Variable P : Event -> Prop.
Hypothesis P_print : forall l, P (EvPrint l).

Lemma emits_list_notebooks (u t : option string) (p : json) :
  P (EvHttp (list_request u t p)) -> emits P (list_notebooks H u t p).
Proof.
  intros Hr. unfold list_notebooks, requests_get. repeat emits_step; auto.
Qed.

Lemma emits_export_notebook (u t : option string) (p : json) :
  P (EvHttp (export_request u t p)) -> emits P (export_notebook H u t p).
Proof.
  intros Hr. unfold export_notebook, requests_get. repeat emits_step; auto.
Qed.

Lemma emits_import_notebook (u t : option string) (c : string) (p : json)
    (l : string) :
  P (EvHttp (import_request H u t c p l)) ->
  emits P (import_notebook H u t c p l).
Proof.
  intros Hr. unfold import_notebook, requests_post. repeat emits_step; auto.
Qed.

Lemma emits_get_object_status (u t : option string) (p : json) :
  P (EvHttp (status_request u t p)) -> emits P (get_object_status H u t p).
Proof.
  intros Hr. unfold get_object_status, requests_get. repeat emits_step; auto.
Qed.

Lemma emits_get_permissions (u t : option string) (p : json) :
  P (EvHttp (status_request u t p)) ->
  (forall resource,
      is_permissions_resource resource = true ->
      P (EvHttp (permissions_request u t resource))) ->
  emits P (get_permissions H u t p).
Proof.
  intros Hs Hr. unfold get_permissions.
  apply emits_bind; [now apply emits_get_object_status|]. intros st.
  unfold requests_get. repeat emits_step; auto; now apply Hr.
Qed.

Lemma emits_grant_permissions (u t : option string) (p email level : json)
    (cid : option string) :
  P (EvHttp (status_request u t p)) ->
  (forall w resource,
      u = Some w ->
      is_permissions_resource resource = true ->
      P (EvHttp (grant_request w t resource email level cid))) ->
  emits P (grant_permissions H u t p email level cid).
Proof.
  intros Hs Hr. unfold grant_permissions.
  apply emits_bind; [now apply emits_get_object_status|]. intros st.
  destruct u as [w|].
  - specialize (fun r => Hr w r eq_refl). unfold grant_request in Hr.
    unfold requests_patch, requests_put, grant_method, py_in. simpl rbind.
    destruct (str_contains "databricks.com" w);
      repeat emits_step; auto; now apply Hr.
  - unfold grant_method, py_in. simpl rbind. repeat emits_step; auto.
Qed.

End ClientEvents.

(** ** Granting permissions *)

(** C7: the body of a grant request is an object whose
    [access_control_list] holds the entry for the principal and the level
    and, exactly when the cluster id is a non-empty string, one more entry
    that grants CAN_ATTACH_TO to the same principal on that cluster. *)
Theorem C7_grant_body (H : Host)
    (workspace_url access_token : option string)
    (path email permission_level : json) (cluster_id : option string)
    (h : History) (req : Request) :
  In (EvHttp req)
     (events_of (grant_permissions H workspace_url access_token path email
                   permission_level cluster_id) h) ->
  req_method req <> GET ->
  exists acl,
    req_json req = Some (JDict [("access_control_list", JList acl)]) /\
    (forall c, cluster_id = Some c -> c <> "" ->
               acl = [grant_entry email permission_level;
                      attach_entry email c]) /\
    (cluster_id = None \/ cluster_id = Some "" ->
     acl = [grant_entry email permission_level]).
Proof.
  intros Hin Hnot.
  pose (P := fun e =>
    match e with
    | EvHttp r =>
        req_method r <> GET ->
        req_json r = Some (grant_data email permission_level cluster_id)
    | _ => True
    end).
  assert (HP : Forall P (events_of (grant_permissions H workspace_url
            access_token path email permission_level cluster_id) h)).
  { apply emits_events_of. apply emits_grant_permissions.
    - intros l. exact I.
    - intros Hget. now elim Hget.
    - intros w resource _ _ _. reflexivity. }
  rewrite Forall_forall in HP. specialize (HP _ Hin Hnot). simpl in HP.
  rewrite HP. unfold grant_data, truthy_env, grant_entry, attach_entry.
  destruct cluster_id as [c|]; simpl.
  - destruct (String.eqb_spec c "") as [->|Hc]; simpl.
    + eexists. split; [reflexivity|]. split.
      * intros c' Hc' Hne. congruence.
      * reflexivity.
    + eexists. split; [reflexivity|]. split.
      * intros c' Hc' _. now injection Hc' as <-.
      * intros [Hn|Hn]; [discriminate | congruence].
  - eexists. split; [reflexivity|]. split.
    + discriminate.
    + reflexivity.
Qed.

(** ** Configuration *)

Lemma get_workspace_config_upper (H : Host) (name : string) :
  get_workspace_config H name =
  if String.eqb "AWS" (upper name)
  then Some {| url := getenv H "AWS_WORKSPACE_URL";
               token := getenv H "AWS_ACCESS_TOKEN" |}
  else if String.eqb "AZURE" (upper name)
  then Some {| url := getenv H "AZURE_WORKSPACE_URL";
               token := getenv H "AZURE_ACCESS_TOKEN" |}
  else if String.eqb "GCP" (upper name)
  then Some {| url := getenv H "GCP_WORKSPACE_URL";
               token := getenv H "GCP_ACCESS_TOKEN" |}
  else None.
Proof. reflexivity. Qed.

(** The lookup, read off the name: what decides is whether the name reads
    as one of the three keys. *)
Lemma get_workspace_config_reads (H : Host) (name : string) :
  get_workspace_config H name =
  if provider_match name "AWS"
  then Some {| url := getenv H "AWS_WORKSPACE_URL";
               token := getenv H "AWS_ACCESS_TOKEN" |}
  else if provider_match name "AZURE"
  then Some {| url := getenv H "AZURE_WORKSPACE_URL";
               token := getenv H "AZURE_ACCESS_TOKEN" |}
  else if provider_match name "GCP"
  then Some {| url := getenv H "GCP_WORKSPACE_URL";
               token := getenv H "GCP_ACCESS_TOKEN" |}
  else None.
Proof.
  rewrite get_workspace_config_upper.
  rewrite (upper_plain_key name "AWS" eq_refl eq_refl).
  rewrite (upper_plain_key name "AZURE" eq_refl eq_refl).
  rewrite (upper_plain_key name "GCP" eq_refl eq_refl).
  reflexivity.
Qed.

Lemma ci_match_upper_key (name key : string) :
  ascii_only key = true -> plain_key (utf8_decode key) = true ->
  ci_match name key = true -> upper name = key.
Proof.
  intros Hascii Hplain Hci.
  destruct (ci_match_reads name key Hascii Hplain Hci) as [_ Hm].
  rewrite <- (upper_plain_key name key Hascii Hplain) in Hm.
  symmetry. now apply String.eqb_eq.
Qed.

Lemma no_ci_match_reads (name key : string) :
  ascii_only name = true ->
  ascii_only key = true -> plain_key (utf8_decode key) = true ->
  ci_match name key = false -> provider_match name key = false.
Proof.
  intros Hname Hascii Hplain Hci.
  destruct (provider_match name key) eqn:Em; [|reflexivity].
  rewrite (reads_ci_match name key Hname Hascii Hplain Em) in Hci.
  discriminate.
Qed.


(** ** Git seeding *)

(** C4: when a Git URL is given and the clone exits with a non-zero code,
    the orchestrator returns after the remediation hints; the run contains
    no HTTP call at all. *)
Theorem C4_git_failure_aborts (H : Host) (source_cloud target_cloud : string)
    (source_config target_config : WorkspaceConfig)
    (git_url dir : string) (cluster_id : option string)
    (returncode : Z) (h : History) :
  get_workspace_config H source_cloud = Some source_config ->
  get_workspace_config H target_cloud = Some target_config ->
  git_url <> "" ->
  NOTEBOOK_DIR H = Some dir ->
  git H (h ++ [EvPrint LogStart]) git_url dir = GitExit returncode ->
  returncode <> 0%Z ->
  let run := sync_notebooks_and_permissions H source_cloud target_cloud
               (Some git_url) cluster_id in
  run h = (Ok tt,
           h ++ [ EvPrint LogStart;
                  EvGitClone git_url dir;
                  EvPrint (LogGitError (CalledProcessError returncode));
                  EvPrint LogGitHintAccess;
                  EvPrint LogGitHintSsh;
                  EvPrint LogGitHintHttps ]) /\
  existsb is_http (events_of run h) = false.
Proof.
  intros Hsrc Htgt Hurl Hdir Hgit Hcode run.
  assert (Hrun : run h = (Ok tt,
           h ++ [ EvPrint LogStart;
                  EvGitClone git_url dir;
                  EvPrint (LogGitError (CalledProcessError returncode));
                  EvPrint LogGitHintAccess;
                  EvPrint LogGitHintSsh;
                  EvPrint LogGitHintHttps ])).
  { unfold run, sync_notebooks_and_permissions.
    unfold bind at 1. unfold print at 1, emit at 1.
    rewrite Hsrc, Htgt.
    assert (Ht : truthy_env (Some git_url) = true).
    { unfold truthy_env. simpl. now destruct (String.eqb_spec git_url ""). }
    rewrite Ht. unfold bind at 1.
    unfold pull_notebooks_from_git, try_except, subprocess_run_git_clone.
    rewrite Hdir. unfold bind at 1. rewrite Hgit.
    destruct returncode as [|p|p]; [congruence| |];
      simpl; unfold bind, print, emit, ret; simpl;
      rewrite <- !app_assoc; reflexivity. }
  split; [exact Hrun|].
  rewrite (events_of_app run h _ (f_equal snd Hrun)). reflexivity.
Qed.

(** ** The loop over the listed objects *)

Section Loop.

Variable H : Host.
Variables source_config target_config : WorkspaceConfig.
Variable source_permissions : option pydict.
Variable cluster_id : option string.

Let body : json -> M unit :=
  sync_notebook H source_config target_config source_permissions cluster_id.

Lemma sync_notebook_skip (nb object_type : json) (h : History) :
  py_getitem nb "object_type" = Ok object_type ->
  py_eq_str object_type "NOTEBOOK" = false ->
  body nb h = (Ok tt, h).
Proof.
  intros Htype Hne. unfold body, sync_notebook, bind at 1, lift at 1.
  now rewrite Htype, Hne.
Qed.

Lemma sync_notebook_no_type (nb : json) (e : exn) (h : History) :
  py_getitem nb "object_type" = Raise e ->
  body nb h = (Raise e, h).
Proof.
  intros Htype. unfold body, sync_notebook, bind at 1, lift at 1.
  now rewrite Htype.
Qed.

Lemma sync_notebook_export_failed (nb path : json) (h h' : History) :
  is_notebook nb = true ->
  py_getitem nb "path" = Ok path ->
  export_notebook H (url source_config) (token source_config) path h
    = (Ok None, h') ->
  body nb h = (Ok tt, h').
Proof.
  unfold is_notebook. intros Hnb Hpath Hexp.
  destruct (py_getitem nb "object_type") as [object_type|] eqn:Htype;
    [|discriminate].
  unfold body, sync_notebook, bind at 1, lift at 1. rewrite Htype, Hnb.
  unfold bind at 1, lift at 1. rewrite Hpath.
  unfold bind at 1. rewrite Hexp. reflexivity.
Qed.

Lemma for_each_cons_ok (nb : json) (rest : list json) (h h' : History) :
  body nb h = (Ok tt, h') ->
  for_each (nb :: rest) body h = for_each rest body h'.
Proof. intros Hb. simpl. unfold bind at 1. now rewrite Hb. Qed.

Lemma emits_sync_notebook (nb : json) :
  emits (turn_event H source_config target_config cluster_id [nb]) (body nb).
Proof.
  unfold body, sync_notebook.
  destruct (py_getitem nb "object_type") as [object_type|e] eqn:Htype;
    [|apply emits_bind_lift_raise].
  apply emits_bind_lift_ok.
  destruct (py_eq_str object_type "NOTEBOOK") eqn:Hnb; [|apply emits_ret].
  assert (Hnote : is_notebook nb = true) by (unfold is_notebook; now rewrite Htype).
  destruct (py_getitem nb "path") as [path|e] eqn:Hpath;
    [|apply emits_bind_lift_raise].
  assert (Hnb1 : In nb [nb]) by now left.
  apply emits_bind_lift_ok. apply emits_bind.
  - apply emits_export_notebook; [intros l; exact I|].
    exists nb. split; [assumption|]. now constructor.
  - intros [text|]; [|apply emits_ret].
    apply emits_bind_lift_ok. apply emits_bind.
    + apply emits_import_notebook; [intros l; exact I|].
      exists nb. split; [assumption|]. now constructor.
    + intros _. destruct (truthy_dict source_permissions); [|apply emits_ret].
      apply emits_for_each. intros entry _.
      apply emits_bind_lift_ok. apply emits_bind; [|intros _; apply emits_ret].
      apply emits_grant_permissions.
      * intros l; exact I.
      * exists nb. split; [assumption|]. now constructor.
      * intros w resource Hw Hres.
        exists nb. split; [assumption|]. now apply (turn_grant H source_config target_config cluster_id nb path).
Qed.

Lemma emits_sync_loop (l : list json) :
  emits (turn_event H source_config target_config cluster_id l)
    (for_each l body).
Proof.
  apply emits_for_each. intros nb Hin.
  eapply emits_weaken; [|apply emits_sync_notebook].
  intros [line|r|u d]; simpl; auto.
  intros [nb' [[<-|[]] Hr]]. exists nb. auto.
Qed.

Lemma existsb_false_Forall {A} (f : A -> bool) (l : list A) :
  Forall (fun x => f x = false) l -> existsb f l = false.
Proof.
  induction 1 as [|x l Hx _ IH]; simpl; [reflexivity|]. now rewrite Hx, IH.
Qed.

(** C1: when the export of a listed notebook returns no content, the turn
    of the loop for that notebook issues no import call, ends normally, and
    the loop goes on with the next object from the history the export
    left. *)
Theorem C1_export_failure_isolated (nb path : json) (rest : list json)
    (h h' : History) :
  is_notebook nb = true ->
  py_getitem nb "path" = Ok path ->
  export_notebook H (url source_config) (token source_config) path h
    = (Ok None, h') ->
  existsb is_import_call
    (events_of (sync_notebook H source_config target_config
                  source_permissions cluster_id nb) h) = false /\
  for_each (nb :: rest)
    (sync_notebook H source_config target_config source_permissions
       cluster_id) h
  = for_each rest
      (sync_notebook H source_config target_config source_permissions
         cluster_id) h'.
Proof.
  intros Hnb Hpath Hexp.
  pose proof (sync_notebook_export_failed nb path h h' Hnb Hpath Hexp) as Hrun.
  split; [|now apply for_each_cons_ok].
  assert (Hev : events_of (body nb) h = events_of
            (export_notebook H (url source_config) (token source_config) path) h).
  { unfold events_of. now rewrite Hrun, Hexp. }
  fold body. rewrite Hev. apply existsb_false_Forall.
  apply emits_events_of. apply emits_export_notebook; reflexivity.
Qed.

(** C9: an object whose type is not NOTEBOOK is passed over without any
    event; an object that is not a notebook (no type at all included)
    leaves no event either; and every request the loop issues belongs to a
    listed notebook and is its export, its import or a grant on it, never
    a listing. *)
Theorem C9_only_notebooks :
  (forall nb object_type rest h,
     py_getitem nb "object_type" = Ok object_type ->
     py_eq_str object_type "NOTEBOOK" = false ->
     events_of (sync_notebook H source_config target_config
                  source_permissions cluster_id nb) h = [] /\
     for_each (nb :: rest)
       (sync_notebook H source_config target_config source_permissions
          cluster_id) h
     = for_each rest
         (sync_notebook H source_config target_config source_permissions
            cluster_id) h) /\
  (forall nb h,
     is_notebook nb = false ->
     events_of (sync_notebook H source_config target_config
                  source_permissions cluster_id nb) h = []) /\
  (forall l h r,
     In (EvHttp r)
        (events_of
           (for_each l
              (sync_notebook H source_config target_config
                 source_permissions cluster_id)) h) ->
     ep_resource (req_endpoint r) <> WorkspaceList /\
     exists nb path,
       In nb l /\ is_notebook nb = true /\
       py_getitem nb "path" = Ok path /\
       (ep_resource (req_endpoint r) = WorkspaceExport ->
        r = export_request (url source_config) (token source_config) path) /\
       (ep_resource (req_endpoint r) = WorkspaceImport ->
        exists text,
          r = import_request H (url target_config) (token target_config)
                text path "PYTHON")).
Proof.
  fold body. split; [|split].
  - intros nb object_type rest h Htype Hne.
    pose proof (sync_notebook_skip nb object_type h Htype Hne) as Hrun.
    split; [|now apply for_each_cons_ok].
    unfold events_of. rewrite Hrun. simpl. now rewrite skipn_all.
  - intros nb h Hnb. unfold is_notebook in Hnb. unfold events_of.
    destruct (py_getitem nb "object_type") as [object_type|e] eqn:Htype.
    + rewrite (sync_notebook_skip nb object_type h); auto.
      simpl. now rewrite skipn_all.
    + rewrite (sync_notebook_no_type nb e h); auto.
      simpl. now rewrite skipn_all.
  - intros l h r Hin.
    pose proof (emits_events_of _ _ h (emits_sync_loop l)) as Hall.
    rewrite Forall_forall in Hall. destruct (Hall _ Hin) as [nb [Hnb Hr]].
    destruct Hr as [path Hn Hp|path text Hn Hp|path Hn Hp
                   |path w resource email level Hn Hp Hw Hres].
    + split; [discriminate|]. exists nb, path. repeat split; auto.
      discriminate.
    + split; [discriminate|]. exists nb, path. repeat split; auto.
      * discriminate.
      * intros _. now exists text.
    + split; [discriminate|]. exists nb, path.
      repeat split; auto; discriminate.
    + split; [destruct resource; discriminate|]. exists nb, path.
      repeat split; auto; destruct resource; discriminate.
Qed.

End Loop.

(** ** The API client, call by call *)

Section Calls.

Variable H : Host.

Lemma fetch_json_ok (h : History) (r : Request) (data : json) :
  fetch_json H h r = Ok data ->
  headers_encodable (req_headers r) = true /\ call_crashes H h r = false.
Proof.
  unfold fetch_json, call_crashes.
  destruct (ep_workspace (req_endpoint r)); [|discriminate].
  destruct (http H h r) as [|status content]; [discriminate|].
  destruct (headers_encodable (req_headers r)); [auto|discriminate].
Qed.

Lemma fetch_json_raise (h : History) (r : Request) (e : exn) :
  fetch_json H h r = Raise e ->
  (is_RequestException e = true /\ call_crashes H h r = false) \/
  (e = UnicodeEncodeError /\ call_crashes H h r = true).
Proof.
  unfold fetch_json, call_crashes.
  destruct (ep_workspace (req_endpoint r));
    [|intros [= <-]; left; split; reflexivity].
  destruct (http H h r) as [|status content];
    [intros [= <-]; left; split; reflexivity|].
  destruct (headers_encodable (req_headers r)); simpl;
    [|intros [= <-]; right; split; reflexivity].
  destruct (is_error_status status);
    [intros [= <-]; left; split; reflexivity|].
  destruct content; [discriminate|].
  intros [= <-]; left; split; reflexivity.
Qed.

Lemma fetch_json_caught (h : History) (r : Request) (e : exn) :
  fetch_json H h r = Raise e ->
  headers_encodable (req_headers r) = true -> is_RequestException e = true.
Proof.
  intros Hf Henc. destruct (fetch_json_raise h r e Hf) as [[He _]|[_ Hc]];
    [assumption|].
  unfold call_crashes in Hc. rewrite Henc in Hc.
  destruct (ep_workspace (req_endpoint r)); [|discriminate].
  destruct (http H h r); discriminate.
Qed.

Lemma call_fails_fetch (h : History) (r : Request) :
  call_fails H h r = true ->
  exists e, fetch_json H h r = Raise e /\ is_RequestException e = true.
Proof.
  unfold call_fails, fetch_json.
  destruct (ep_workspace (req_endpoint r)); [|eauto].
  destruct (http H h r) as [|status content]; [eauto|].
  destruct (headers_encodable (req_headers r)); simpl; [|discriminate].
  intros ->. eauto.
Qed.

(** The first three steps of a reading operation, run from [h]. *)
Lemma fetch_steps {A} (r : Request) (k : json -> M A) (h : History) :
  (let* response := requests_call H r in
   lift (raise_for_status response) ;;
   let* data := lift (response_json response) in
   k data) h
  = match fetch_json H h r with
    | Ok data => k data (h ++ [EvHttp r])
    | Raise e => (Raise e, h ++ [EvHttp r])
    end.
Proof.
  unfold fetch_json, bind at 1, requests_call.
  destruct (ep_workspace (req_endpoint r)); [|reflexivity].
  destruct (http H h r) as [|status content]; [reflexivity|].
  destruct (headers_encodable (req_headers r)); [|reflexivity].
  cbn [negb]. cbv iota.
  unfold bind at 1, lift at 1, raise_for_status, is_error_status.
  simpl status_code.
  destruct ((400 <=? status)%Z && (status <? 600)%Z); [reflexivity|].
  unfold bind at 1, lift at 1, response_json. simpl body.
  destruct content; reflexivity.
Qed.

Lemma call_error_fails (h : History) (r : Request) :
  call_fails H h r
  = match call_error H h r with
    | Some e => is_RequestException e
    | None => false
    end.
Proof.
  unfold call_fails, call_error.
  destruct (ep_workspace (req_endpoint r)); [|reflexivity].
  destruct (http H h r) as [|status content]; [reflexivity|].
  destruct (headers_encodable (req_headers r)); simpl; [|reflexivity].
  now destruct (is_error_status status).
Qed.

Lemma call_error_crashes (h : History) (r : Request) :
  call_crashes H h r = true <-> call_error H h r = Some UnicodeEncodeError.
Proof.
  unfold call_crashes, call_error.
  destruct (ep_workspace (req_endpoint r)); [|split; discriminate].
  destruct (http H h r) as [|status content]; [split; discriminate|].
  destruct (headers_encodable (req_headers r)); simpl.
  - destruct (is_error_status status); split; discriminate.
  - split; reflexivity.
Qed.

Lemma call_error_raise (h : History) (r : Request) (e : exn) :
  call_error H h r = Some e ->
  (is_RequestException e = true /\ call_crashes H h r = false) \/
  (e = UnicodeEncodeError /\ call_crashes H h r = true).
Proof.
  unfold call_error, call_crashes.
  destruct (ep_workspace (req_endpoint r));
    [|intros [= <-]; left; split; reflexivity].
  destruct (http H h r) as [|status content];
    [intros [= <-]; left; split; reflexivity|].
  destruct (headers_encodable (req_headers r)); simpl;
    [|intros [= <-]; right; split; reflexivity].
  destruct (is_error_status status); [|discriminate].
  intros [= <-]; left; split; reflexivity.
Qed.

Lemma call_error_caught (h : History) (r : Request) (e : exn) :
  call_error H h r = Some e ->
  headers_encodable (req_headers r) = true -> is_RequestException e = true.
Proof.
  intros He Henc. destruct (call_error_raise h r e He) as [[Hc _]|[_ Hc]];
    [assumption|].
  unfold call_crashes in Hc. rewrite Henc in Hc.
  destruct (ep_workspace (req_endpoint r)); [|discriminate].
  destruct (http H h r); discriminate.
Qed.

(** A call followed by the status check, run from [h]. *)
Lemma call_steps {A} (r : Request) (k : M A) (h : History) :
  (let* response := requests_call H r in
   lift (raise_for_status response) ;; k) h
  = match call_error H h r with
    | None => k (h ++ [EvHttp r])
    | Some e => (Raise e, h ++ [EvHttp r])
    end.
Proof.
  unfold call_error, bind at 1, requests_call.
  destruct (ep_workspace (req_endpoint r)); [|reflexivity].
  destruct (http H h r) as [|status content]; [reflexivity|].
  destruct (headers_encodable (req_headers r)); [|reflexivity].
  cbn [negb]. cbv iota.
  unfold bind at 1, lift at 1, raise_for_status, is_error_status.
  simpl status_code.
  destruct ((400 <=? status)%Z && (status <? 600)%Z); reflexivity.
Qed.

Lemma list_notebooks_run (u t : option string) (p : json) (h : History) :
  list_notebooks H u t p h
  = match fetch_json H h (list_request u t p) with
    | Ok data =>
        (py_get data "objects" (JList []), h ++ [EvHttp (list_request u t p)])
    | Raise e =>
        if is_RequestException e
        then (Ok (JList []),
              h ++ [EvHttp (list_request u t p); EvPrint (LogListError u e)])
        else (Raise e, h ++ [EvHttp (list_request u t p)])
    end.
Proof.
  unfold list_notebooks, try_except, requests_get. rewrite fetch_steps.
  fold (list_request u t p).
  destruct (fetch_json H h (list_request u t p)) as [data|e] eqn:Ef.
  - unfold lift. destruct (py_get data "objects" (JList [])) as [v|e] eqn:Eg;
      [reflexivity|].
    destruct data; simpl in Eg; try discriminate; injection Eg as <-; reflexivity.
  - destruct (is_RequestException e); [|reflexivity].
    unfold bind, print, emit, ret. simpl. now rewrite <- app_assoc.
Qed.

Lemma export_notebook_run (u t : option string) (p : json) (h : History) :
  export_notebook H u t p h
  = match fetch_json H h (export_request u t p) with
    | Ok data =>
        (rbind (rbind (py_getitem data "content") (b64decode_utf8 H))
               (fun text => Ok (Some text)),
         h ++ [EvHttp (export_request u t p)])
    | Raise e =>
        if is_RequestException e
        then (Ok None,
              h ++ [EvHttp (export_request u t p);
                    EvPrint (LogExportError p u e)])
        else (Raise e, h ++ [EvHttp (export_request u t p)])
    end.
Proof.
  unfold export_notebook, try_except, requests_get. rewrite fetch_steps.
  fold (export_request u t p).
  destruct (fetch_json H h (export_request u t p)) as [data|e] eqn:Ef.
  - unfold bind, lift, ret.
    destruct (py_getitem data "content") as [content|e] eqn:Ec; simpl.
    + destruct (b64decode_utf8 H content) as [text|e] eqn:Ed; simpl;
        [reflexivity|].
      unfold b64decode_utf8 in Ed.
      destruct content; try (injection Ed as <-; reflexivity).
      destruct (b64decode_text H s); [discriminate|].
      injection Ed as <-. reflexivity.
    + destruct data; simpl in Ec; try (injection Ec as <-; reflexivity).
      destruct (assoc "content" d); [discriminate|].
      injection Ec as <-. reflexivity.
  - destruct (is_RequestException e); [|reflexivity].
    unfold bind, print, emit, ret. simpl. now rewrite <- app_assoc.
Qed.

Lemma get_object_status_run (u t : option string) (p : json) (h : History) :
  get_object_status H u t p h
  = match fetch_json H h (status_request u t p) with
    | Ok data => (Ok data, h ++ [EvHttp (status_request u t p)])
    | Raise e =>
        if is_RequestException e
        then (Ok JNull,
              h ++ [EvHttp (status_request u t p);
                    EvPrint (LogStatusError p u e)])
        else (Raise e, h ++ [EvHttp (status_request u t p)])
    end.
Proof.
  unfold get_object_status, try_except, requests_get.
  fold (status_request u t p).
  pose proof (fetch_steps (status_request u t p) (fun data => ret data) h)
    as Hsteps.
  assert (Hbody :
    (let* response := requests_call H (status_request u t p) in
     lift (raise_for_status response) ;; lift (response_json response)) h
    = (let* response := requests_call H (status_request u t p) in
       lift (raise_for_status response) ;;
       let* data := lift (response_json response) in ret data) h).
  { unfold bind, lift, ret.
    destruct (requests_call H (status_request u t p) h) as [[response|e] h'];
      [|reflexivity].
    destruct (raise_for_status response); [|reflexivity].
    destruct (response_json response); reflexivity. }
  rewrite Hbody, Hsteps.
  destruct (fetch_json H h (status_request u t p)) as [data|e];
    [reflexivity|].
  destruct (is_RequestException e); [|reflexivity].
  unfold bind, print, emit, ret. simpl. now rewrite <- app_assoc.
Qed.

Lemma import_notebook_run (u t : option string) (c : string) (p : json)
    (l : string) (h : History) :
  import_notebook H u t c p l h
  = match call_error H h (import_request H u t c p l) with
    | None =>
        (Ok tt,
         h ++ [EvHttp (import_request H u t c p l);
               EvPrint (LogImportOk p u)])
    | Some e =>
        if is_RequestException e
        then (Ok tt,
              h ++ [EvHttp (import_request H u t c p l);
                    EvPrint (LogImportError p u e)])
        else (Raise e, h ++ [EvHttp (import_request H u t c p l)])
    end.
Proof.
  unfold import_notebook, try_except, requests_post.
  fold (import_request H u t c p l). rewrite call_steps.
  destruct (call_error H h (import_request H u t c p l)) as [e|].
  - destruct (is_RequestException e); [|reflexivity].
    unfold print, emit. simpl. now rewrite <- app_assoc.
  - unfold print, emit. simpl. now rewrite <- app_assoc.
Qed.

(** A status lookup that gives something has a token that can be written
    out. *)
Lemma status_encodable (u t : option string) (p st : json)
    (h h1 : History) :
  get_object_status H u t p h = (Ok st, h1) -> truthy st = true ->
  token_encodable t = true.
Proof.
  rewrite get_object_status_run. intros Hst Ht.
  destruct (fetch_json H h (status_request u t p)) as [data|e] eqn:Ef.
  - exact (proj1 (fetch_json_ok _ _ _ Ef)).
  - destruct (is_RequestException e); [|discriminate].
    injection Hst as <- _. discriminate.
Qed.

Lemma get_object_status_unset (t : option string) (p : json) (h : History) :
  fst (get_object_status H None t p h) = Ok JNull.
Proof. rewrite get_object_status_run. reflexivity. Qed.




(** X4: the four reading operations only read: every request that
    [list_notebooks], [export_notebook], [get_object_status] and
    [get_permissions] issue is a GET without a body, addressed to the
    workspace they were given and carrying the headers of their token. *)
Theorem X4_reading_operations_only_get (u t : option string) (p : json)
    (h : History) :
  Forall (reads_from u t) (events_of (list_notebooks H u t p) h) /\
  Forall (reads_from u t) (events_of (export_notebook H u t p) h) /\
  Forall (reads_from u t) (events_of (get_object_status H u t p) h) /\
  Forall (reads_from u t) (events_of (get_permissions H u t p) h).
Proof.
  assert (Hprint : forall l, reads_from u t (EvPrint l)) by (intros l; exact I).
  repeat apply conj; apply emits_events_of.
  - apply emits_list_notebooks; [assumption|]. now repeat split.
  - apply emits_export_notebook; [assumption|]. now repeat split.
  - apply emits_get_object_status; [assumption|]. now repeat split.
  - apply emits_get_permissions; [assumption| |]; now repeat split.
Qed.

End Calls.

(** ** Permissions after the status lookup *)

Lemma permissions_resource_dict (st : json) (resource : Resource) :
  permissions_resource st = Some resource ->
  exists d object_id object_type,
    st = JDict d /\
    py_get st "object_id" JNull = Ok object_id /\
    py_get st "object_type" JNull = Ok object_type /\
    ((py_eq_str object_type "NOTEBOOK" = true /\
      resource = PermissionsNotebooks object_id) \/
     (py_eq_str object_type "NOTEBOOK" = false /\
      py_eq_str object_type "DIRECTORY" = true /\
      resource = PermissionsDirectories object_id)).
Proof.
  destruct st as [| | | | | |d]; try discriminate. simpl.
  intros Hres. eexists d, _, _. repeat split.
  destruct (py_eq_str _ "NOTEBOOK").
  - left. split; congruence.
  - destruct (py_eq_str _ "DIRECTORY"); [|discriminate].
    right. repeat split; congruence.
Qed.

Section AfterStatus.

Variable H : Host.

Lemma requests_of_app (a b : list Event) :
  requests_of (a ++ b) = requests_of a ++ requests_of b.
Proof. apply flat_map_app. Qed.

Lemma status_truthy_set (u t : option string) (p st : json)
    (h h1 : History) :
  get_object_status H u t p h = (Ok st, h1) -> truthy st = true ->
  exists w, u = Some w.
Proof.
  intros Hst Ht. destruct u as [w|]; [eauto|].
  pose proof (get_object_status_unset H t p h) as Hn. rewrite Hst in Hn.
  simpl in Hn. injection Hn as ->. discriminate.
Qed.

Lemma grant_permissions_sent (u t : option string) (w : string)
    (p email level st : json) (cid : option string) (resource : Resource)
    (h h1 : History) :
  get_object_status H u t p h = (Ok st, h1) ->
  truthy st = true ->
  permissions_resource st = Some resource ->
  u = Some w ->
  let req := grant_request w t resource email level cid in
  grant_permissions H u t p email level cid h
  = match call_error H h1 req with
    | None =>
        (Ok true,
         h1 ++ EvHttp req :: EvPrint (LogGranted level email p)
            :: (if truthy_env cid then [EvPrint (LogGrantedAttach email cid)]
                else []))
    | Some e => (Ok false, h1 ++ [EvHttp req; EvPrint (LogGrantError p e)])
    end.
Proof.
  intros Hst Htruthy Hres -> req.
  pose proof (status_encodable H _ _ _ _ _ _ Hst Htruthy) as Henc.
  destruct (permissions_resource_dict st resource Hres)
    as [d [oid [otype [-> [Hid [Htype Hroute]]]]]].
  unfold grant_permissions, bind at 1. rewrite Hst, Htruthy. cbn [negb].
  unfold bind at 1, lift at 1. rewrite Hid.
  unfold bind at 1, lift at 1. rewrite Htype.
  assert (Hsend :
    (let* method := lift (grant_method (Some w)) in
     try_except
       (let* response :=
          match method with
          | PATCH =>
              requests_patch H (mkEndpoint (Some w) resource) (get_headers t)
                (grant_data email level cid)
          | _ =>
              requests_put H (mkEndpoint (Some w) resource) (get_headers t)
                (grant_data email level cid)
          end in
        lift (raise_for_status response) ;;
        print (LogGranted level email p) ;;
        (if truthy_env cid then print (LogGrantedAttach email cid)
         else ret tt) ;;
        ret true)
       is_RequestException
       (fun e => print (LogGrantError p e) ;; ret false)) h1
    = match call_error H h1 req with
      | None =>
          (Ok true,
           h1 ++ EvHttp req :: EvPrint (LogGranted level email p)
              :: (if truthy_env cid
                  then [EvPrint (LogGrantedAttach email cid)] else []))
      | Some e => (Ok false, h1 ++ [EvHttp req; EvPrint (LogGrantError p e)])
      end).
  { unfold req, grant_request, grant_method, py_in. cbn [rbind].
    unfold bind at 1, lift at 1, try_except, requests_patch, requests_put.
    destruct (str_contains "databricks.com" w); cbv beta iota;
      rewrite call_steps;
      match goal with
      | |- context [call_error H h1 ?r] =>
          destruct (call_error H h1 r) as [e|] eqn:Ee
      end;
      try (rewrite (call_error_caught H _ _ _ Ee Henc);
           unfold bind, print, emit, ret; simpl;
           now rewrite <- app_assoc);
      destruct (truthy_env cid); unfold bind, print, emit, ret; simpl;
      rewrite <- ?app_assoc; reflexivity. }
  destruct Hroute as [[Hn ->]|[Hn [Hd ->]]]; rewrite Hn; [|rewrite Hd];
    exact Hsend.
Qed.

Lemma grant_permissions_not_sent (u t : option string)
    (p email level st : json) (cid : option string) (h h1 : History) :
  get_object_status H u t p h = (Ok st, h1) ->
  permissions_resource st = None ->
  grant_permissions H u t p email level cid h
  = if negb (truthy st)
    then (Ok false, h1 ++ [EvPrint (LogSkipNoStatus p)])
    else match st with
         | JDict d =>
             (Ok false,
              h1 ++ [EvPrint (LogSkipUnsupported p
                                match assoc "object_type" d with
                                | Some v => v
                                | None => JNull
                                end)])
         | _ => (Raise AttributeError, h1)
         end.
Proof.
  intros Hst Hres.
  unfold grant_permissions, bind at 1. rewrite Hst.
  destruct (truthy st) eqn:Htruthy; cbn [negb].
  - destruct st as [| | | | | |d]; try reflexivity.
    unfold bind at 1, lift at 1. simpl py_get.
    unfold bind at 1, lift at 1. simpl py_get.
    simpl in Hres.
    destruct (py_eq_str _ "NOTEBOOK"); [discriminate|].
    destruct (py_eq_str _ "DIRECTORY"); [discriminate|].
    reflexivity.
  - reflexivity.
Qed.

Lemma get_permissions_not_fetched (u t : option string) (p st : json)
    (h h1 : History) :
  get_object_status H u t p h = (Ok st, h1) ->
  permissions_resource st = None ->
  get_permissions H u t p h
  = if negb (truthy st)
    then (Ok None, h1)
    else match st with
         | JDict d =>
             (Ok None,
              h1 ++ [EvPrint (LogUnsupportedType
                                match assoc "object_type" d with
                                | Some v => v
                                | None => JNull
                                end)])
         | _ => (Raise AttributeError, h1)
         end.
Proof.
  intros Hst Hres.
  unfold get_permissions, bind at 1. rewrite Hst.
  destruct (truthy st) eqn:Htruthy; cbn [negb].
  - destruct st as [| | | | | |d]; try reflexivity.
    unfold bind at 1, lift at 1. simpl py_get.
    unfold bind at 1, lift at 1. simpl py_get.
    simpl in Hres.
    destruct (py_eq_str _ "NOTEBOOK"); [discriminate|].
    destruct (py_eq_str _ "DIRECTORY"); [discriminate|].
    reflexivity.
  - reflexivity.
Qed.

Lemma permissions_resource_truthy (st : json) (resource : Resource) :
  permissions_resource st = Some resource -> truthy st = true.
Proof.
  destruct st as [| | | | | |[|kv d]]; try discriminate; reflexivity.
Qed.

Lemma get_permissions_fetched (u t : option string) (p st : json)
    (resource : Resource) (h h1 : History) :
  get_object_status H u t p h = (Ok st, h1) ->
  permissions_resource st = Some resource ->
  let req := permissions_request u t resource in
  get_permissions H u t p h
  = match fetch_json H h1 req with
    | Ok data =>
        (rbind (rbind (py_get data "access_control_list" (JList [])) map_acl)
               (fun user_permissions => Ok (Some user_permissions)),
         h1 ++ [EvHttp req])
    | Raise e =>
        (Ok None, h1 ++ [EvHttp req; EvPrint (LogPermissionsError p e)])
    end.
Proof.
  intros Hst Hres req.
  pose proof (permissions_resource_truthy st resource Hres) as Htruthy.
  pose proof (status_encodable H _ _ _ _ _ _ Hst Htruthy) as Henc.
  destruct (permissions_resource_dict st resource Hres)
    as [d [oid [otype [-> [Hid [Htype Hroute]]]]]].
  unfold get_permissions, bind at 1. rewrite Hst, Htruthy. cbn [negb].
  unfold bind at 1, lift at 1. rewrite Hid.
  unfold bind at 1, lift at 1. rewrite Htype.
  assert (Hfetch :
    try_except
      (let* response :=
         requests_get H (mkEndpoint u resource) (get_headers t) [] in
       lift (raise_for_status response) ;;
       let* permissions := lift (response_json response) in
       let* acl :=
         lift (py_get permissions "access_control_list" (JList [])) in
       let* user_permissions := lift (map_acl acl) in
       ret (Some user_permissions))
      is_RequestException
      (fun e => print (LogPermissionsError p e) ;; ret None) h1
    = match fetch_json H h1 req with
      | Ok data =>
          (rbind (rbind (py_get data "access_control_list" (JList []))
                    map_acl)
                 (fun user_permissions => Ok (Some user_permissions)),
           h1 ++ [EvHttp req])
      | Raise e =>
          (Ok None, h1 ++ [EvHttp req; EvPrint (LogPermissionsError p e)])
      end).
  { unfold try_except, requests_get. rewrite fetch_steps.
    fold (permissions_request u t resource). fold req.
    destruct (fetch_json H h1 req) as [data|e] eqn:Ef.
    - unfold bind, lift, ret.
      destruct (py_get data "access_control_list" (JList [])) as [acl|e]
        eqn:Eg; simpl.
      + destruct (map_acl acl) as [m|e] eqn:Em; simpl; [reflexivity|].
        assert (He : is_RequestException e = false).
        { unfold map_acl in Em. destruct (py_iter acl) as [items|e'] eqn:Ei.
          - simpl in Em. clear Ei. generalize dependent (@nil (json * json)).
            induction items as [|item items IH]; intros m0 Em;
              simpl in Em; [discriminate|].
            destruct (acl_step m0 item) as [m1|e1] eqn:Es; simpl in Em.
            + now apply (IH m1).
            + injection Em as <-.
              destruct (acl_entry_ok item) eqn:Eok.
              * rewrite (acl_step_ok m0 item Eok) in Es. discriminate.
              * destruct (acl_step_malformed m0 item Eok) as [e2 [He2 Hc]].
                congruence.
          - simpl in Em. injection Em as <-.
            destruct acl; simpl in Ei; try discriminate;
              injection Ei as <-; reflexivity. }
        now rewrite He.
      + destruct data; simpl in Eg; try discriminate;
          injection Eg as <-; reflexivity.
    - rewrite (fetch_json_caught H _ _ _ Ef Henc).
      unfold bind, print, emit, ret. simpl. now rewrite <- app_assoc. }
  destruct Hroute as [[Hn ->]|[Hn [Hd ->]]]; rewrite Hn; [|rewrite Hd];
    exact Hfetch.
Qed.

(** X5: when the status lookup gives nothing (an error, or a falsy body)
    or an object whose type is neither NOTEBOOK nor DIRECTORY, no
    permissions endpoint is contacted: [get_permissions] returns [None],
    [grant_permissions] returns [False], and the status lookup is the only
    request of either. *)
Theorem X5_no_endpoint_without_supported_type (u t : option string)
    (p email level st : json) (cid : option string) (h h1 : History) :
  get_object_status H u t p h = (Ok st, h1) ->
  permissions_resource st = None ->
  is_dict st = true \/ truthy st = false ->
  (fst (get_permissions H u t p h) = Ok None /\
   requests_of (events_of (get_permissions H u t p) h)
   = [status_request u t p]) /\
  (fst (grant_permissions H u t p email level cid h) = Ok false /\
   requests_of (events_of (grant_permissions H u t p email level cid) h)
   = [status_request u t p]).
Proof.
  intros Hst Hres Hshape.
  assert (Hh1 : exists evs,
             h1 = h ++ EvHttp (status_request u t p) :: evs /\
             requests_of evs = []).
  { rewrite get_object_status_run in Hst.
    destruct (fetch_json H h (status_request u t p)) as [data|e];
      [|destruct (is_RequestException e); [|discriminate]];
      injection Hst as _ <-; eexists; split; reflexivity. }
  destruct Hh1 as [evs [-> Hevs]].
  pose proof (get_permissions_not_fetched u t p st h _ Hst Hres) as Hget.
  pose proof (grant_permissions_not_sent u t p email level st cid h _
                Hst Hres) as Hgrant.
  assert (Hreq : forall A (m : M A) r tail,
             m h = (r, (h ++ EvHttp (status_request u t p) :: evs) ++ tail) ->
             requests_of tail = [] ->
             requests_of (events_of m h) = [status_request u t p]).
  { intros A m r tail Hm Htail.
    rewrite (events_of_app m h (EvHttp (status_request u t p) :: evs ++ tail)).
    - change (EvHttp (status_request u t p) :: evs ++ tail)
        with ([EvHttp (status_request u t p)] ++ evs ++ tail).
      rewrite !requests_of_app, Hevs, Htail. reflexivity.
    - rewrite Hm. simpl. now rewrite <- app_assoc. }
  destruct (truthy st) eqn:Htruthy; cbn [negb] in Hget, Hgrant.
  - destruct Hshape as [Hd|]; [|discriminate].
    destruct st as [| | | | | |d]; try discriminate.
    rewrite Hget, Hgrant. repeat split.
    + eapply Hreq; [exact Hget|reflexivity].
    + eapply Hreq; [exact Hgrant|reflexivity].
  - rewrite Hget, Hgrant. repeat split.
    + apply (Hreq _ _ (Ok None) []); [now rewrite app_nil_r|reflexivity].
    + eapply Hreq; [exact Hgrant|reflexivity].
Qed.

(** X6: a status body that is truthy without being an object (a number, a
    string, a non-empty array) makes both [get_permissions] and
    [grant_permissions] raise an [AttributeError], before any permissions
    endpoint is contacted. *)
Theorem X6_status_not_an_object_raises (u t : option string)
    (p email level st : json) (cid : option string) (h h1 : History) :
  get_object_status H u t p h = (Ok st, h1) ->
  truthy st = true ->
  is_dict st = false ->
  get_permissions H u t p h = (Raise AttributeError, h1) /\
  grant_permissions H u t p email level cid h = (Raise AttributeError, h1).
Proof.
  intros Hst Htruthy Hdict.
  assert (Hres : permissions_resource st = None)
    by (destruct st; try reflexivity; discriminate).
  rewrite (get_permissions_not_fetched u t p st h h1 Hst Hres).
  rewrite (grant_permissions_not_sent u t p email level st cid h h1 Hst Hres).
  rewrite Htruthy. destruct st; try discriminate; split; reflexivity.
Qed.

(** X7: [grant_permissions] returns [True] exactly when the status lookup
    gave a NOTEBOOK or a DIRECTORY and the grant request that followed was
    answered without an error status. *)
Theorem X7_grant_true_iff_granted (u t : option string)
    (p email level : json) (cid : option string) (h : History) :
  fst (grant_permissions H u t p email level cid h) = Ok true <->
  exists st h1 resource w,
    get_object_status H u t p h = (Ok st, h1) /\
    permissions_resource st = Some resource /\
    u = Some w /\
    call_fails H h1 (grant_request w t resource email level cid) = false.
Proof.
  destruct (get_object_status H u t p h) as [[st|e] h1] eqn:Hst.
  2:{ split.
      - unfold grant_permissions, bind at 1. rewrite Hst. discriminate.
      - intros [st' [h1' [res' [w' [[=] _]]]]]. }
  destruct (permissions_resource st) as [resource|] eqn:Hres.
  - pose proof (permissions_resource_truthy st resource Hres) as Htruthy.
    pose proof (status_encodable H _ _ _ _ _ _ Hst Htruthy) as Henc.
    destruct (status_truthy_set u t p st h h1 Hst Htruthy) as [w Hw].
    rewrite (grant_permissions_sent u t w p email level st cid resource h h1
               Hst Htruthy Hres Hw).
    cbv zeta.
    destruct (call_error H h1 (grant_request w t resource email level cid))
      as [e|] eqn:Ee; simpl.
    + split; [discriminate|].
      intros [st' [h1' [res' [w' [[= <- <-] [Hres' [Hw' Hf]]]]]]].
      assert (res' = resource) by congruence.
      assert (w' = w) by congruence. subst.
      rewrite (call_error_fails H), Ee in Hf.
      rewrite (call_error_caught H _ _ _ Ee Henc) in Hf. discriminate.
    + split; [|reflexivity]. intros _.
      exists st, h1, resource, w. repeat split; auto.
      now rewrite (call_error_fails H), Ee.
  - rewrite (grant_permissions_not_sent u t p email level st cid h h1
               Hst Hres).
    split.
    + destruct (negb (truthy st)); [discriminate|].
      destruct st; discriminate.
    + intros [st' [h1' [res' [w' [[= <- <-] [Hres' _]]]]]]. congruence.
Qed.

Lemma get_object_status_events (u t : option string) (p : json)
    (h : History) :
  exists r evs,
    get_object_status H u t p h
    = (r, h ++ EvHttp (status_request u t p) :: evs) /\
    requests_of evs = [].
Proof.
  rewrite get_object_status_run.
  destruct (fetch_json H h (status_request u t p)) as [data|e];
    [|destruct (is_RequestException e)]; eexists; eexists;
    split; reflexivity.
Qed.

Lemma grant_permissions_requests (u t : option string)
    (p email level : json) (cid : option string) (h : History) :
  exists grants evs,
    snd (grant_permissions H u t p email level cid h) = h ++ evs /\
    requests_of evs = status_request u t p :: grants /\
    (grants = [] \/
     exists resource w,
       is_permissions_resource resource = true /\ u = Some w /\
       grants = [grant_request w t resource email level cid]).
Proof.
  destruct (get_object_status_events u t p h) as [r [evs [Hst Hevs]]].
  set (h1 := h ++ EvHttp (status_request u t p) :: evs) in *.
  assert (Hreq : forall r' tail,
             grant_permissions H u t p email level cid h = (r', h1 ++ tail) ->
             exists evs',
               snd (grant_permissions H u t p email level cid h) = h ++ evs' /\
               requests_of evs' = status_request u t p :: requests_of tail).
  { intros r' tail Hm.
    exists (EvHttp (status_request u t p) :: evs ++ tail). split.
    - rewrite Hm. unfold h1. simpl. now rewrite <- app_assoc.
    - change (EvHttp (status_request u t p) :: evs ++ tail)
        with ([EvHttp (status_request u t p)] ++ evs ++ tail).
      rewrite !requests_of_app, Hevs. reflexivity. }
  destruct r as [st|e].
  2:{ assert (Hm : grant_permissions H u t p email level cid h
                   = (Raise e, h1 ++ [])).
      { unfold grant_permissions, bind at 1. rewrite Hst.
        now rewrite app_nil_r. }
      destruct (Hreq _ _ Hm) as [evs' [Hs Hr]]. exists [], evs'. auto. }
  destruct (permissions_resource st) as [resource|] eqn:Hres.
  - pose proof (permissions_resource_truthy st resource Hres) as Htruthy.
    destruct (status_truthy_set u t p st h h1 Hst Htruthy) as [w ->].
    pose proof (grant_permissions_sent (Some w) t w p email level st cid
                  resource h h1 Hst Htruthy Hres eq_refl) as Hrun.
    cbv zeta in Hrun.
    assert (Hp : is_permissions_resource resource = true).
    { destruct (permissions_resource_dict st resource Hres)
        as [d [oid [otype [_ [_ [_ [[_ ->]|[_ [_ ->]]]]]]]]]; reflexivity. }
    exists [grant_request w t resource email level cid].
    destruct (call_error H h1 (grant_request w t resource email level cid));
      destruct (Hreq _ _ Hrun) as [evs' [Hs Hr]]; exists evs';
      (split; [exact Hs|]); (split; [|right; exists resource, w; auto]).
    + exact Hr.
    + rewrite Hr. simpl. now destruct (truthy_env cid).
  - pose proof (grant_permissions_not_sent u t p email level st cid h h1
                  Hst Hres) as Hgrant.
    assert (Hcase : exists r' tail,
               grant_permissions H u t p email level cid h = (r', h1 ++ tail)
               /\ requests_of tail = []).
    { rewrite Hgrant. destruct (negb (truthy st)).
      - eexists. eexists. split; reflexivity.
      - destruct st;
          try (exists (Raise AttributeError), []; rewrite app_nil_r;
               split; reflexivity).
        eexists. eexists. split; reflexivity. }
    destruct Hcase as [r' [tail [Hm Htail]]].
    destruct (Hreq _ _ Hm) as [evs' [Hs Hr]]. exists [], evs'.
    repeat split; auto. now rewrite Hr, Htail.
Qed.

(** X8: after the status lookup, [grant_permissions] issues at most one
    more request, the grant on the permissions endpoint of the object the
    lookup returned, and [get_permissions] at most one more, the GET on
    that same endpoint. *)
Theorem X8_permission_requests (u t : option string) (p email level st : json)
    (cid : option string) (h h1 : History) :
  get_object_status H u t p h = (Ok st, h1) ->
  requests_of (events_of (grant_permissions H u t p email level cid) h)
  = status_request u t p ::
    match permissions_resource st, u with
    | Some resource, Some w =>
        [grant_request w t resource email level cid]
    | _, _ => []
    end /\
  requests_of (events_of (get_permissions H u t p) h)
  = status_request u t p ::
    match permissions_resource st with
    | Some resource => [permissions_request u t resource]
    | None => []
    end.
Proof.
  intros Hst.
  assert (Hh1 : exists evs,
             h1 = h ++ EvHttp (status_request u t p) :: evs /\
             requests_of evs = []).
  { pose proof Hst as Hst'. rewrite get_object_status_run in Hst'.
    destruct (fetch_json H h (status_request u t p)) as [data|e];
      [|destruct (is_RequestException e); [|discriminate]];
      injection Hst' as _ <-; eexists; split; reflexivity. }
  destruct Hh1 as [evs [Hh1 Hevs]].
  assert (Hreq : forall A (m : M A) r tail,
             m h = (r, h1 ++ tail) ->
             requests_of (events_of m h)
             = status_request u t p :: requests_of tail).
  { intros A m r tail Hm.
    rewrite (events_of_app m h (EvHttp (status_request u t p) :: evs ++ tail)).
    - change (EvHttp (status_request u t p) :: evs ++ tail)
        with ([EvHttp (status_request u t p)] ++ evs ++ tail).
      rewrite !requests_of_app, Hevs. reflexivity.
    - rewrite Hm, Hh1. simpl. now rewrite <- app_assoc. }
  destruct (permissions_resource st) as [resource|] eqn:Hres.
  - pose proof (permissions_resource_truthy st resource Hres) as Htruthy.
    destruct (status_truthy_set u t p st h h1 Hst Htruthy) as [w ->].
    split.
    + pose proof (grant_permissions_sent (Some w) t w p email level st cid
                    resource h h1 Hst Htruthy Hres eq_refl) as Hrun.
      cbv zeta in Hrun.
      destruct (call_error H h1 (grant_request w t resource email level cid)).
      * now rewrite (Hreq _ _ _ _ Hrun).
      * rewrite (Hreq _ _ _ _ Hrun). simpl.
        now destruct (truthy_env cid).
    + pose proof (get_permissions_fetched (Some w) t p st resource h h1
                    Hst Hres) as Hrun.
      cbv zeta in Hrun.
      destruct (fetch_json H h1 (permissions_request (Some w) t resource));
        now rewrite (Hreq _ _ _ _ Hrun).
  - pose proof (grant_permissions_not_sent u t p email level st cid h h1
                  Hst Hres) as Hgrant.
    pose proof (get_permissions_not_fetched u t p st h h1 Hst Hres) as Hget.
    split.
    + destruct (negb (truthy st)); [now rewrite (Hreq _ _ _ _ Hgrant)|].
      destruct st; try (rewrite <- (app_nil_r h1) in Hgrant;
                        now rewrite (Hreq _ _ _ _ Hgrant)).
      now rewrite (Hreq _ _ _ _ Hgrant).
    + destruct (negb (truthy st));
        [rewrite <- (app_nil_r h1) in Hget; now rewrite (Hreq _ _ _ _ Hget)|].
      destruct st; try (rewrite <- (app_nil_r h1) in Hget;
                        now rewrite (Hreq _ _ _ _ Hget)).
      now rewrite (Hreq _ _ _ _ Hget).
Qed.

(** X9: [get_permissions] returns a mapping exactly when both lookups
    went through and the body of the second is an object whose
    [access_control_list] the mapper accepts; a body without that key
    gives the empty mapping, not [None]. *)
Theorem X9_get_permissions_some_iff (u t : option string) (p : json)
    (m : pydict) (h : History) :
  fst (get_permissions H u t p h) = Ok (Some m) <->
  exists st h1 resource d,
    get_object_status H u t p h = (Ok st, h1) /\
    permissions_resource st = Some resource /\
    fetch_json H h1 (permissions_request u t resource) = Ok (JDict d) /\
    map_acl match assoc "access_control_list" d with
            | Some acl => acl
            | None => JList []
            end = Ok m.
Proof.
  destruct (get_object_status H u t p h) as [[st|e] h1] eqn:Hst.
  2:{ split.
      - unfold get_permissions, bind at 1. rewrite Hst. discriminate.
      - intros [st' [h1' [res' [d [[=] _]]]]]. }
  destruct (permissions_resource st) as [resource|] eqn:Hres.
  - rewrite (get_permissions_fetched u t p st resource h h1 Hst Hres).
    destruct (fetch_json H h1 (permissions_request u t resource))
      as [data|e] eqn:Ef; simpl.
    + split.
      * destruct data as [| | | | | |d]; try discriminate. simpl.
        destruct (map_acl _) as [m'|e] eqn:Em; simpl; [|discriminate].
        intros [= <-]. exists st, h1, resource, d. auto.
      * intros [st' [h1' [res' [d [[= <- <-] [Hres' [Hf Hm]]]]]]].
        assert (res' = resource) by congruence. subst res'.
        rewrite Ef in Hf. injection Hf as ->. simpl. now rewrite Hm.
    + split; [discriminate|].
      intros [st' [h1' [res' [d [[= <- <-] [Hres' [Hf _]]]]]]].
      assert (res' = resource) by congruence. subst res'. congruence.
  - rewrite (get_permissions_not_fetched u t p st h h1 Hst Hres).
    split.
    + destruct (negb (truthy st)); [discriminate|].
      destruct st; discriminate.
    + intros [st' [h1' [res' [d [[= <- <-] [Hres' _]]]]]]. congruence.
Qed.

End AfterStatus.

(** ** The method of a grant *)

(** C5: whenever the status lookup gives a notebook or a directory,
    [grant_permissions] sends exactly one request after the lookup, to the
    permissions endpoint of that object, and this request goes out as PATCH
    exactly when the workspace URL contains [databricks.com] and as PUT for
    every other URL; and no request with another method than GET, PATCH
    under that condition, or PUT otherwise, is ever among its requests. *)
Theorem C5_grant_method_selection (H : Host)
    (workspace_url access_token : option string)
    (path email permission_level : json) (cluster_id : option string)
    (h : History) :
  (forall st h1 resource,
     get_object_status H workspace_url access_token path h = (Ok st, h1) ->
     permissions_resource st = Some resource ->
     exists w req,
       workspace_url = Some w /\
       requests_of
         (events_of (grant_permissions H workspace_url access_token path
                       email permission_level cluster_id) h)
       = [status_request workspace_url access_token path; req] /\
       req_endpoint req = mkEndpoint (Some w) resource /\
       (req_method req = PATCH <-> is_substring "databricks.com" w) /\
       (req_method req = PUT <-> ~ is_substring "databricks.com" w)) /\
  (forall req,
     In (EvHttp req)
        (events_of (grant_permissions H workspace_url access_token path email
                      permission_level cluster_id) h) ->
     req_method req <> GET ->
     exists w,
       workspace_url = Some w /\
       (req_method req = PATCH <-> is_substring "databricks.com" w) /\
       (req_method req = PUT <-> ~ is_substring "databricks.com" w)).
Proof.
  assert (Hmethod : forall w m,
            m = (if str_contains "databricks.com" w then PATCH else PUT) ->
            (m = PATCH <-> is_substring "databricks.com" w) /\
            (m = PUT <-> ~ is_substring "databricks.com" w)).
  { intros w m ->. rewrite <- str_contains_spec.
    destruct (str_contains "databricks.com" w); repeat split;
      intros; try discriminate; try congruence. }
  split.
  - intros st h1 resource Hst Hres.
    pose proof (permissions_resource_truthy st resource Hres) as Htruthy.
    destruct (status_truthy_set H workspace_url access_token path st h h1
                Hst Htruthy) as [w ->].
    exists w, (grant_request w access_token resource email permission_level
                 cluster_id).
    split; [reflexivity|]. split; [|split; [reflexivity|now apply Hmethod]].
    assert (Hh1 : exists evs,
               h1 = h ++ EvHttp (status_request (Some w) access_token path)
                      :: evs /\
               requests_of evs = []).
    { pose proof Hst as Hst'. rewrite get_object_status_run in Hst'.
      destruct (fetch_json H h (status_request (Some w) access_token path))
        as [data|e];
        [|destruct (is_RequestException e); [|discriminate]];
        injection Hst' as _ <-; eexists; split; reflexivity. }
    destruct Hh1 as [evs [Hh1 Hevs]].
    pose proof (grant_permissions_sent H (Some w) access_token w path email
                  permission_level st cluster_id resource h h1 Hst Htruthy
                  Hres eq_refl) as Hrun.
    cbv zeta in Hrun.
    assert (Hreq : forall r tail,
               grant_permissions H (Some w) access_token path email
                 permission_level cluster_id h = (r, h1 ++ tail) ->
               requests_of
                 (events_of (grant_permissions H (Some w) access_token path
                               email permission_level cluster_id) h)
               = status_request (Some w) access_token path
                 :: requests_of tail).
    { intros r tail Hm.
      rewrite (events_of_app _ h
                 (EvHttp (status_request (Some w) access_token path)
                  :: evs ++ tail)).
      - change (EvHttp (status_request (Some w) access_token path)
                :: evs ++ tail)
          with ([EvHttp (status_request (Some w) access_token path)]
                ++ evs ++ tail).
        rewrite !requests_of_app, Hevs. reflexivity.
      - rewrite Hm, Hh1. simpl. now rewrite <- app_assoc. }
    destruct (call_error H h1
                (grant_request w access_token resource email permission_level
                   cluster_id)).
    + now rewrite (Hreq _ _ Hrun).
    + rewrite (Hreq _ _ Hrun). simpl. now destruct (truthy_env cluster_id).
  - intros req Hin Hnot.
    pose (P := fun e =>
      match e with
      | EvHttp r =>
          req_method r <> GET ->
          exists w, workspace_url = Some w /\
            req_method r = if str_contains "databricks.com" w then PATCH else PUT
      | _ => True
      end).
    assert (HP : Forall P (events_of (grant_permissions H workspace_url
              access_token path email permission_level cluster_id) h)).
    { apply emits_events_of. apply emits_grant_permissions.
      - intros l. exact I.
      - intros Hget. now elim Hget.
      - intros w resource Hw _ _. exists w. split; [assumption | reflexivity]. }
    rewrite Forall_forall in HP. destruct (HP _ Hin Hnot) as [w [Hw Hm]].
    exists w. split; [assumption|]. now apply Hmethod.
Qed.

(** ** Errors of a call become empty results *)

Section Failures.

Variable H : Host.

Lemma call_fails_error (h : History) (r : Request) :
  call_fails H h r = true ->
  exists e, call_error H h r = Some e /\ is_RequestException e = true.
Proof.
  rewrite call_error_fails.
  destruct (call_error H h r) as [e|]; [eauto|discriminate].
Qed.

Lemma list_notebooks_failed (u t : option string) (p : json) (h : History) :
  call_fails H h (list_request u t p) = true ->
  exists e,
    list_notebooks H u t p h
    = (Ok (JList []),
       h ++ [EvHttp (list_request u t p); EvPrint (LogListError u e)]).
Proof.
  intros Hf. destruct (call_fails_fetch H _ _ Hf) as [e [Hfe He]].
  exists e. now rewrite list_notebooks_run, Hfe, He.
Qed.

Lemma export_notebook_failed (u t : option string) (p : json) (h : History) :
  call_fails H h (export_request u t p) = true ->
  exists e,
    export_notebook H u t p h
    = (Ok None,
       h ++ [EvHttp (export_request u t p); EvPrint (LogExportError p u e)]).
Proof.
  intros Hf. destruct (call_fails_fetch H _ _ Hf) as [e [Hfe He]].
  exists e. now rewrite export_notebook_run, Hfe, He.
Qed.

Lemma import_notebook_failed (u t : option string) (c : string) (p : json)
    (l : string) (h : History) :
  call_fails H h (import_request H u t c p l) = true ->
  exists e,
    import_notebook H u t c p l h
    = (Ok tt,
       h ++ [EvHttp (import_request H u t c p l);
             EvPrint (LogImportError p u e)]).
Proof.
  intros Hf. destruct (call_fails_error _ _ Hf) as [e [Hfe He]].
  exists e. now rewrite import_notebook_run, Hfe, He.
Qed.

Lemma get_object_status_failed (u t : option string) (p : json)
    (h : History) :
  call_fails H h (status_request u t p) = true ->
  exists e,
    get_object_status H u t p h
    = (Ok JNull,
       h ++ [EvHttp (status_request u t p); EvPrint (LogStatusError p u e)]).
Proof.
  intros Hf. destruct (call_fails_fetch H _ _ Hf) as [e [Hfe He]].
  exists e. now rewrite get_object_status_run, Hfe, He.
Qed.

Lemma get_permissions_status_failed (u t : option string) (p : json)
    (h : History) :
  call_fails H h (status_request u t p) = true ->
  exists e,
    get_permissions H u t p h
    = (Ok None,
       h ++ [EvHttp (status_request u t p); EvPrint (LogStatusError p u e)]).
Proof.
  intros Hf. destruct (get_object_status_failed u t p h Hf) as [e He].
  exists e. unfold get_permissions, bind at 1. now rewrite He.
Qed.

Lemma grant_permissions_status_failed (u t : option string)
    (p email level : json) (cid : option string) (h : History) :
  call_fails H h (status_request u t p) = true ->
  exists e,
    grant_permissions H u t p email level cid h
    = (Ok false,
       h ++ [EvHttp (status_request u t p); EvPrint (LogStatusError p u e);
             EvPrint (LogSkipNoStatus p)]).
Proof.
  intros Hf. destruct (get_object_status_failed u t p h Hf) as [e He].
  exists e. unfold grant_permissions, bind at 1. rewrite He. simpl.
  unfold bind, print, emit, ret. simpl. now rewrite <- app_assoc.
Qed.

Lemma get_permissions_fetch_failed (u t : option string) (p st : json)
    (resource : Resource) (h h1 : History) :
  get_object_status H u t p h = (Ok st, h1) ->
  truthy st = true ->
  permissions_resource st = Some resource ->
  call_fails H h1 (permissions_request u t resource) = true ->
  exists e,
    get_permissions H u t p h
    = (Ok None,
       h1 ++ [EvHttp (permissions_request u t resource);
              EvPrint (LogPermissionsError p e)]).
Proof.
  intros Hst Htruthy Hres Hf.
  destruct (call_fails_fetch H _ _ Hf) as [e [Hfe He]]. exists e.
  rewrite (get_permissions_fetched H u t p st resource h h1 Hst Hres).
  cbv zeta. now rewrite Hfe.
Qed.

Lemma grant_permissions_send_failed (u t : option string)
    (p email level st : json) (cid : option string) (resource : Resource)
    (h h1 : History) :
  get_object_status H u t p h = (Ok st, h1) ->
  truthy st = true ->
  permissions_resource st = Some resource ->
  exists w,
    u = Some w /\
    (call_fails H h1 (grant_request w t resource email level cid) = true ->
     exists e,
       grant_permissions H u t p email level cid h
       = (Ok false,
          h1 ++ [EvHttp (grant_request w t resource email level cid);
                 EvPrint (LogGrantError p e)])).
Proof.
  intros Hst Htruthy Hres.
  destruct (status_truthy_set H u t p st h h1 Hst Htruthy) as [w Hw].
  exists w. split; [assumption|]. intros Hf.
  destruct (call_fails_error _ _ Hf) as [e [Hfe He]]. exists e.
  rewrite (grant_permissions_sent H u t w p email level st cid resource h h1
             Hst Htruthy Hres Hw).
  cbv zeta. now rewrite Hfe.
Qed.

End Failures.

(** ** Running to completion on a well-behaved host *)

Section Completion.

Variable H : Host.
Hypothesis Hok : host_ok H.

(** A call, the status check and the parse: what comes out is a body of
    the expected shape, from a workspace whose URL is set. *)
Lemma mspec_requests_call (r : Request) :
  headers_encodable (req_headers r) = true ->
  mspec (fun response =>
           reply_ok H r (Replied (status_code response) (body response)) = true
           /\ ep_workspace (req_endpoint r) <> None)
        caught (requests_call H r).
Proof.
  intros Henc h. unfold requests_call. rewrite Henc.
  destruct (ep_workspace (req_endpoint r)) eqn:Eu; [|reflexivity].
  pose proof (Hok h r) as Hr.
  destruct (http H h r); simpl; [reflexivity|]. split; [assumption|discriminate].
Qed.

Lemma mspec_raise_for_status (response : Response) :
  mspec (fun _ => is_error_status (status_code response) = false) caught
        (lift (raise_for_status response)).
Proof.
  apply mspec_lift. unfold raise_for_status, is_error_status.
  destruct ((400 <=? status_code response)%Z && (status_code response <? 600)%Z);
    reflexivity.
Qed.

Lemma mspec_response_json (response : Response) :
  mspec (fun data => body response = Some data) caught
        (lift (response_json response)).
Proof.
  apply mspec_lift. unfold response_json.
  destruct (body response); reflexivity.
Qed.

Lemma reply_body_ok (r : Request) (response : Response) (data : json) :
  reply_ok H r (Replied (status_code response) (body response)) = true ->
  is_error_status (status_code response) = false ->
  body response = Some data ->
  body_ok H r data = true.
Proof.
  unfold reply_ok. intros Hr Hs Hb. now rewrite Hb, Hs in Hr.
Qed.

(** The three steps every reading operation starts with. *)
Lemma mspec_fetch {A} (Q : A -> Prop) (r : Request) (k : json -> M A) :
  headers_encodable (req_headers r) = true ->
  (forall data,
      body_ok H r data = true -> ep_workspace (req_endpoint r) <> None ->
      mspec Q caught (k data)) ->
  mspec Q caught
    (let* response := requests_call H r in
     lift (raise_for_status response) ;;
     let* data := lift (response_json response) in
     k data).
Proof.
  intros Henc Hk.
  eapply mspec_bind; [now apply mspec_requests_call|]. intros response [Hr Hu].
  eapply mspec_bind; [apply mspec_raise_for_status|]. intros ? Hs.
  eapply mspec_bind; [apply mspec_response_json|]. intros data Hb.
  apply Hk; [|assumption]. now apply (reply_body_ok r response).
Qed.

Lemma returns_list_notebooks (u t : option string) (p : json) :
  token_encodable t = true ->
  returns (fun objects =>
             exists l, objects = JList l /\ forallb object_ok l = true)
          (list_notebooks H u t p).
Proof.
  intros Ht. unfold returns, list_notebooks, requests_get.
  apply mspec_try with (E := caught).
  - apply mspec_fetch; [exact Ht|]. intros data Hbody _. apply mspec_lift.
    unfold body_ok in Hbody. simpl in Hbody. unfold listing_ok in Hbody.
    destruct data as [| | | | | |d]; try discriminate. simpl.
    destruct (assoc "objects" d) as [[| | | | |l|]|]; try discriminate.
    + now exists l.
    + now exists [].
  - intros e He. split; [exact He|].
    eapply mspec_bind with (Q := fun _ => True); [now apply mspec_emit|]. intros ? _.
    apply mspec_ret. now exists [].
Qed.

Lemma returns_export_notebook (u t : option string) (p : json) :
  token_encodable t = true ->
  returns (fun _ => True) (export_notebook H u t p).
Proof.
  intros Ht. unfold returns, export_notebook, requests_get.
  apply mspec_try with (E := caught).
  - apply mspec_fetch; [exact Ht|]. intros data Hbody _.
    unfold body_ok in Hbody. simpl in Hbody. unfold export_ok in Hbody.
    destruct data as [| | | | | |d]; try discriminate.
    unfold py_getitem.
    destruct (assoc "content" d) as [[| | | |s| |]|]; try discriminate.
    eapply mspec_bind with (Q := fun v => v = JStr s); [now apply mspec_lift|].
    intros ? ->. unfold b64decode_utf8.
    destruct (b64decode_text H s); [|discriminate].
    eapply mspec_bind with (Q := fun _ => True); [now apply mspec_lift|].
    intros ? _. now apply mspec_ret.
  - intros e He. split; [exact He|].
    eapply mspec_bind with (Q := fun _ => True); [now apply mspec_emit|]. intros ? _.
    now apply mspec_ret.
Qed.

Lemma returns_import_notebook (u t : option string) (c : string) (p : json)
    (l : string) :
  token_encodable t = true ->
  returns (fun _ => True) (import_notebook H u t c p l).
Proof.
  intros Ht. unfold returns, import_notebook, requests_post.
  apply mspec_try with (E := caught).
  - eapply mspec_bind; [apply mspec_requests_call; exact Ht|].
    intros response _.
    eapply mspec_bind; [apply mspec_raise_for_status|]. intros ? _.
    now apply mspec_emit.
  - intros e He. split; [exact He|]. now apply mspec_emit.
Qed.

Lemma returns_get_object_status (u t : option string) (p : json) :
  token_encodable t = true ->
  returns (fun st => status_ok st = true /\ (truthy st = true -> u <> None))
          (get_object_status H u t p).
Proof.
  intros Ht. unfold returns, get_object_status, requests_get.
  apply mspec_try with (E := caught).
  - eapply mspec_bind; [apply mspec_requests_call; exact Ht|].
    intros response [Hr Hu].
    eapply mspec_bind; [apply mspec_raise_for_status|]. intros ? Hs.
    eapply mspec_weaken; [| |apply mspec_response_json]; [|auto].
    intros data Hb. split; [|intros _; exact Hu].
    exact (reply_body_ok _ response data Hr Hs Hb).
  - intros e He. split; [exact He|].
    eapply mspec_bind with (Q := fun _ => True); [now apply mspec_emit|]. intros ? _.
    apply mspec_ret. split; [reflexivity | discriminate].
Qed.

Lemma status_ok_truthy (st : json) :
  status_ok st = true -> truthy st = true -> exists d, st = JDict d.
Proof.
  unfold status_ok. destruct st; intros Hs Ht; eauto;
    rewrite Ht in Hs; discriminate.
Qed.

Lemma returns_get_permissions (u t : option string) (p : json) :
  token_encodable t = true ->
  returns (fun _ => True) (get_permissions H u t p).
Proof.
  intros Htok. unfold returns, get_permissions.
  eapply mspec_bind; [now apply returns_get_object_status|]. intros st [Hst _].
  destruct (truthy st) eqn:Ht; simpl; [|now apply mspec_ret].
  destruct (status_ok_truthy st Hst Ht) as [d ->].
  eapply mspec_bind with (Q := fun _ => True); [now apply mspec_lift|].
  intros object_id _.
  eapply mspec_bind with (Q := fun _ => True); [now apply mspec_lift|].
  intros object_type _.
  assert (Hfetch : forall resource,
    is_permissions_resource resource = true ->
    mspec (fun _ : option pydict => True) (fun _ => False)
      (try_except
         (let* response :=
            requests_get H (mkEndpoint u resource) (get_headers t) [] in
          lift (raise_for_status response) ;;
          let* permissions := lift (response_json response) in
          let* acl :=
            lift (py_get permissions "access_control_list" (JList [])) in
          let* user_permissions := lift (map_acl acl) in
          ret (Some user_permissions))
         is_RequestException
         (fun e => print (LogPermissionsError p e) ;; ret None))).
  { intros resource Hres. apply mspec_try with (E := caught).
    - unfold requests_get. apply mspec_fetch; [exact Htok|].
      intros data Hbody _.
      assert (Hperm : permissions_ok data = true).
      { unfold body_ok in Hbody. simpl in Hbody.
        destruct resource; try discriminate; assumption. }
      unfold permissions_ok in Hperm.
      destruct data as [| | | | | |d']; try discriminate. simpl.
      destruct (assoc "access_control_list" d') as [[| | | | |l|]|];
        try discriminate.
      + apply mspec_bind with (Q := fun v => v = JList l);
          [now apply mspec_lift|].
        intros ? ->. rewrite (map_acl_ok l Hperm).
        apply mspec_bind with (Q := fun _ => True); [now apply mspec_lift|].
        intros ? _. now apply mspec_ret.
      + apply mspec_bind with (Q := fun v => v = JList []);
          [now apply mspec_lift|].
        intros ? ->.
        apply mspec_bind with (Q := fun _ => True); [now apply mspec_lift|].
        intros ? _. now apply mspec_ret.
    - intros e He. split; [exact He|].
      eapply mspec_bind with (Q := fun _ => True); [now apply mspec_emit|]. intros ? _.
      now apply mspec_ret. }
  destruct (py_eq_str object_type "NOTEBOOK"); [now apply Hfetch|].
  destruct (py_eq_str object_type "DIRECTORY"); [now apply Hfetch|].
  eapply mspec_bind with (Q := fun _ => True); [now apply mspec_emit|]. intros ? _. now apply mspec_ret.
Qed.

Lemma returns_grant_permissions (u t : option string) (p email level : json)
    (cid : option string) :
  token_encodable t = true ->
  returns (fun _ => True) (grant_permissions H u t p email level cid).
Proof.
  intros Htok. unfold returns, grant_permissions.
  eapply mspec_bind; [now apply returns_get_object_status|].
  intros st [Hst Hu].
  destruct (truthy st) eqn:Ht; simpl.
  2:{ eapply mspec_bind with (Q := fun _ => True); [now apply mspec_emit|]. intros ? _.
      now apply mspec_ret. }
  destruct (status_ok_truthy st Hst Ht) as [d ->].
  destruct u as [w|]; [|now elim (Hu eq_refl)].
  eapply mspec_bind with (Q := fun _ => True); [now apply mspec_lift|].
  intros object_id _.
  eapply mspec_bind with (Q := fun _ => True); [now apply mspec_lift|].
  intros object_type _.
  assert (Hsend : forall resource,
    mspec (fun _ : bool => True) (fun _ => False)
      (let* method := lift (grant_method (Some w)) in
       try_except
         (let* response :=
            match method with
            | PATCH =>
                requests_patch H (mkEndpoint (Some w) resource)
                  (get_headers t) (grant_data email level cid)
            | _ =>
                requests_put H (mkEndpoint (Some w) resource)
                  (get_headers t) (grant_data email level cid)
            end in
          lift (raise_for_status response) ;;
          print (LogGranted level email p) ;;
          (if truthy_env cid
           then print (LogGrantedAttach email cid)
           else ret tt) ;;
          ret true)
         is_RequestException
         (fun e => print (LogGrantError p e) ;; ret false))).
  { intros resource.
    eapply mspec_bind with (Q := fun _ => True); [now apply mspec_lift|].
    intros method _. apply mspec_try with (E := caught).
    - eapply mspec_bind with (Q := fun _ => True).
      + unfold requests_patch, requests_put.
        destruct method;
          (eapply mspec_weaken; [| |apply mspec_requests_call; exact Htok];
           auto).
      + intros response _.
        eapply mspec_bind; [apply mspec_raise_for_status|]. intros ? _.
        eapply mspec_bind with (Q := fun _ => True); [now apply mspec_emit|].
        intros ? _.
        eapply mspec_bind with (Q := fun _ => True).
        * destruct (truthy_env cid); [now apply mspec_emit|now apply mspec_ret].
        * intros ? _. now apply mspec_ret.
    - intros e He. split; [exact He|].
      eapply mspec_bind with (Q := fun _ => True); [now apply mspec_emit|]. intros ? _.
      now apply mspec_ret. }
  destruct (py_eq_str object_type "NOTEBOOK"); [now apply Hsend|].
  destruct (py_eq_str object_type "DIRECTORY"); [now apply Hsend|].
  eapply mspec_bind with (Q := fun _ => True); [now apply mspec_emit|]. intros ? _. now apply mspec_ret.
Qed.

Lemma returns_sync_notebook (source_config target_config : WorkspaceConfig)
    (source_permissions : option pydict) (cluster_id : option string)
    (nb : json) :
  token_encodable (token source_config) = true ->
  token_encodable (token target_config) = true ->
  object_ok nb = true ->
  returns (fun _ => True)
    (sync_notebook H source_config target_config source_permissions
       cluster_id nb).
Proof.
  intros Hsrc Htgt Hnb. unfold returns, sync_notebook.
  destruct nb as [| | | | | |d]; try discriminate. simpl in Hnb |- *.
  destruct (assoc "object_type" d) as [object_type|]; [|discriminate].
  eapply mspec_bind with (Q := fun v => v = object_type);
    [now apply mspec_lift|]. intros ? ->.
  destruct (py_eq_str object_type "NOTEBOOK"); [|now apply mspec_ret].
  destruct (assoc "path" d) as [path|]; [|discriminate].
  eapply mspec_bind with (Q := fun _ => True); [now apply mspec_lift|].
  intros ? _.
  eapply mspec_bind; [now apply returns_export_notebook|]. intros [text|] _;
    [|now apply mspec_ret].
  eapply mspec_bind with (Q := fun _ => True); [now apply mspec_lift|].
  intros ? _.
  eapply mspec_bind; [now apply returns_import_notebook|]. intros ? _.
  destruct (truthy_dict source_permissions); [|now apply mspec_ret].
  apply mspec_for_each. intros entry _.
  eapply mspec_bind with (Q := fun _ => True); [now apply mspec_lift|].
  intros ? _.
  eapply mspec_bind; [now apply returns_grant_permissions|]. intros ? _.
  now apply mspec_ret.
Qed.

Lemma returns_print_permissions (cloud : string) (dir : option string)
    (permissions : option pydict) :
  returns (fun _ => True)
    (if truthy_dict permissions then
       print (LogPermissionsHeader cloud) ;;
       for_each (match permissions with Some d => d | None => [] end)
         (fun entry => print (LogPermissionLine (fst entry) (snd entry)))
     else print (LogNoPermissions cloud dir)).
Proof.
  destruct (truthy_dict permissions); [|now apply mspec_emit].
  eapply mspec_bind with (Q := fun _ => True); [now apply mspec_emit|]. intros ? _.
  apply mspec_for_each. intros entry _. now apply mspec_emit.
Qed.

Lemma returns_sync_workspaces (source_cloud target_cloud : string)
    (source_config target_config : WorkspaceConfig)
    (cluster_id : option string) :
  token_encodable (token source_config) = true ->
  token_encodable (token target_config) = true ->
  returns (fun _ => True)
    (sync_workspaces H source_cloud target_cloud source_config target_config
       cluster_id).
Proof.
  intros Hsrc Htgt. unfold returns, sync_workspaces.
  eapply mspec_bind with (Q := fun _ => True); [now apply mspec_emit|].
  intros ? _.
  eapply mspec_bind; [now apply returns_get_permissions|].
  intros source_permissions _.
  eapply mspec_bind; [apply returns_print_permissions|]. intros ? _.
  eapply mspec_bind; [now apply returns_list_notebooks|].
  intros objects [l [-> Hl]].
  eapply mspec_bind with (Q := fun v => v = l); [now apply mspec_lift|].
  intros ? ->.
  eapply mspec_bind with (Q := fun _ => True).
  - apply mspec_for_each. intros nb Hin.
    apply returns_sync_notebook; [assumption|assumption|].
    rewrite forallb_forall in Hl. now apply Hl.
  - intros ? _.
    eapply mspec_bind with (Q := fun _ => True); [now apply mspec_emit|].
    intros ? _.
    eapply mspec_bind; [now apply returns_get_permissions|].
    intros target_permissions _.
    eapply mspec_bind; [apply returns_print_permissions|]. intros ? _.
    now apply mspec_emit.
Qed.

Lemma returns_pull_notebooks_from_git (git_url : option string) :
  truthy_env git_url = true -> seeding_runs H git_url ->
  returns (fun _ => True)
    (pull_notebooks_from_git H git_url (NOTEBOOK_DIR H)).
Proof.
  intros Hurl [Hfalse|[dir [Hdir Hgit]]]; [congruence|].
  destruct git_url as [u|]; [|discriminate].
  unfold returns, pull_notebooks_from_git. rewrite Hdir.
  apply mspec_try with (E := fun e => is_CalledProcessError e = true).
  - eapply mspec_bind with (Q := fun _ => True).
    + intros h. unfold subprocess_run_git_clone.
      specialize (Hgit h u).
      destruct (git H h u dir) as [[| |]|]; simpl; try congruence; auto.
    + intros ? _.
      eapply mspec_bind with (Q := fun _ => True); [now apply mspec_emit|].
      intros ? _. now apply mspec_ret.
  - intros e He. split; [exact He|].
    repeat (eapply mspec_bind with (Q := fun _ => True);
            [now apply mspec_emit|]; intros ? _).
    now apply mspec_ret.
Qed.

Lemma returns_sync_notebooks_and_permissions
    (source_cloud target_cloud : string) (git_url cluster_id : option string) :
  provider_token_encodable H source_cloud ->
  provider_token_encodable H target_cloud ->
  seeding_runs H git_url ->
  returns (fun _ => True)
    (sync_notebooks_and_permissions H source_cloud target_cloud git_url
       cluster_id).
Proof.
  intros Hsource Htarget Hseed.
  unfold returns, sync_notebooks_and_permissions.
  eapply mspec_bind with (Q := fun _ => True); [now apply mspec_emit|].
  intros ? _.
  assert (Hinvalid : mspec (fun _ : unit => True) (fun _ => False)
                       (print LogInvalidProvider ;; ret tt)).
  { eapply mspec_bind with (Q := fun _ => True); [now apply mspec_emit|].
    intros ? _. now apply mspec_ret. }
  destruct (get_workspace_config H source_cloud) as [source_config|] eqn:Es;
    [|exact Hinvalid].
  destruct (get_workspace_config H target_cloud) as [target_config|] eqn:Et;
    [|exact Hinvalid].
  pose proof (Hsource _ Es) as Hsrc.
  pose proof (Htarget _ Et) as Htgt.
  destruct (truthy_env git_url) eqn:Hurl;
    [|now apply returns_sync_workspaces].
  eapply mspec_bind;
    [now apply returns_pull_notebooks_from_git|].
  intros [|] _; simpl; [now apply returns_sync_workspaces|now apply mspec_ret].
Qed.

End Completion.



(** ** The properties on the sample hosts *)

Lemma demo_host_ok : host_ok demo_host.
Proof.
  intros h r. unfold demo_host, sample_host, sample_http, reply_ok, body_ok.
  simpl. destruct (ep_resource (req_endpoint r)); try reflexivity.
  - unfold demo_export. destruct (assoc "path" (req_params r)) as [p|];
      [destruct (py_eq_str p "/Shared/a")|]; reflexivity.
  - unfold sample_status. destruct (assoc "path" (req_params r)) as [p|];
      [destruct (py_eq_str p "/Shared")|]; reflexivity.
  - destruct (req_method r); reflexivity.
  - destruct (req_method r); reflexivity.
Qed.

Lemma C1_witness :
  let h' := [ EvHttp (export_request (url sample_aws) (token sample_aws)
                        (JStr "/Shared/a"));
              EvPrint (LogExportError (JStr "/Shared/a") (url sample_aws)
                         (HTTPError 500)) ] in
  (is_notebook sample_notebook_a = true /\
   py_getitem sample_notebook_a "path" = Ok (JStr "/Shared/a") /\
   export_notebook demo_host (url sample_aws) (token sample_aws)
     (JStr "/Shared/a") [] = (Ok None, h')) /\
  existsb is_import_call
    (events_of (sync_notebook demo_host sample_aws sample_azure
                  (Some [(JStr "alice", JStr "CAN_MANAGE")]) None
                  sample_notebook_a) []) = false /\
  for_each [sample_notebook_a; sample_notebook_b]
    (sync_notebook demo_host sample_aws sample_azure
       (Some [(JStr "alice", JStr "CAN_MANAGE")]) None) []
  = for_each [sample_notebook_b]
      (sync_notebook demo_host sample_aws sample_azure
         (Some [(JStr "alice", JStr "CAN_MANAGE")]) None) h'.
Proof.
  intros h'. split; [repeat split|].
  apply (C1_export_failure_isolated demo_host sample_aws sample_azure
           (Some [(JStr "alice", JStr "CAN_MANAGE")]) None
           sample_notebook_a (JStr "/Shared/a") [sample_notebook_b] [] h');
    reflexivity.
Defined.

Lemma C2_witness :
  forallb acl_entry_ok [sample_alice; sample_bob; sample_group] = true /\
  map_acl (JList [sample_alice; sample_bob; sample_group])
  = Ok [ (JStr "alice", JStr "CAN_MANAGE");
         (JStr "bob", JStr "CAN_READ");
         (JNull, JStr "UNKNOWN") ].
Proof.
  split; [reflexivity|].
  apply (C2_mapper_levels [sample_alice; sample_bob; sample_group]).
  reflexivity.
Defined.



Lemma C4_witness :
  (get_workspace_config demo_host "aws" = Some sample_aws /\
   get_workspace_config demo_host "Azure" = Some sample_azure /\
   "git@example.com:team/notebooks.git" <> "" /\
   NOTEBOOK_DIR demo_host = Some "/Shared" /\
   git demo_host ([] ++ [EvPrint LogStart])
     "git@example.com:team/notebooks.git" "/Shared" = GitExit 128 /\
   128%Z <> 0%Z) /\
  sync_notebooks_and_permissions demo_host "aws" "Azure"
    (Some "git@example.com:team/notebooks.git") None []
  = (Ok tt,
     [] ++ [ EvPrint LogStart;
             EvGitClone "git@example.com:team/notebooks.git" "/Shared";
             EvPrint (LogGitError (CalledProcessError 128));
             EvPrint LogGitHintAccess;
             EvPrint LogGitHintSsh;
             EvPrint LogGitHintHttps ]) /\
  existsb is_http
    (events_of
       (sync_notebooks_and_permissions demo_host "aws" "Azure"
          (Some "git@example.com:team/notebooks.git") None) []) = false.
Proof.
  split; [repeat split; discriminate|].
  apply (C4_git_failure_aborts demo_host "aws" "Azure" sample_aws sample_azure
           "git@example.com:team/notebooks.git" "/Shared" None 128 []);
    try reflexivity; discriminate.
Defined.

Lemma C5_witness :
  let st := JDict [("object_id", JInt 2); ("object_type", JStr "NOTEBOOK")] in
  let managed := url sample_aws in
  let other := url sample_azure in
  let grant u :=
    grant_permissions demo_host u (Some "token") (JStr "/Shared/b")
      (JStr "alice") (JStr "CAN_MANAGE") None in
  (get_object_status demo_host managed (Some "token") (JStr "/Shared/b") []
   = (Ok st, [EvHttp (status_request managed (Some "token")
                        (JStr "/Shared/b"))]) /\
   get_object_status demo_host other (Some "token") (JStr "/Shared/b") []
   = (Ok st, [EvHttp (status_request other (Some "token")
                        (JStr "/Shared/b"))]) /\
   permissions_resource st = Some (PermissionsNotebooks (JInt 2))) /\
  (exists w req,
     managed = Some w /\
     requests_of (events_of (grant managed) [])
     = [status_request managed (Some "token") (JStr "/Shared/b"); req] /\
     req_endpoint req = mkEndpoint (Some w) (PermissionsNotebooks (JInt 2)) /\
     (req_method req = PATCH <-> is_substring "databricks.com" w) /\
     (req_method req = PUT <-> ~ is_substring "databricks.com" w)) /\
  (exists w req,
     other = Some w /\
     requests_of (events_of (grant other) [])
     = [status_request other (Some "token") (JStr "/Shared/b"); req] /\
     req_endpoint req = mkEndpoint (Some w) (PermissionsNotebooks (JInt 2)) /\
     (req_method req = PATCH <-> is_substring "databricks.com" w) /\
     (req_method req = PUT <-> ~ is_substring "databricks.com" w)) /\
  map req_method (requests_of (events_of (grant managed) [])) = [GET; PATCH] /\
  map req_method (requests_of (events_of (grant other) [])) = [GET; PUT].
Proof.
  intros st managed other grant.
  split; [repeat split|].
  split; [|split; [|split; reflexivity]].
  - exact (proj1 (C5_grant_method_selection demo_host managed (Some "token")
                    (JStr "/Shared/b") (JStr "alice") (JStr "CAN_MANAGE")
                    None [])
             st _ (PermissionsNotebooks (JInt 2)) eq_refl eq_refl).
  - exact (proj1 (C5_grant_method_selection demo_host other (Some "token")
                    (JStr "/Shared/b") (JStr "alice") (JStr "CAN_MANAGE")
                    None [])
             st _ (PermissionsNotebooks (JInt 2)) eq_refl eq_refl).
Defined.

Lemma C6_witness :
  (forallb acl_entry_ok
     ([] ++ sample_alice_read :: [sample_bob] ++ sample_alice ::
      [sample_group]) = true /\
   key_eqb (spec_principal sample_alice_read) (spec_principal sample_alice)
   = true /\
   forallb (fun e' => negb (key_eqb (spec_principal e')
                              (spec_principal sample_alice)))
     [sample_group] = true) /\
  exists m,
    map_acl (JList ([] ++ sample_alice_read :: [sample_bob] ++ sample_alice
                    :: [sample_group])) = Ok m /\
    dict_get m (spec_principal sample_alice_read)
    = Some (spec_level sample_alice) /\
    dict_get m (spec_principal sample_alice) = Some (spec_level sample_alice) /\
    dict_count m (spec_principal sample_alice) = 1%nat.
Proof.
  split; [repeat split|].
  apply (C6_last_write_wins [] [sample_bob] [sample_group]
           sample_alice_read sample_alice); reflexivity.
Defined.

Lemma C7_witness :
  let attach :=
    grant_request "https://adb-1.azuredatabricks.net" (Some "azure-token")
      (PermissionsNotebooks (JInt 2)) (JStr "alice") (JStr "CAN_MANAGE")
      (Some "cluster-1") in
  (In (EvHttp attach)
      (events_of (grant_permissions demo_host
                    (Some "https://adb-1.azuredatabricks.net")
                    (Some "azure-token") (JStr "/Shared/b") (JStr "alice")
                    (JStr "CAN_MANAGE") (Some "cluster-1")) []) /\
   req_method attach <> GET) /\
  exists acl,
    req_json attach = Some (JDict [("access_control_list", JList acl)]) /\
    (forall c, Some "cluster-1" = Some c -> c <> "" ->
               acl = [grant_entry (JStr "alice") (JStr "CAN_MANAGE");
                      attach_entry (JStr "alice") c]) /\
    (Some "cluster-1" = None \/ Some "cluster-1" = Some "" ->
     acl = [grant_entry (JStr "alice") (JStr "CAN_MANAGE")]).
Proof.
  intros attach.
  assert (Hin : In (EvHttp attach)
      (events_of (grant_permissions demo_host
                    (Some "https://adb-1.azuredatabricks.net")
                    (Some "azure-token") (JStr "/Shared/b") (JStr "alice")
                    (JStr "CAN_MANAGE") (Some "cluster-1")) [])).
  { right. left. reflexivity. }
  assert (Hm : req_method attach <> GET) by discriminate.
  split; [split; assumption|].
  exact (C7_grant_body demo_host _ _ _ _ _ _ _ _ Hin Hm).
Defined.



Lemma C9_witness :
  (py_getitem sample_directory "object_type" = Ok (JStr "DIRECTORY") /\
   py_eq_str (JStr "DIRECTORY") "NOTEBOOK" = false) /\
  events_of (sync_notebook demo_host sample_aws sample_azure None None
               sample_directory) [] = [] /\
  for_each [sample_directory; sample_notebook_b]
    (sync_notebook demo_host sample_aws sample_azure None None) []
  = for_each [sample_notebook_b]
      (sync_notebook demo_host sample_aws sample_azure None None) [].
Proof.
  split; [split; reflexivity|].
  destruct (C9_only_notebooks demo_host sample_aws sample_azure None None)
    as [Hskip _].
  exact (Hskip sample_directory (JStr "DIRECTORY") [sample_notebook_b] []
           eq_refl eq_refl).
Defined.

Lemma C10_witness :
  (assoc "user_name" (entry_fields sample_group) = None /\
   acl_entry_ok sample_group = true /\
   acl_step [(JStr "alice", JStr "CAN_MANAGE")] sample_group
   = Ok [(JStr "alice", JStr "CAN_MANAGE"); (JNull, JStr "UNKNOWN")]) /\
  (assoc "all_permissions" (entry_fields sample_carol) = Some (JList []) /\
   map_acl (JList ([sample_alice] ++ sample_carol :: [sample_bob]))
   = map_acl (JList ([sample_alice] ++
                     JDict (remove_field "all_permissions"
                              (entry_fields sample_carol)) :: [sample_bob])) /\
   acl_step [] sample_carol = Ok [(JStr "carol", JStr "CAN_RUN")]).
Proof.
  destruct C10_absent_principal_and_empty_nested
    as [Hnull [_ [Hstep Hlist]]].
  split.
  - exact (conj eq_refl (conj eq_refl
             (Hnull [(JStr "alice", JStr "CAN_MANAGE")]
                (entry_fields sample_group) eq_refl eq_refl))).
  - exact (conj eq_refl
             (conj (Hlist [sample_alice] [sample_bob]
                      (entry_fields sample_carol) eq_refl)
                   (proj2 (Hstep [] (entry_fields sample_carol) eq_refl)
                      eq_refl))).
Defined.

(** A run on the demo host, from the prompt to the last line: the export
    of [/Shared/a] fails and is passed over, [/Shared/sub] is a directory,
    [/Shared/b] is exported, imported and granted to both principals. *)
Example demo_run :
  let run :=
    sync_notebooks_and_permissions demo_host "aws" "Azure" None
      (Some "cluster-1") [] in
  fst run = Ok tt /\
  map req_method
    (flat_map (fun e => match e with EvHttp r => [r] | _ => [] end) (snd run))
  = [GET; GET; GET; GET; GET; POST; GET; PUT; GET; PUT; GET; GET].
Proof. split; reflexivity. Qed.

(** A run on a machine whose AWS token has a euro sign in it: the first
    call that could be written out raises [UnicodeEncodeError], which no
    [except] clause of the script catches. *)
Example euro_token_run :
  token_encodable (getenv euro_host "AWS_ACCESS_TOKEN") = false /\
  sync_notebooks_and_permissions euro_host "aws" "azure" None None []
  = (Raise UnicodeEncodeError,
     [ EvPrint LogStart;
       EvPrint (LogListingPermissions "aws" (Some "/Shared"));
       EvHttp (status_request (Some "https://dbc-1.cloud.databricks.com")
                 (Some euro_token) (JStr "/Shared")) ]).
Proof. split; vm_compute; reflexivity. Qed.


(** * Further properties *)

(** ** The mapping as a whole *)

Lemma dict_get_put (d : pydict) (k v k' : json) :
  dict_get (dict_put d k v) k' = if key_eqb k k' then Some v else dict_get d k'.
Proof.
  destruct (key_eqb k k') eqn:E; [|now apply dict_get_put_other].
  induction d as [|[a w] d IH]; simpl.
  - now rewrite E.
  - destruct (key_eqb a k) eqn:Ea; simpl.
    + now rewrite (key_eqb_trans _ _ _ Ea E).
    + destruct (key_eqb a k') eqn:Ea'; [|exact IH].
      rewrite key_eqb_sym in E.
      rewrite (key_eqb_trans _ _ _ Ea' E) in Ea. discriminate.
Qed.

Lemma dict_put_length (d : pydict) (k v : json) :
  (length (dict_put d k v) <= S (length d))%nat.
Proof.
  induction d as [|[a w] d IH]; simpl; [lia|].
  destruct (key_eqb a k); simpl; lia.
Qed.

Lemma map_acl_accepts (items : list json) (m : pydict) :
  map_acl (JList items) = Ok m ->
  forallb acl_entry_ok items = true /\ m = spec_mapping items.
Proof.
  intros Hm.
  assert (Hall : forallb acl_entry_ok items = true).
  { unfold map_acl in Hm. simpl in Hm. revert Hm.
    generalize (@nil (json * json)).
    induction items as [|item items IH]; intros m0 Hm; simpl in *;
      [reflexivity|].
    destruct (acl_entry_ok item) eqn:Eok.
    - rewrite (acl_step_ok m0 item Eok) in Hm. simpl in Hm. eauto.
    - destruct (acl_step_malformed m0 item Eok) as [e [He _]].
      rewrite He in Hm. discriminate. }
  split; [assumption|]. rewrite (map_acl_ok items Hall) in Hm. congruence.
Qed.

Lemma fold_put_sound (items : list json) (m0 : pydict) (k v : json) :
  dict_get
    (fold_left
       (fun m item => dict_put m (spec_principal item) (spec_level item))
       items m0) k = Some v ->
  dict_get m0 k = Some v \/
  exists item,
    In item items /\ key_eqb (spec_principal item) k = true /\
    v = spec_level item.
Proof.
  revert m0. induction items as [|item items IH]; intros m0 Hget; simpl in *.
  - now left.
  - destruct (IH _ Hget) as [Hput|[item' [Hin [Hk Hv]]]].
    + rewrite dict_get_put in Hput.
      destruct (key_eqb (spec_principal item) k) eqn:E.
      * right. exists item. injection Hput as <-. auto.
      * now left.
    + right. exists item'. auto.
Qed.

Lemma fold_put_length (items : list json) (m0 : pydict) :
  (length
     (fold_left
        (fun m item => dict_put m (spec_principal item) (spec_level item))
        items m0) <= length m0 + length items)%nat.
Proof.
  revert m0. induction items as [|item items IH]; intros m0; simpl; [lia|].
  specialize (IH (dict_put m0 (spec_principal item) (spec_level item))).
  pose proof (dict_put_length m0 (spec_principal item) (spec_level item)).
  lia.
Qed.

(** X10: whenever the mapper returns a mapping, every level it holds is
    the level of an entry of that principal, every entry's principal has a
    level, no principal occurs twice, and the mapping is no longer than
    the list. *)
Theorem X10_mapping_is_sound_and_complete (items : list json) (m : pydict) :
  map_acl (JList items) = Ok m ->
  (forall k v,
     dict_get m k = Some v ->
     exists item,
       In item items /\ key_eqb (spec_principal item) k = true /\
       v = spec_level item) /\
  (forall item,
     In item items -> exists v, dict_get m (spec_principal item) = Some v) /\
  (forall k, (dict_count m k <= 1)%nat) /\
  (length m <= length items)%nat.
Proof.
  intros Hm. destruct (map_acl_accepts items m Hm) as [_ ->].
  unfold spec_mapping. repeat apply conj.
  - intros k v Hget.
    destruct (fold_put_sound items [] k v Hget) as [Hnil|Hitem];
      [discriminate|assumption].
  - intros item Hin. apply in_split in Hin. destruct Hin as [l1 [l2 ->]].
    rewrite fold_left_app. simpl.
    assert (Hpresent :
      dict_get
        (fold_left
           (fun m item => dict_put m (spec_principal item) (spec_level item))
           l2 (dict_put
                 (fold_left
                    (fun m item =>
                       dict_put m (spec_principal item) (spec_level item))
                    l1 [])
                 (spec_principal item) (spec_level item)))
        (spec_principal item) <> None).
    { apply fold_put_get_present. rewrite dict_get_put_same. discriminate. }
    destruct (dict_get _ (spec_principal item)) as [v|]; [eauto|congruence].
  - intros k. apply fold_put_count_le. unfold dict_count. simpl. lia.
  - apply (fold_put_length items []).
Qed.


(** ** The synchronisation as a whole *)

Section Whole.

Variable H : Host.
Variables source_config target_config : WorkspaceConfig.
Variable cluster_id : option string.

(** The events of the loop, for any property that holds of the lines and
    of the requests a turn can issue. *)
Lemma emits_loop_requests (P : Event -> Prop)
    (source_permissions : option pydict) (l : list json) :
  (forall line, P (EvPrint line)) ->
  (forall nb r,
     In nb l ->
     turn_request H source_config target_config cluster_id nb r ->
     P (EvHttp r)) ->
  emits P
    (for_each l
       (sync_notebook H source_config target_config source_permissions
          cluster_id)).
Proof.
  intros Hprint Hturn. apply emits_for_each. intros nb Hin.
  unfold sync_notebook.
  destruct (py_getitem nb "object_type") as [object_type|e] eqn:Htype;
    [|apply emits_bind_lift_raise].
  apply emits_bind_lift_ok.
  destruct (py_eq_str object_type "NOTEBOOK") eqn:Hnb; [|apply emits_ret].
  assert (Hnote : is_notebook nb = true)
    by (unfold is_notebook; now rewrite Htype).
  destruct (py_getitem nb "path") as [path|e] eqn:Hpath;
    [|apply emits_bind_lift_raise].
  apply emits_bind_lift_ok. apply emits_bind.
  - apply emits_export_notebook; [assumption|].
    apply (Hturn nb); [assumption|]. now constructor.
  - intros [text|]; [|apply emits_ret].
    apply emits_bind_lift_ok. apply emits_bind.
    + apply emits_import_notebook; [assumption|].
      apply (Hturn nb); [assumption|]. now constructor.
    + intros _. destruct (truthy_dict source_permissions); [|apply emits_ret].
      apply emits_for_each. intros entry _.
      apply emits_bind_lift_ok. apply emits_bind; [|intros _; apply emits_ret].
      apply emits_grant_permissions.
      * assumption.
      * apply (Hturn nb); [assumption|]. now constructor.
      * intros w resource Hw Hres. apply (Hturn nb); [assumption|].
        now apply (turn_grant H source_config target_config cluster_id
                     nb path).
Qed.

Lemma emits_sync_workspaces (source_cloud target_cloud : string) :
  emits (source_or_target source_config target_config)
    (sync_workspaces H source_cloud target_cloud source_config
       target_config cluster_id).
Proof.
  set (P := source_or_target source_config target_config).
  assert (Hprint : forall l, P (EvPrint l)) by (intros l; exact I).
  unfold sync_workspaces.
  apply emits_bind; [now apply emits_emit|]. intros _.
  apply emits_bind.
  { apply emits_get_permissions; [assumption| |intros resource _];
      left; now repeat split. }
  intros source_permissions.
  apply emits_bind.
  { destruct (truthy_dict source_permissions); [|now apply emits_emit].
    apply emits_bind; [now apply emits_emit|]. intros _.
    apply emits_for_each. intros entry _. now apply emits_emit. }
  intros _. apply emits_bind.
  { apply emits_list_notebooks; [assumption|]. left. now repeat split. }
  intros source_notebooks.
  apply emits_bind; [apply emits_lift|]. intros notebooks.
  apply emits_bind.
  { apply emits_loop_requests; [assumption|].
    intros nb r _ Hr.
    destruct Hr as [path Hn Hp|path text Hn Hp|path Hn Hp
                   |path w resource email level Hn Hp Hw Hres]; simpl.
    - left. now repeat split.
    - right. now split.
    - right. now split.
    - right. split; [now rewrite Hw|reflexivity]. }
  intros _. apply emits_bind; [now apply emits_emit|]. intros _.
  apply emits_bind.
  { apply emits_get_permissions; [assumption| |intros resource _];
      right; now repeat split. }
  intros target_permissions.
  apply emits_bind; [|intros _; now apply emits_emit].
  destruct (truthy_dict target_permissions); [|now apply emits_emit].
  apply emits_bind; [now apply emits_emit|]. intros _.
  apply emits_for_each. intros entry _. now apply emits_emit.
Qed.

(** X11: the synchronisation never clones, and each of its requests is
    either a GET without a body on the source workspace with the source
    token, or a request on the target workspace with the target token.  So
    when the two workspaces have different URLs, nothing is written to the
    source: every request addressed to it is a GET without a body. *)
Theorem X11_source_is_only_read (source_cloud target_cloud : string)
    (h : History) :
  let events :=
    events_of
      (sync_workspaces H source_cloud target_cloud source_config
         target_config cluster_id) h in
  Forall (source_or_target source_config target_config) events /\
  (url source_config <> url target_config ->
   Forall (only_reads (url source_config)) events).
Proof.
  intros events.
  assert (Hall : Forall (source_or_target source_config target_config) events)
    by (apply emits_events_of; apply emits_sync_workspaces).
  split; [exact Hall|]. intros Hne.
  eapply Forall_impl; [|exact Hall].
  intros [line|r|u d]; simpl; auto.
  intros [[Hget [_ [_ Hjson]]]|[Hw _]] Hsrc; [auto|congruence].
Qed.

(** What a computation bound to a continuation adds to the history. *)
Lemma events_of_bind {A B} (m : M A) (k : A -> M B) (h : History) :
  emits (fun _ => True) m ->
  (forall a, emits (fun _ => True) (k a)) ->
  events_of (bind m k) h
  = events_of m h ++
    match m h with
    | (Ok a, h') => events_of (k a) h'
    | (Raise _, _) => []
    end.
Proof.
  intros Hm Hk. destruct (Hm h) as [evs [Hs _]].
  rewrite (events_of_app m h evs Hs).
  destruct (m h) as [[a|e] h'] eqn:Em; simpl in Hs; subst h'.
  - destruct (Hk a (h ++ evs)) as [evs' [Hs' _]].
    rewrite (events_of_app (k a) (h ++ evs) evs' Hs').
    apply events_of_app. unfold bind. rewrite Em, Hs'.
    now rewrite app_assoc.
  - rewrite app_nil_r. apply events_of_app. unfold bind. now rewrite Em.
Qed.

Lemma emits_any {A} (P : Event -> Prop) (m : M A) :
  emits P m -> emits (fun _ => True) m.
Proof. apply emits_weaken. auto. Qed.

Lemma listings_none (evs : list Event) :
  Forall not_listing evs -> listings evs = [].
Proof.
  unfold listings. induction 1 as [|e evs He _ IH]; [reflexivity|].
  destruct e as [l|r|u d]; simpl; auto.
  fold (requests_of evs). simpl in He. now rewrite He.
Qed.

Lemma listings_app (a b : list Event) :
  listings (a ++ b) = listings a ++ listings b.
Proof. unfold listings. now rewrite requests_of_app, filter_app. Qed.

(** A computation that lists the source directory once if it ends
    normally, and never twice. *)
Let lists_once (c : M unit) : Prop :=
  forall h,
    (length (listings (events_of c h)) <= 1)%nat /\
    (fst (c h) = Ok tt ->
     listings (events_of c h)
     = [list_request (url source_config) (token source_config)
          (of_env (NOTEBOOK_DIR H))]).

Lemma lists_once_after {A} (m : M A) (k : A -> M unit) :
  emits not_listing m ->
  (forall a, emits (fun _ => True) (k a)) ->
  (forall a, lists_once (k a)) ->
  lists_once (bind m k).
Proof.
  intros Hm Hany Hk h.
  rewrite (events_of_bind m k h (emits_any _ _ Hm) Hany), listings_app.
  rewrite (listings_none _ (emits_events_of _ _ h Hm)). simpl app.
  unfold bind. destruct (m h) as [[a|e] h']; [apply Hk|].
  split; [simpl; lia|discriminate].
Qed.

Lemma emits_get_permissions_not_listing (u t : option string) (p : json) :
  emits not_listing (get_permissions H u t p).
Proof.
  apply emits_get_permissions; [intros l; exact I|reflexivity|].
  intros resource Hres. destruct resource; try discriminate; reflexivity.
Qed.

Lemma emits_permission_lines (cloud : string) (permissions : option pydict) :
  emits not_listing
    (if truthy_dict permissions then
       print (LogPermissionsHeader cloud) ;;
       for_each (match permissions with Some d => d | None => [] end)
         (fun entry => print (LogPermissionLine (fst entry) (snd entry)))
     else print (LogNoPermissions cloud (NOTEBOOK_DIR H))).
Proof.
  destruct (truthy_dict permissions); [|now apply emits_emit].
  apply emits_bind; [now apply emits_emit|]. intros _.
  apply emits_for_each. intros entry _. now apply emits_emit.
Qed.

(** What follows the listing in [sync_workspaces]. *)
Let after_listing (target_cloud : string)
    (source_permissions : option pydict) (source_notebooks : json)
    : M unit :=
  let* notebooks := lift (py_iter source_notebooks) in
  for_each notebooks
    (sync_notebook H source_config target_config source_permissions
       cluster_id) ;;
  print (LogListingPermissions target_cloud (NOTEBOOK_DIR H)) ;;
  let* target_permissions :=
    get_permissions H (url target_config) (token target_config)
      (of_env (NOTEBOOK_DIR H)) in
  (if truthy_dict target_permissions then
     print (LogPermissionsHeader target_cloud) ;;
     for_each (match target_permissions with Some d => d | None => [] end)
       (fun entry => print (LogPermissionLine (fst entry) (snd entry)))
   else print (LogNoPermissions target_cloud (NOTEBOOK_DIR H))) ;;
  print LogCompleted.

Lemma emits_after_listing (target_cloud : string)
    (source_permissions : option pydict) (source_notebooks : json) :
  emits not_listing
    (after_listing target_cloud source_permissions source_notebooks).
Proof.
  unfold after_listing.
  apply emits_bind; [apply emits_lift|]. intros notebooks.
  apply emits_bind.
  { apply emits_loop_requests; [intros l; exact I|].
    intros nb r _ Hr. destruct Hr as [| | |? ? resource ? ? ? ? ? Hres];
      try reflexivity.
    destruct resource; try discriminate; reflexivity. }
  intros _. apply emits_bind; [now apply emits_emit|]. intros _.
  apply emits_bind; [apply emits_get_permissions_not_listing|].
  intros target_permissions.
  apply emits_bind; [apply emits_permission_lines|]. intros _.
  now apply emits_emit.
Qed.

Lemma lists_once_from_listing (target_cloud : string)
    (source_permissions : option pydict) :
  lists_once
    (let* source_notebooks :=
       list_notebooks H (url source_config) (token source_config)
         (of_env (NOTEBOOK_DIR H)) in
     after_listing target_cloud source_permissions source_notebooks).
Proof.
  intros h.
  set (lreq := list_request (url source_config) (token source_config)
                 (of_env (NOTEBOOK_DIR H))).
  set (listing := list_notebooks H (url source_config) (token source_config)
                    (of_env (NOTEBOOK_DIR H))).
  assert (Hone : listings (events_of listing h) = [lreq]).
  { pose proof (list_notebooks_run H (url source_config)
                  (token source_config) (of_env (NOTEBOOK_DIR H)) h) as Hrun.
    fold lreq listing in Hrun.
    destruct (fetch_json H h lreq) as [data|e];
      [|destruct (is_RequestException e)].
    - rewrite (events_of_app _ h [EvHttp lreq]) by now rewrite Hrun.
      reflexivity.
    - rewrite (events_of_app _ h
                 [EvHttp lreq; EvPrint (LogListError (url source_config) e)])
        by now rewrite Hrun.
      reflexivity.
    - rewrite (events_of_app _ h [EvHttp lreq]) by now rewrite Hrun.
      reflexivity. }
  rewrite events_of_bind, listings_app, Hone.
  - destruct (listing h) as [[nbs|e] h1]; [|split; [simpl; lia|reflexivity]].
    rewrite (listings_none _
               (emits_events_of _ _ h1
                  (emits_after_listing target_cloud source_permissions nbs))).
    split; [simpl; lia|reflexivity].
  - apply emits_list_notebooks; auto.
  - intros nbs. apply (emits_any _ _ (emits_after_listing _ _ nbs)).
Qed.

(** X15: the synchronisation lists the source directory once and nothing
    else: a run that ends normally contains exactly one listing request,
    for [NOTEBOOK_DIR] on the source workspace, and no run contains two. *)
Theorem X15_one_listing_per_run (source_cloud target_cloud : string)
    (h : History) :
  let run :=
    sync_workspaces H source_cloud target_cloud source_config target_config
      cluster_id in
  (length (filter is_listing (requests_of (events_of run h))) <= 1)%nat /\
  (fst (run h) = Ok tt ->
   filter is_listing (requests_of (events_of run h))
   = [list_request (url source_config) (token source_config)
        (of_env (NOTEBOOK_DIR H))]).
Proof.
  intros run.
  assert (Hany : forall sp,
             emits (fun _ => True)
               (let* source_notebooks :=
                  list_notebooks H (url source_config) (token source_config)
                    (of_env (NOTEBOOK_DIR H)) in
                after_listing target_cloud sp source_notebooks)).
  { intros sp. apply emits_bind.
    - apply emits_list_notebooks; auto.
    - intros nbs. apply (emits_any _ _ (emits_after_listing _ _ nbs)). }
  assert (Hrun : lists_once run).
  { unfold run, sync_workspaces.
    apply lists_once_after; [now apply emits_emit| |].
    - intros _. apply emits_bind;
        [apply (emits_any _ _ (emits_get_permissions_not_listing _ _ _))|].
      intros sp. apply emits_bind;
        [apply (emits_any _ _ (emits_permission_lines _ sp))|].
      intros _. apply Hany.
    - intros _. apply lists_once_after;
        [apply emits_get_permissions_not_listing| |].
      + intros sp. apply emits_bind;
          [apply (emits_any _ _ (emits_permission_lines _ sp))|].
        intros _. apply Hany.
      + intros sp. apply lists_once_after;
          [apply emits_permission_lines| |].
        * intros _. apply Hany.
        * intros _. apply lists_once_from_listing. }
  exact (Hrun h).
Qed.

Variable source_permissions : option pydict.

Let turn : json -> M unit :=
  sync_notebook H source_config target_config source_permissions cluster_id.

(** The grant of one turn for one entry of the source permissions. *)
Let grant_entry_of (nb : json) (entry : json * json) : M unit :=
  let* path := lift (py_getitem nb "path") in
  let* _ :=
    grant_permissions H (url target_config) (token target_config) path
      (fst entry) (snd entry) cluster_id in
  ret tt.

(** A turn whose export gave a text: the import, then the grants, unless
    the import request cannot be written out. *)
Lemma sync_notebook_exported (nb path : json) (text : string)
    (h h1 : History) :
  is_notebook nb = true ->
  py_getitem nb "path" = Ok path ->
  export_notebook H (url source_config) (token source_config) path h
    = (Ok (Some text), h1) ->
  let req :=
    import_request H (url target_config) (token target_config) text path
      "PYTHON" in
  (call_crashes H h1 req = true /\
   turn nb h = (Raise UnicodeEncodeError, h1 ++ [EvHttp req])) \/
  (call_crashes H h1 req = false /\
   exists line,
     turn nb h
     = (if truthy_dict source_permissions
        then for_each
               (match source_permissions with Some d => d | None => [] end)
               (grant_entry_of nb)
        else ret tt)
         (h1 ++ [EvHttp req; EvPrint line])).
Proof.
  intros Hnb Hpath Hexp req. unfold is_notebook in Hnb.
  destruct (py_getitem nb "object_type") as [object_type|] eqn:Htype;
    [|discriminate].
  assert (Hturn :
    turn nb h
    = match import_notebook H (url target_config) (token target_config)
              text path "PYTHON" h1 with
      | (Ok _, h') =>
          (if truthy_dict source_permissions
           then for_each
                  (match source_permissions with Some d => d | None => [] end)
                  (grant_entry_of nb)
           else ret tt) h'
      | (Raise e, h') => (Raise e, h')
      end).
  { unfold turn, sync_notebook, bind at 1, lift at 1. rewrite Htype, Hnb.
    unfold bind at 1, lift at 1. rewrite Hpath.
    unfold bind at 1. rewrite Hexp. cbv beta iota.
    unfold bind at 1, lift at 1. cbv beta iota.
    unfold bind at 1.
    destruct (import_notebook H (url target_config) (token target_config)
                text path "PYTHON" h1) as [[[]|e] h']; [|reflexivity].
    unfold grant_entry_of. rewrite Hpath. reflexivity. }
  rewrite Hturn, import_notebook_run. fold req.
  destruct (call_error H h1 req) as [e|] eqn:Ee.
  - destruct (call_error_raise H _ _ _ Ee) as [[He Hc]|[-> Hc]].
    + right. split; [exact Hc|]. rewrite He. eexists. reflexivity.
    + left. split; [exact Hc|]. reflexivity.
  - right. split; [|eexists; reflexivity].
    destruct (call_crashes H h1 req) eqn:Hc; [|reflexivity].
    apply call_error_crashes in Hc. congruence.
Qed.

(** X12: a notebook is copied even when no source permissions were
    captured ([None], or an empty mapping): the turn is the export, then
    the import of the exported text at the same path with language PYTHON,
    and nothing after it but the line the import prints.  The turn ends
    normally, unless the import request cannot be written out: it then
    ends in a [UnicodeEncodeError] right after the import call. *)
Theorem X12_copy_without_permissions (nb path : json) (text : string)
    (h h1 : History) :
  is_notebook nb = true ->
  py_getitem nb "path" = Ok path ->
  export_notebook H (url source_config) (token source_config) path h
    = (Ok (Some text), h1) ->
  truthy_dict source_permissions = false ->
  let req :=
    import_request H (url target_config) (token target_config) text path
      "PYTHON" in
  if call_crashes H h1 req
  then sync_notebook H source_config target_config source_permissions
         cluster_id nb h
       = (Raise UnicodeEncodeError, h1 ++ [EvHttp req])
  else exists line,
         sync_notebook H source_config target_config source_permissions
           cluster_id nb h
         = (Ok tt, h1 ++ [EvHttp req; EvPrint line]).
Proof.
  intros Hnb Hpath Hexp Hperm req. fold (turn nb).
  destruct (sync_notebook_exported nb path text h h1 Hnb Hpath Hexp)
    as [[Hc Hrun]|[Hc [line Hrun]]]; fold req in Hc; rewrite Hc.
  - exact Hrun.
  - exists line. rewrite Hrun, Hperm. reflexivity.
Qed.

Lemma permissions_resource_is_permissions (st : json) (resource : Resource) :
  permissions_resource st = Some resource ->
  is_permissions_resource resource = true.
Proof.
  intros Hres.
  destruct (permissions_resource_dict st resource Hres)
    as [d [oid [otype [_ [_ [_ [[_ ->]|[_ [_ ->]]]]]]]]]; reflexivity.
Qed.

Lemma grants_loop (nb path : json) (d0 d : pydict) (h0 : History) :
  py_getitem nb "path" = Ok path ->
  incl d d0 ->
  exists evs,
    snd (for_each d (grant_entry_of nb) h0) = h0 ++ evs /\
    Forall (grant_of target_config cluster_id d0 path) (requests_of evs) /\
    (fst (for_each d (grant_entry_of nb) h0) = Ok tt ->
     filter is_status (requests_of evs)
     = repeat (status_request (url target_config) (token target_config) path)
         (length d)).
Proof.
  intros Hpath. revert h0. induction d as [|entry d IH]; intros h0 Hincl.
  - exists []. simpl. rewrite app_nil_r. auto.
  - destruct (grant_permissions_requests H (url target_config)
                (token target_config) path (fst entry) (snd entry)
                cluster_id h0) as [grants [evs [Hsnd [Hreq Hgrants]]]].
    assert (Hone : Forall (grant_of target_config cluster_id d0 path) (requests_of evs) /\
                   filter is_status (requests_of evs)
                   = [status_request (url target_config)
                        (token target_config) path]).
    { rewrite Hreq. unfold grant_of.
      destruct Hgrants as [->|[resource [w [Hp [Hw ->]]]]];
        [split; [constructor; [now left|constructor]|reflexivity]|].
      split.
      - constructor; [now left|]. constructor; [|constructor]. right.
        exists entry, w, resource. repeat split; auto.
        apply Hincl. now left.
      - unfold grant_request. cbn [filter]. unfold is_status. simpl.
        destruct resource; try discriminate; reflexivity. }
    destruct Hone as [Hall Hcount].
    assert (Hstep :
      for_each (entry :: d) (grant_entry_of nb) h0
      = match grant_permissions H (url target_config) (token target_config)
                path (fst entry) (snd entry) cluster_id h0 with
        | (Ok _, h') => for_each d (grant_entry_of nb) h'
        | (Raise e, h') => (Raise e, h')
        end).
    { simpl for_each. unfold bind at 1.
      unfold grant_entry_of at 1, bind at 1, lift at 1. rewrite Hpath.
      unfold bind at 1.
      destruct (grant_permissions H (url target_config)
                  (token target_config) path (fst entry) (snd entry)
                  cluster_id h0) as [[b|e] h']; reflexivity. }
    rewrite Hstep.
    destruct (grant_permissions H (url target_config) (token target_config)
                path (fst entry) (snd entry) cluster_id h0)
      as [[b|e] h'] eqn:Hg; simpl in Hsnd; subst h'.
    + destruct (IH (h0 ++ evs) (fun x Hx => Hincl x (or_intror Hx)))
        as [evs' [Hs' [Hall' Hcount']]].
      exists (evs ++ evs'). rewrite Hs', app_assoc.
      rewrite requests_of_app, filter_app. repeat split.
      * apply Forall_app. auto.
      * intros Hok. rewrite Hcount, (Hcount' Hok). reflexivity.
    + exists evs. repeat split; auto. discriminate.
Qed.

(** X13: in a turn that exports a notebook and ends normally, the export
    and the import are followed by one status lookup on the target per
    entry of the source permissions, and every other request is the grant
    of one of these entries to the target. *)
Theorem X13_one_grant_per_entry (nb path : json) (text : string)
    (d : pydict) (h h1 : History) :
  is_notebook nb = true ->
  py_getitem nb "path" = Ok path ->
  export_notebook H (url source_config) (token source_config) path h
    = (Ok (Some text), h1) ->
  source_permissions = Some d ->
  fst (sync_notebook H source_config target_config source_permissions
         cluster_id nb h) = Ok tt ->
  exists grants,
    requests_of
      (events_of
         (sync_notebook H source_config target_config source_permissions
            cluster_id nb) h)
    = export_request (url source_config) (token source_config) path
      :: import_request H (url target_config) (token target_config) text
           path "PYTHON"
      :: grants /\
    filter is_status grants
    = repeat (status_request (url target_config) (token target_config) path)
        (length d) /\
    Forall (grant_of target_config cluster_id d path) grants.
Proof.
  intros Hnb Hpath Hexp Hperm Hok. fold (turn nb) in Hok |- *.
  destruct (sync_notebook_exported nb path text h h1 Hnb Hpath Hexp)
    as [[_ Hrun]|[_ [line Hrun]]];
    [rewrite Hrun in Hok; discriminate|].
  assert (Hh1 : exists evs,
             h1 = h ++ EvHttp (export_request (url source_config)
                                 (token source_config) path) :: evs /\
             requests_of evs = []).
  { rewrite export_notebook_run in Hexp.
    destruct (fetch_json H h _) as [data|e];
      [|destruct (is_RequestException e); [|discriminate]];
      injection Hexp as _ <-; eexists; split; reflexivity. }
  destruct Hh1 as [evs1 [Hh1 Hevs1]].
  set (h2 := h1 ++ [EvHttp (import_request H (url target_config)
                              (token target_config) text path "PYTHON");
                    EvPrint line]) in *.
  assert (Hloop : exists evs,
             snd (turn nb h) = h2 ++ evs /\
             Forall (grant_of target_config cluster_id d path) (requests_of evs) /\
             filter is_status (requests_of evs)
             = repeat (status_request (url target_config)
                         (token target_config) path) (length d)).
  { rewrite Hrun in Hok |- *. rewrite Hperm in Hok |- *.
    destruct d as [|entry d'].
    - exists []. simpl. rewrite app_nil_r. auto.
    - cbn [truthy_dict] in Hok |- *.
      destruct (grants_loop nb path (entry :: d') (entry :: d') h2 Hpath
                  (incl_refl _)) as [evs [Hs [Hall Hcount]]].
      exists evs. auto. }
  destruct Hloop as [evs [Hs [Hall Hcount]]].
  exists (requests_of evs). repeat split; auto.
  rewrite (events_of_app (turn nb) h
             ([EvHttp (export_request (url source_config)
                         (token source_config) path)] ++ evs1 ++
              [EvHttp (import_request H (url target_config)
                         (token target_config) text path "PYTHON");
               EvPrint line] ++ evs)).
  - rewrite !requests_of_app, Hevs1. reflexivity.
  - rewrite Hs. unfold h2. rewrite Hh1. simpl.
    rewrite <- !app_assoc. reflexivity.
Qed.

(** X14: a listed object that cannot be read ends the loop at once, with
    no request for it and none for the objects after it: an object without
    [object_type] and a notebook without [path] raise [KeyError], a listed
    value that is not an object raises [TypeError]. *)
Theorem X14_unreadable_object_ends_the_loop (nb : json) (rest : list json)
    (h : History) :
  (is_dict nb = false \/
   (exists d, nb = JDict d /\ assoc "object_type" d = None) \/
   (is_notebook nb = true /\
    exists d, nb = JDict d /\ assoc "path" d = None)) ->
  for_each (nb :: rest)
    (sync_notebook H source_config target_config source_permissions
       cluster_id) h
  = (Raise (if is_dict nb then KeyError else TypeError), h).
Proof.
  intros Hcase. simpl for_each. unfold bind at 1, sync_notebook.
  destruct Hcase as [Hnd|[[d [-> Hd]]|[Hnb [d [-> Hd]]]]].
  - rewrite Hnd. destruct nb; try discriminate; reflexivity.
  - unfold bind at 1, lift at 1. simpl. now rewrite Hd.
  - unfold is_notebook in Hnb. unfold bind at 1, lift at 1.
    destruct (py_getitem (JDict d) "object_type") as [object_type|];
      [|discriminate].
    rewrite Hnb. unfold bind at 1, lift at 1. simpl. now rewrite Hd.
Qed.

Lemma emits_turn_any (nb : json) : emits (fun _ => True) (turn nb).
Proof.
  assert (Hloop : emits (fun _ => True) (for_each [nb] turn)).
  { apply emits_loop_requests; auto. }
  intros h. destruct (Hloop h) as [evs [Hs Hall]]. exists evs.
  split; [|exact Hall].
  simpl in Hs. unfold bind in Hs.
  destruct (turn nb h) as [[[]|e] h']; exact Hs.
Qed.

Lemma turn_starts_with_export (nb path : json) (h : History) :
  is_notebook nb = true ->
  py_getitem nb "path" = Ok path ->
  In (export_request (url source_config) (token source_config) path)
     (requests_of (events_of (turn nb) h)).
Proof.
  intros Hnb Hpath.
  set (req := export_request (url source_config) (token source_config) path).
  assert (Hexp : exists r evs1,
             export_notebook H (url source_config) (token source_config)
               path h = (r, h ++ EvHttp req :: evs1)).
  { rewrite export_notebook_run. fold req.
    destruct (fetch_json H h req) as [data|e];
      [|destruct (is_RequestException e)]; eexists; eexists; reflexivity. }
  destruct Hexp as [r [evs1 Hexp]].
  assert (Hturn : exists tail,
             snd (turn nb h) = (h ++ EvHttp req :: evs1) ++ tail).
  { destruct r as [[text|]|e].
    - destruct (sync_notebook_exported nb path text h _ Hnb Hpath Hexp)
        as [[_ Hrun]|[_ [line Hrun]]]; rewrite Hrun;
        [eexists; reflexivity|].
      destruct (truthy_dict source_permissions).
      + destruct (grants_loop nb path
                    (match source_permissions with Some d => d | None => [] end)
                    (match source_permissions with Some d => d | None => [] end)
                    ((h ++ EvHttp req :: evs1) ++
                     [EvHttp (import_request H (url target_config)
                                (token target_config) text path "PYTHON");
                      EvPrint line]) Hpath (incl_refl _))
          as [evs [Hs _]].
        eexists. etransitivity; [exact Hs|].
        rewrite <- app_assoc. reflexivity.
      + eexists. reflexivity.
    - exists []. rewrite app_nil_r. unfold turn.
      now rewrite (sync_notebook_export_failed H source_config target_config
                     source_permissions cluster_id nb path h _ Hnb Hpath Hexp).
    - exists []. rewrite app_nil_r. unfold is_notebook in Hnb.
      destruct (py_getitem nb "object_type") as [object_type|] eqn:Htype;
        [|discriminate].
      unfold turn, sync_notebook, bind at 1, lift at 1. rewrite Htype, Hnb.
      unfold bind at 1, lift at 1. rewrite Hpath.
      unfold bind at 1. now rewrite Hexp. }
  destruct Hturn as [tail Hturn].
  rewrite (events_of_app (turn nb) h ((EvHttp req :: evs1) ++ tail))
    by (rewrite Hturn; now rewrite <- app_assoc).
  simpl. now left.
Qed.

(** X19: a loop that ends normally has asked for the export of every
    listed notebook: no notebook of the listing is passed over. *)
Theorem X19_every_notebook_is_exported (l : list json) (h : History)
    (nb : json) :
  fst (for_each l
         (sync_notebook H source_config target_config source_permissions
            cluster_id) h) = Ok tt ->
  In nb l ->
  is_notebook nb = true ->
  exists path,
    py_getitem nb "path" = Ok path /\
    In (export_request (url source_config) (token source_config) path)
       (requests_of
          (events_of
             (for_each l
                (sync_notebook H source_config target_config
                   source_permissions cluster_id)) h)).
Proof.
  fold turn. revert h. induction l as [|x l IH]; intros h Hok Hin Hnb;
    [contradiction|].
  assert (Hloop : forall l', emits (fun _ => True) (for_each l' turn)).
  { intros l'. apply emits_loop_requests; auto. }
  simpl for_each in Hok |- *.
  rewrite (events_of_bind (turn x) (fun _ => for_each l turn) h
             (emits_turn_any x) (fun _ => Hloop l)).
  rewrite requests_of_app. unfold bind in Hok.
  destruct (turn x h) as [[[]|e] h'] eqn:Hx; [|discriminate].
  destruct Hin as [->|Hin].
  - destruct (py_getitem nb "path") as [path|e] eqn:Hpath.
    + exists path. split; [reflexivity|]. apply in_or_app. left.
      exact (turn_starts_with_export nb path h Hnb Hpath).
    + exfalso. unfold is_notebook in Hnb.
      destruct (py_getitem nb "object_type") as [object_type|] eqn:Htype;
        [|discriminate].
      unfold turn, sync_notebook, bind at 1, lift at 1 in Hx.
      rewrite Htype, Hnb in Hx.
      unfold bind at 1, lift at 1 in Hx. rewrite Hpath in Hx. discriminate.
  - destruct (IH h' Hok Hin Hnb) as [path [Hpath Hexp]].
    exists path. split; [assumption|]. apply in_or_app. now right.
Qed.

End Whole.


(** ** Seeding and the optional inputs *)

Section Seeding.

Variable H : Host.

(** X16: with a Git URL, a seeding step that cannot even run its clone
    ends the whole run with an exception and without any HTTP call: a
    [TypeError] before the clone when [NOTEBOOK_DIR] is not set, an
    [OSError] when no [git] process can be started. *)
Theorem X16_seeding_errors_end_the_run (source_cloud target_cloud : string)
    (source_config target_config : WorkspaceConfig) (git_url : string)
    (cluster_id : option string) (h : History) :
  get_workspace_config H source_cloud = Some source_config ->
  get_workspace_config H target_cloud = Some target_config ->
  git_url <> "" ->
  (NOTEBOOK_DIR H = None ->
   sync_notebooks_and_permissions H source_cloud target_cloud (Some git_url)
     cluster_id h
   = (Raise TypeError, h ++ [EvPrint LogStart])) /\
  (forall dir,
     NOTEBOOK_DIR H = Some dir ->
     git H (h ++ [EvPrint LogStart]) git_url dir = GitNotStarted ->
     sync_notebooks_and_permissions H source_cloud target_cloud (Some git_url)
       cluster_id h
     = (Raise OSError, h ++ [EvPrint LogStart; EvGitClone git_url dir])).
Proof.
  intros Hsrc Htgt Hurl.
  assert (Ht : truthy_env (Some git_url) = true).
  { unfold truthy_env. simpl. now destruct (String.eqb_spec git_url ""). }
  split.
  - intros Hdir. unfold sync_notebooks_and_permissions.
    unfold bind at 1, print at 1, emit at 1. rewrite Hsrc, Htgt, Ht.
    unfold bind at 1, pull_notebooks_from_git, try_except,
      subprocess_run_git_clone.
    rewrite Hdir. reflexivity.
  - intros dir Hdir Hgit. unfold sync_notebooks_and_permissions.
    unfold bind at 1, print at 1, emit at 1. rewrite Hsrc, Htgt, Ht.
    unfold bind at 1, pull_notebooks_from_git, try_except,
      subprocess_run_git_clone.
    rewrite Hdir. unfold bind at 1. rewrite Hgit. simpl.
    now rewrite <- app_assoc.
Qed.

(** X17: after a clone that exits with 0 the run is the synchronisation
    itself, started from the history the seeding left: nothing of what
    follows depends on the clone otherwise. *)
Theorem X17_successful_seeding_continues (source_cloud target_cloud : string)
    (source_config target_config : WorkspaceConfig) (git_url dir : string)
    (cluster_id : option string) (h : History) :
  get_workspace_config H source_cloud = Some source_config ->
  get_workspace_config H target_cloud = Some target_config ->
  git_url <> "" ->
  NOTEBOOK_DIR H = Some dir ->
  git H (h ++ [EvPrint LogStart]) git_url dir = GitExit 0 ->
  sync_notebooks_and_permissions H source_cloud target_cloud (Some git_url)
    cluster_id h
  = sync_workspaces H source_cloud target_cloud source_config target_config
      cluster_id
      (h ++ [EvPrint LogStart; EvGitClone git_url dir;
             EvPrint (LogGitPulled git_url)]).
Proof.
  intros Hsrc Htgt Hurl Hdir Hgit.
  assert (Ht : truthy_env (Some git_url) = true).
  { unfold truthy_env. simpl. now destruct (String.eqb_spec git_url ""). }
  unfold sync_notebooks_and_permissions.
  unfold bind at 1, print at 1, emit at 1. rewrite Hsrc, Htgt, Ht.
  unfold bind at 1, pull_notebooks_from_git, try_except,
    subprocess_run_git_clone.
  rewrite Hdir. unfold bind at 1. rewrite Hgit.
  unfold bind, print, emit, ret. simpl.
  rewrite <- !app_assoc. reflexivity.
Qed.

(** X18: an empty string for an optional input is the same as no input:
    with the Git URL [""] no clone is attempted, and with the cluster id
    [""] every grant is the one made without a cluster id. *)
Theorem X18_empty_inputs_are_absent (source_cloud target_cloud : string)
    (git_url cluster_id : option string) (h : History) :
  sync_notebooks_and_permissions H source_cloud target_cloud (Some "")
    cluster_id h
  = sync_notebooks_and_permissions H source_cloud target_cloud None
      cluster_id h /\
  sync_notebooks_and_permissions H source_cloud target_cloud git_url
    (Some "") h
  = sync_notebooks_and_permissions H source_cloud target_cloud git_url
      None h /\
  existsb is_clone
    (events_of
       (sync_notebooks_and_permissions H source_cloud target_cloud (Some "")
          cluster_id) h) = false.
Proof.
  split; [reflexivity|]. split; [reflexivity|].
  apply existsb_false_Forall. apply emits_events_of.
  unfold sync_notebooks_and_permissions.
  apply emits_bind; [now apply emits_emit|]. intros _.
  assert (Hinvalid : emits (fun e => is_clone e = false)
                       (print LogInvalidProvider ;; ret tt)).
  { apply emits_bind; [now apply emits_emit|]. intros _. apply emits_ret. }
  destruct (get_workspace_config H source_cloud) as [source_config|];
    [|exact Hinvalid].
  destruct (get_workspace_config H target_cloud) as [target_config|];
    [|exact Hinvalid].
  change (truthy_env (Some "")) with false. cbv iota.
  eapply emits_weaken; [|apply emits_sync_workspaces].
  intros [l|r|u d]; simpl; auto. contradiction.
Qed.

End Seeding.


(** ** The further properties on the sample hosts *)

Lemma X5_witness :
  let u := Some "https://adb-1.azuredatabricks.net" in
  let t := Some "azure-token" in
  let h1 := [EvHttp (status_request u t (JStr "/Shared/lib"))] in
  (get_object_status (status_host sample_library) u t (JStr "/Shared/lib") []
   = (Ok sample_library, h1) /\
   permissions_resource sample_library = None /\
   (is_dict sample_library = true \/ truthy sample_library = false)) /\
  (fst (get_permissions (status_host sample_library) u t
          (JStr "/Shared/lib") []) = Ok None /\
   requests_of (events_of (get_permissions (status_host sample_library) u t
                             (JStr "/Shared/lib")) [])
   = [status_request u t (JStr "/Shared/lib")]) /\
  (fst (grant_permissions (status_host sample_library) u t
          (JStr "/Shared/lib") (JStr "alice") (JStr "CAN_RUN") None [])
   = Ok false /\
   requests_of (events_of (grant_permissions (status_host sample_library) u t
                             (JStr "/Shared/lib") (JStr "alice")
                             (JStr "CAN_RUN") None) [])
   = [status_request u t (JStr "/Shared/lib")]).
Proof.
  intros u t h1.
  assert (Hst : get_object_status (status_host sample_library) u t
                  (JStr "/Shared/lib") [] = (Ok sample_library, h1))
    by reflexivity.
  split; [split; [exact Hst|split; [reflexivity|left; reflexivity]]|].
  exact (X5_no_endpoint_without_supported_type (status_host sample_library)
           u t (JStr "/Shared/lib") (JStr "alice") (JStr "CAN_RUN")
           sample_library None [] h1 Hst eq_refl (or_introl eq_refl)).
Defined.

Lemma X6_witness :
  let u := Some "https://adb-1.azuredatabricks.net" in
  let t := Some "azure-token" in
  let h1 := [EvHttp (status_request u t (JStr "/Shared/a"))] in
  (get_object_status (status_host (JStr "ok")) u t (JStr "/Shared/a") []
   = (Ok (JStr "ok"), h1) /\
   truthy (JStr "ok") = true /\ is_dict (JStr "ok") = false) /\
  get_permissions (status_host (JStr "ok")) u t (JStr "/Shared/a") []
  = (Raise AttributeError, h1) /\
  grant_permissions (status_host (JStr "ok")) u t (JStr "/Shared/a")
    (JStr "alice") (JStr "CAN_RUN") None []
  = (Raise AttributeError, h1).
Proof.
  intros u t h1.
  assert (Hst : get_object_status (status_host (JStr "ok")) u t
                  (JStr "/Shared/a") [] = (Ok (JStr "ok"), h1))
    by reflexivity.
  split; [split; [exact Hst|split; reflexivity]|].
  exact (X6_status_not_an_object_raises (status_host (JStr "ok")) u t
           (JStr "/Shared/a") (JStr "alice") (JStr "CAN_RUN") (JStr "ok")
           None [] h1 Hst eq_refl eq_refl).
Defined.

Lemma X8_witness :
  let u := Some "https://adb-1.azuredatabricks.net" in
  let t := Some "azure-token" in
  let st := JDict [("object_id", JInt 2); ("object_type", JStr "NOTEBOOK")] in
  let h1 := [EvHttp (status_request u t (JStr "/Shared/b"))] in
  get_object_status demo_host u t (JStr "/Shared/b") [] = (Ok st, h1) /\
  requests_of (events_of (grant_permissions demo_host u t (JStr "/Shared/b")
                            (JStr "alice") (JStr "CAN_MANAGE")
                            (Some "cluster-1")) [])
  = [status_request u t (JStr "/Shared/b");
     grant_request "https://adb-1.azuredatabricks.net" t
       (PermissionsNotebooks (JInt 2)) (JStr "alice") (JStr "CAN_MANAGE")
       (Some "cluster-1")] /\
  requests_of (events_of (get_permissions demo_host u t (JStr "/Shared/b")) [])
  = [status_request u t (JStr "/Shared/b");
     permissions_request u t (PermissionsNotebooks (JInt 2))].
Proof.
  intros u t st h1.
  assert (Hst : get_object_status demo_host u t (JStr "/Shared/b") []
                = (Ok st, h1)) by reflexivity.
  split; [exact Hst|].
  exact (X8_permission_requests demo_host u t (JStr "/Shared/b")
           (JStr "alice") (JStr "CAN_MANAGE") st (Some "cluster-1") [] h1 Hst).
Defined.

Lemma X10_witness :
  let items := [sample_alice_read; sample_bob; sample_alice] in
  let m := [(JStr "alice", JStr "CAN_MANAGE"); (JStr "bob", JStr "CAN_READ")] in
  map_acl (JList items) = Ok m /\
  (forall k v,
     dict_get m k = Some v ->
     exists item,
       In item items /\ key_eqb (spec_principal item) k = true /\
       v = spec_level item) /\
  (forall item,
     In item items -> exists v, dict_get m (spec_principal item) = Some v) /\
  (forall k, (dict_count m k <= 1)%nat) /\
  (length m <= length items)%nat.
Proof.
  intros items m.
  assert (Hm : map_acl (JList items) = Ok m) by reflexivity.
  split; [exact Hm|].
  exact (X10_mapping_is_sound_and_complete items m Hm).
Defined.

Lemma X12_witness :
  let h1 := [EvHttp (export_request (url sample_aws) (token sample_aws)
                       (JStr "/Shared/b"))] in
  (is_notebook sample_notebook_b = true /\
   py_getitem sample_notebook_b "path" = Ok (JStr "/Shared/b") /\
   export_notebook demo_host (url sample_aws) (token sample_aws)
     (JStr "/Shared/b") [] = (Ok (Some "print(1)"), h1) /\
   truthy_dict (Some []) = false) /\
  call_crashes demo_host h1
    (import_request demo_host (url sample_azure) (token sample_azure)
       "print(1)" (JStr "/Shared/b") "PYTHON") = false /\
  exists line,
    sync_notebook demo_host sample_aws sample_azure (Some []) None
      sample_notebook_b []
    = (Ok tt,
       h1 ++ [EvHttp (import_request demo_host (url sample_azure)
                        (token sample_azure) "print(1)" (JStr "/Shared/b")
                        "PYTHON");
              EvPrint line]).
Proof.
  intros h1.
  split; [repeat split|]. split; [reflexivity|].
  apply (X12_copy_without_permissions demo_host sample_aws sample_azure None
           (Some []) sample_notebook_b (JStr "/Shared/b") "print(1)" [] h1);
    reflexivity.
Defined.

Lemma X11_witness :
  url sample_aws <> url sample_azure /\
  Forall (only_reads (url sample_aws))
    (events_of
       (sync_workspaces demo_host "aws" "azure" sample_aws sample_azure None)
       []).
Proof.
  assert (Hne : url sample_aws <> url sample_azure) by discriminate.
  split; [exact Hne|].
  exact (proj2 (X11_source_is_only_read demo_host sample_aws sample_azure
                  None "aws" "azure" []) Hne).
Defined.

Lemma X13_witness :
  let d := [(JStr "alice", JStr "CAN_MANAGE"); (JStr "bob", JStr "CAN_READ")] in
  let h1 := [EvHttp (export_request (url sample_aws) (token sample_aws)
                       (JStr "/Shared/b"))] in
  (is_notebook sample_notebook_b = true /\
   py_getitem sample_notebook_b "path" = Ok (JStr "/Shared/b") /\
   export_notebook demo_host (url sample_aws) (token sample_aws)
     (JStr "/Shared/b") [] = (Ok (Some "print(1)"), h1) /\
   fst (sync_notebook demo_host sample_aws sample_azure (Some d) None
          sample_notebook_b []) = Ok tt) /\
  exists grants,
    requests_of
      (events_of
         (sync_notebook demo_host sample_aws sample_azure (Some d) None
            sample_notebook_b) [])
    = export_request (url sample_aws) (token sample_aws) (JStr "/Shared/b")
      :: import_request demo_host (url sample_azure) (token sample_azure)
           "print(1)" (JStr "/Shared/b") "PYTHON"
      :: grants /\
    filter is_status grants
    = repeat (status_request (url sample_azure) (token sample_azure)
                (JStr "/Shared/b")) (length d) /\
    Forall (grant_of sample_azure None d (JStr "/Shared/b")) grants.
Proof.
  intros d h1.
  split; [repeat split|].
  apply (X13_one_grant_per_entry demo_host sample_aws sample_azure None
           (Some d) sample_notebook_b (JStr "/Shared/b") "print(1)" d [] h1);
    reflexivity.
Defined.

Lemma X14_witness :
  let nb := JDict [("path", JStr "/Shared/a")] in
  (is_dict nb = false \/
   (exists d, nb = JDict d /\ assoc "object_type" d = None) \/
   (is_notebook nb = true /\
    exists d, nb = JDict d /\ assoc "path" d = None)) /\
  for_each [nb; sample_notebook_b]
    (sync_notebook demo_host sample_aws sample_azure None None) []
  = (Raise KeyError, []).
Proof.
  intros nb.
  assert (Hcase : is_dict nb = false \/
                  (exists d, nb = JDict d /\ assoc "object_type" d = None) \/
                  (is_notebook nb = true /\
                   exists d, nb = JDict d /\ assoc "path" d = None)).
  { right. left. exists [("path", JStr "/Shared/a")]. split; reflexivity. }
  split; [exact Hcase|].
  exact (X14_unreadable_object_ends_the_loop demo_host sample_aws sample_azure
           None None nb [sample_notebook_b] [] Hcase).
Defined.

Lemma X16_witness :
  (get_workspace_config bare_host "aws" = Some sample_aws /\
   get_workspace_config bare_host "azure" = Some sample_azure /\
   "git@example.com:team/notebooks.git" <> "" /\
   NOTEBOOK_DIR bare_host = None) /\
  sync_notebooks_and_permissions bare_host "aws" "azure"
    (Some "git@example.com:team/notebooks.git") None []
  = (Raise TypeError, [] ++ [EvPrint LogStart]).
Proof.
  assert (Hurl : "git@example.com:team/notebooks.git" <> "") by discriminate.
  split; [repeat split; exact Hurl|].
  exact (proj1 (X16_seeding_errors_end_the_run bare_host "aws" "azure"
                  sample_aws sample_azure
                  "git@example.com:team/notebooks.git" None []
                  eq_refl eq_refl Hurl) eq_refl).
Defined.

Lemma X17_witness :
  (get_workspace_config cloning_host "aws" = Some sample_aws /\
   get_workspace_config cloning_host "azure" = Some sample_azure /\
   "git@example.com:team/notebooks.git" <> "" /\
   NOTEBOOK_DIR cloning_host = Some "/Shared" /\
   git cloning_host ([] ++ [EvPrint LogStart])
     "git@example.com:team/notebooks.git" "/Shared" = GitExit 0) /\
  sync_notebooks_and_permissions cloning_host "aws" "azure"
    (Some "git@example.com:team/notebooks.git") None []
  = sync_workspaces cloning_host "aws" "azure" sample_aws sample_azure None
      ([] ++ [EvPrint LogStart;
              EvGitClone "git@example.com:team/notebooks.git" "/Shared";
              EvPrint (LogGitPulled "git@example.com:team/notebooks.git")]).
Proof.
  assert (Hurl : "git@example.com:team/notebooks.git" <> "") by discriminate.
  split; [repeat split; exact Hurl|].
  exact (X17_successful_seeding_continues cloning_host "aws" "azure"
           sample_aws sample_azure "git@example.com:team/notebooks.git"
           "/Shared" None [] eq_refl eq_refl Hurl eq_refl eq_refl).
Defined.

Lemma X19_witness :
  (fst (for_each sample_objects
          (sync_notebook demo_host sample_aws sample_azure None None) [])
   = Ok tt /\
   In sample_notebook_b sample_objects /\
   is_notebook sample_notebook_b = true) /\
  exists path,
    py_getitem sample_notebook_b "path" = Ok path /\
    In (export_request (url sample_aws) (token sample_aws) path)
       (requests_of
          (events_of
             (for_each sample_objects
                (sync_notebook demo_host sample_aws sample_azure None None))
             [])).
Proof.
  assert (Hin : In sample_notebook_b sample_objects)
    by (right; right; left; reflexivity).
  split; [split; [reflexivity|split; [exact Hin|reflexivity]]|].
  exact (X19_every_notebook_is_exported demo_host sample_aws sample_azure
           None None sample_objects [] sample_notebook_b eq_refl Hin eq_refl).
Defined.

Lemma X15_witness :
  fst (sync_workspaces demo_host "aws" "azure" sample_aws sample_azure None [])
  = Ok tt /\
  filter is_listing
    (requests_of
       (events_of
          (sync_workspaces demo_host "aws" "azure" sample_aws sample_azure
             None) []))
  = [list_request (url sample_aws) (token sample_aws)
       (of_env (NOTEBOOK_DIR demo_host))].
Proof.
  split; [reflexivity|].
  exact (proj2 (X15_one_listing_per_run demo_host sample_aws sample_azure
                  None "aws" "azure" []) eq_refl).
Defined.
